(** * MufflerManOS: the analytics engine, its stores and the realtime broadcaster

    A shallow embedding of [src/modules/analytics/analytics.ts] (class
    [AnalyticsModule]) and of the broadcast loop of [MufflerManOS.setupWebSockets]
    in the server entry point, with the properties of the cache, the report and
    dashboard stores, the alert check and the broadcast tick.

    After them come the other stores of the shop and what the server does with
    them: [CustomersModule] (customers, vehicles, service records and
    appointments), [InventoryModule] (items, stock transactions, suppliers and
    purchase orders), and the diagnostics, assignments and VR routes of
    [MufflerManOS.setupRoutes] with the modules behind them.

    Conventions of the embedding:
    - a JavaScript [number] is a binary64 float ([PrimFloat.float]); a [Date] is
      its [getTime()] value, an integer number of milliseconds ([Z]);
    - [Date.now()], [new Date()] and [Math.random()] read an environment [Env]
      that holds an oracle for each and the number of reads made so far;
    - an [async] method is a computation [Eff St A]: a function from the state to
      an outcome (a value or a thrown [Error]) and the state it leaves.  A thrown
      error keeps the state reached, as in JavaScript;
    - a call runs to its end before the next one starts: the interleaving of
      concurrent requests at an [await] is not modelled;
    - a [Map] keeps its keys in insertion order ([JSMap]) where the code
      enumerates it; the cache, which is only looked up, is a [gmap]. *)

From Stdlib Require Import ZArith String Ascii List Lia PrimFloat Uint63.
From stdpp Require Import base gmap strings list sorting pretty.

Set Warnings "-inexact-float".

Open Scope string_scope.
Open Scope Z_scope.

(** ** Computations with state and exceptions *)

(** [throw new Error(message)] *)
Inductive JsError : Type :=
| Error (message : string).

Inductive Outcome (A : Type) : Type :=
| Ok (value : A)
| Throw (error : JsError).

Arguments Ok {A} value.
Arguments Throw {A} error.

Definition Eff (St A : Type) : Type := St -> Outcome A * St.

Definition ret {St A} (a : A) : Eff St A := fun s => (Ok a, s).

Definition throw {St A} (e : JsError) : Eff St A := fun s => (Throw e, s).

Definition bind {St A B} (m : Eff St A) (k : A -> Eff St B) : Eff St B :=
  fun s =>
    match m s with
    | (Ok a, s') => k a s'
    | (Throw e, s') => (Throw e, s')
    end.

(** [try { body } catch (error) { handler }] *)
Definition tryCatch {St A} (body : Eff St A) (handler : JsError -> Eff St A) : Eff St A :=
  fun s =>
    match body s with
    | (Ok a, s') => (Ok a, s')
    | (Throw e, s') => handler e s'
    end.

Definition gets {St A} (f : St -> A) : Eff St A := fun s => (Ok (f s), s).

Definition modify {St} (f : St -> St) : Eff St unit := fun s => (Ok tt, f s).

(** Runs a computation on a component [T] of the state [St]. *)
Definition zoom {St T A} (proj : St -> T) (upd : T -> St -> St) (m : Eff T A) : Eff St A :=
  fun s => let (r, t') := m (proj s) in (r, upd t' s).

Declare Scope eff_scope.
Delimit Scope eff_scope with eff.
Bind Scope eff_scope with Eff.

Notation "x <- m ;; k" := (bind m (fun x => k))
  (at level 100, m at next level, right associativity) : eff_scope.
Notation "m ;; k" := (bind m (fun _ => k))
  (at level 100, right associativity) : eff_scope.

Open Scope eff_scope.

(** [Array.from({ length: n }, (_, i) => f i)] with an effectful [f]: the
    elements are computed in index order. *)
Fixpoint arrayFromAux {St A} (f : nat -> Eff St A) (i n : nat) : Eff St (list A) :=
  match n with
  | O => ret []
  | S n' => x <- f i ;; xs <- arrayFromAux f (S i) n' ;; ret (x :: xs)
  end.

Definition arrayFrom {St A} (length : nat) (f : nat -> Eff St A) : Eff St (list A) :=
  arrayFromAux f 0%nat length.

(** ** The environment: wall clock and random numbers *)

Record Env : Type := mkEnv {
  clock : nat -> Z;          (* the value of the k-th read of the clock *)
  clockReads : nat;          (* reads of the clock made so far *)
  random : nat -> float;     (* the value of the k-th Math.random() *)
  randomDraws : nat          (* draws made so far *)
}.

(** The value the next read of the clock returns. *)
Definition nextNow (e : Env) : Z := clock e (clockReads e).

(** The value the next [Math.random()] returns. *)
Definition nextRandom (e : Env) : float := random e (randomDraws e).

Definition tickClock (e : Env) : Env :=
  {| clock := clock e; clockReads := S (clockReads e);
     random := random e; randomDraws := randomDraws e |}.

Definition drawRandom (e : Env) : Env :=
  {| clock := clock e; clockReads := clockReads e;
     random := random e; randomDraws := S (randomDraws e) |}.

(** [Date.now()] *)
Definition dateNow : Eff Env Z := fun e => (Ok (nextNow e), tickClock e).

(** [new Date()] *)
Definition newDate : Eff Env Z := dateNow.

(** [Math.random()] *)
Definition mathRandom : Eff Env float := fun e => (Ok (nextRandom e), drawRandom e).

(** ** [Map] with insertion order *)

Module JSMap.

Definition t (V : Type) : Type := list (string * V).

Definition empty {V} : t V := [].

(** [map.get(key)] *)
Fixpoint get {V} (key : string) (m : t V) : option V :=
  match m with
  | [] => None
  | (k, v) :: rest => if String.eqb key k then Some v else get key rest
  end.

(** [map.set(key, value)]: a key already present keeps its place. *)
Fixpoint set {V} (key : string) (value : V) (m : t V) : t V :=
  match m with
  | [] => [(key, value)]
  | (k, v) :: rest =>
      if String.eqb key k then (k, value) :: rest else (k, v) :: set key value rest
  end.

(** [Array.from(map.values())] *)
Definition values {V} (m : t V) : list V := map snd m.

Definition keys {V} (m : t V) : list string := map fst m.

End JSMap.

(** ** The data model of [analytics.ts]

    The interfaces of the source, field for field and in the source's order.
    The element types of the arrays are anonymous object types in the source;
    they are named here, and field names carry a prefix where two interfaces
    share one. *)

(** *** [RevenueAnalytics] *)

Record MonthlyRevenue : Type := mkMonthlyRevenue {
  mr_month : string; mr_revenue : float; mr_growth : float }.

Record ServiceRevenue : Type := mkServiceRevenue {
  sr_service : string; sr_revenue : float; sr_percentage : float }.

Record TechnicianRevenue : Type := mkTechnicianRevenue {
  tr_technician : string; tr_revenue : float; tr_jobs : float }.

Record RevenueDay : Type := mkRevenueDay {
  rd_date : string; rd_revenue : float }.

Record RevenueAnalytics : Type := mkRevenueAnalytics {
  totalRevenue : float;
  monthlyRevenue : list MonthlyRevenue;
  revenueByService : list ServiceRevenue;
  revenueByTechnician : list TechnicianRevenue;
  averageTicketValue : float;
  profitMargin : float;
  topRevenueDays : list RevenueDay
}.

(** *** [OperationsAnalytics] *)

Record PriorityCount : Type := mkPriorityCount {
  pc_priority : string; pc_count : float; pc_percentage : float }.

Record StatusCount : Type := mkStatusCount {
  sc_status : string; sc_count : float; sc_percentage : float }.

Record BayUtilization : Type := mkBayUtilization {
  bu_bay : string; bu_utilization : float; bu_jobs : float }.

Record EquipmentUtilization : Type := mkEquipmentUtilization {
  eu_equipment : string; eu_utilization : float; eu_hours : float }.

Record EfficiencyMetrics : Type := mkEfficiencyMetrics {
  jobsPerDay : float;
  averageCompletionTime : float;
  onTimeCompletion : float;
  em_customerSatisfaction : float
}.

Record OperationsAnalytics : Type := mkOperationsAnalytics {
  totalJobs : float;
  completedJobs : float;
  pendingJobs : float;
  averageJobDuration : float;
  jobsByPriority : list PriorityCount;
  jobsByStatus : list StatusCount;
  bayUtilization : list BayUtilization;
  equipmentUtilization : list EquipmentUtilization;
  efficiencyMetrics : EfficiencyMetrics
}.

(** *** [CustomerAnalytics] *)

Record TopCustomer : Type := mkTopCustomer {
  tc_customer : string; tc_value : float; tc_visits : float }.

Record CustomerSegment : Type := mkCustomerSegment {
  cs_segment : string; cs_count : float; cs_percentage : float }.

Record RatingCount : Type := mkRatingCount {
  rc_rating : float; rc_count : float }.

Record CustomerSatisfaction : Type := mkCustomerSatisfaction {
  averageRating : float;
  totalReviews : float;
  ratingDistribution : list RatingCount
}.

Record CustomerAnalytics : Type := mkCustomerAnalytics {
  totalCustomers : float;
  activeCustomers : float;
  newCustomers : float;
  customerRetention : float;
  averageCustomerValue : float;
  customerLifetimeValue : float;
  topCustomers : list TopCustomer;
  customerSegments : list CustomerSegment;
  customerSatisfaction : CustomerSatisfaction
}.

(** *** [InventoryAnalytics] *)

Record SellingItem : Type := mkSellingItem {
  si_item : string; si_quantity : float; si_revenue : float }.

Record SlowMovingItem : Type := mkSlowMovingItem {
  sm_item : string; sm_daysInStock : float; sm_quantity : float }.

Record CategoryPerformance : Type := mkCategoryPerformance {
  cp_category : string; cp_revenue : float; cp_items : float }.

Record SupplierPerformance : Type := mkSupplierPerformance {
  sp_supplier : string; sp_items : float; sp_value : float; sp_rating : float }.

Record InventoryAnalytics : Type := mkInventoryAnalytics {
  totalItems : float;
  totalValue : float;
  lowStockItems : float;
  outOfStockItems : float;
  turnoverRate : float;
  topSellingItems : list SellingItem;
  slowMovingItems : list SlowMovingItem;
  categoryPerformance : list CategoryPerformance;
  supplierPerformance : list SupplierPerformance
}.

(** *** [PerformanceAnalytics] *)

Record TechnicianPerformance : Type := mkTechnicianPerformance {
  tp_technician : string;
  tp_jobsCompleted : float;
  tp_averageRating : float;
  tp_efficiency : float;
  tp_revenue : float
}.

Record BayPerformance : Type := mkBayPerformance {
  bp_bay : string;
  bp_jobsCompleted : float;
  bp_utilization : float;
  bp_revenue : float;
  bp_averageJobTime : float
}.

Record EquipmentPerformance : Type := mkEquipmentPerformance {
  ep_equipment : string;
  ep_usageHours : float;
  ep_maintenanceCost : float;
  ep_efficiency : float
}.

Record QualityMetrics : Type := mkQualityMetrics {
  reworkRate : float;
  warrantyClaims : float;
  customerComplaints : float;
  firstTimeFixRate : float
}.

Record PerformanceAnalytics : Type := mkPerformanceAnalytics {
  technicianPerformance : list TechnicianPerformance;
  bayPerformance : list BayPerformance;
  equipmentPerformance : list EquipmentPerformance;
  qualityMetrics : QualityMetrics
}.

(** *** [TrendAnalytics] *)

Record RevenueTrend : Type := mkRevenueTrend {
  rt_period : string; rt_revenue : float; rt_growth : float }.

Record CustomerTrend : Type := mkCustomerTrend {
  ct_period : string; ct_customers : float; ct_growth : float }.

Record JobTrend : Type := mkJobTrend {
  jt_period : string; jt_jobs : float; jt_growth : float }.

Record SeasonalPattern : Type := mkSeasonalPattern {
  sn_month : string; sn_averageRevenue : float; sn_peak : bool }.

(** ['increasing' | 'decreasing' | 'stable'] *)
Inductive TrendDirection : Type := increasing | decreasing | stable.

Record ServiceTrend : Type := mkServiceTrend {
  st_service : string; st_trend : TrendDirection; st_growth : float }.

Record TrendAnalytics : Type := mkTrendAnalytics {
  revenueTrend : list RevenueTrend;
  customerTrend : list CustomerTrend;
  jobTrend : list JobTrend;
  seasonalPatterns : list SeasonalPattern;
  serviceTrends : list ServiceTrend
}.

(** *** [AnalyticsData], [Report], [Dashboard] *)

Record AnalyticsData : Type := mkAnalyticsData {
  revenue : RevenueAnalytics;
  operations : OperationsAnalytics;
  customers : CustomerAnalytics;
  inventory : InventoryAnalytics;
  performance : PerformanceAnalytics;
  trends : TrendAnalytics;
  generatedAt : Z
}.

(** The values a [Record<string, any>] holds in this module. *)
Inductive JsValue : Type :=
| JsString (s : string)
| JsNumber (x : float)
| JsBoolean (b : bool).

(** ['daily' | 'weekly' | 'monthly' | 'quarterly' | 'annual' | 'custom'] *)
Inductive ReportType : Type := daily | weekly | monthly | quarterly | annual | custom.

Record Report : Type := mkReport {
  r_id : string;
  r_name : string;
  r_type : ReportType;
  r_data : AnalyticsData;
  r_generatedBy : string;
  r_generatedAt : Z;
  r_parameters : option (list (string * JsValue))
}.

(** ['chart' | 'metric' | 'table' | 'gauge' | 'list'] *)
Inductive WidgetType : Type := chart | metric | table | gauge | list_.

Record Position : Type := mkPosition {
  p_x : float; p_y : float; p_width : float; p_height : float }.

Record DashboardWidget : Type := mkDashboardWidget {
  w_id : string;
  w_type : WidgetType;
  w_title : string;
  w_dataSource : string;
  w_configuration : list (string * JsValue);
  w_position : Position
}.

Record DashboardLayout : Type := mkDashboardLayout {
  columns : float;
  rows : float;
  l_widgets : list DashboardWidget
}.

Record Dashboard : Type := mkDashboard {
  d_id : string;
  d_name : string;
  d_description : string;
  d_widgets : list DashboardWidget;
  d_layout : DashboardLayout;
  d_isPublic : bool;
  d_createdBy : string;
  d_createdAt : Z;
  d_updatedAt : Z
}.

(** The element type of the array [checkAlerts] returns. *)
Inductive AlertType : Type := warning | error | info.

Inductive Severity : Type := low | medium | high.

Record Alert : Type := mkAlert {
  a_type : AlertType;
  a_message : string;
  a_severity : Severity;
  a_timestamp : Z
}.

(** The object [getRealTimeMetrics] returns. *)
Record RealTimeMetrics : Type := mkRealTimeMetrics {
  currentJobs : float;
  availableBays : float;
  todayRevenue : float;
  todayJobs : float;
  activeTechnicians : float;
  queueLength : float
}.

(** ** The six facet generators of the source

    The private methods [generateRevenueAnalytics] ... [generateTrendAnalytics].
    They take the time range and ignore it; the only effects are the draws of
    [Math.random()], in the order the source evaluates them. *)

Module Simulated.

(** [new Date(2024, i, 1).toLocaleDateString('en-US', { month: 'short' })] *)
Definition monthShort (i : nat) : string :=
  nth (i mod 12)%nat
    ["Jan"; "Feb"; "Mar"; "Apr"; "May"; "Jun"; "Jul"; "Aug"; "Sep"; "Oct"; "Nov"; "Dec"] "".

Definition generateRevenueAnalytics (timeRange : string) : Eff Env RevenueAnalytics :=
  r <- mathRandom ;;
  let totalRevenue := (45000 + r * 15000)%float in
  monthlyRevenue <- arrayFrom 12 (fun i =>
    r1 <- mathRandom ;;
    r2 <- mathRandom ;;
    ret (mkMonthlyRevenue (monthShort i) (3000 + r1 * 2000)%float ((r2 - 0.5) * 20)%float)) ;;
  ret {|
    totalRevenue := totalRevenue;
    monthlyRevenue := monthlyRevenue;
    revenueByService := [
      mkServiceRevenue "Oil Change" 12000 25;
      mkServiceRevenue "Brake Service" 15000 30;
      mkServiceRevenue "Diagnostics" 8000 15;
      mkServiceRevenue "Tire Service" 10000 20;
      mkServiceRevenue "Other" 5000 10 ];
    revenueByTechnician := [
      mkTechnicianRevenue "Mike Johnson" 18000 45;
      mkTechnicianRevenue "Sarah Chen" 15000 38;
      mkTechnicianRevenue "Carlos Rodriguez" 12000 32 ];
    averageTicketValue := 125.50;
    profitMargin := 0.35;
    topRevenueDays := [
      mkRevenueDay "2024-12-15" 2500;
      mkRevenueDay "2024-12-10" 2300;
      mkRevenueDay "2024-12-05" 2100 ]
  |}.

Definition generateOperationsAnalytics (timeRange : string) : Eff Env OperationsAnalytics :=
  ret {|
    totalJobs := 156;
    completedJobs := 142;
    pendingJobs := 14;
    averageJobDuration := 2.5;
    jobsByPriority := [
      mkPriorityCount "urgent" 8 5;
      mkPriorityCount "high" 25 16;
      mkPriorityCount "medium" 89 57;
      mkPriorityCount "low" 34 22 ];
    jobsByStatus := [
      mkStatusCount "completed" 142 91;
      mkStatusCount "in-progress" 8 5;
      mkStatusCount "pending" 6 4 ];
    bayUtilization := [
      mkBayUtilization "Bay 1" 85 45;
      mkBayUtilization "Bay 2" 78 38;
      mkBayUtilization "Bay 3" 92 52 ];
    equipmentUtilization := [
      mkEquipmentUtilization "Lift 1" 90 180;
      mkEquipmentUtilization "Scanner" 65 130;
      mkEquipmentUtilization "Compressor" 45 90 ];
    efficiencyMetrics := {|
      jobsPerDay := 8.5;
      averageCompletionTime := 2.5;
      onTimeCompletion := 94;
      em_customerSatisfaction := 4.7 |}
  |}.

Definition generateCustomerAnalytics (timeRange : string) : Eff Env CustomerAnalytics :=
  ret {|
    totalCustomers := 245;
    activeCustomers := 189;
    newCustomers := 23;
    customerRetention := 87;
    averageCustomerValue := 185.50;
    customerLifetimeValue := 1250.00;
    topCustomers := [
      mkTopCustomer "John Smith" 2847.50 8;
      mkTopCustomer "Sarah Johnson" 1245.75 5;
      mkTopCustomer "Mike Wilson" 987.25 4 ];
    customerSegments := [
      mkCustomerSegment "Gold" 45 18;
      mkCustomerSegment "Silver" 78 32;
      mkCustomerSegment "Bronze" 122 50 ];
    customerSatisfaction := {|
      averageRating := 4.7;
      totalReviews := 156;
      ratingDistribution := [
        mkRatingCount 5 89;
        mkRatingCount 4 45;
        mkRatingCount 3 15;
        mkRatingCount 2 5;
        mkRatingCount 1 2 ] |}
  |}.

Definition generateInventoryAnalytics (timeRange : string) : Eff Env InventoryAnalytics :=
  ret {|
    totalItems := 156;
    totalValue := 45000;
    lowStockItems := 12;
    outOfStockItems := 3;
    turnoverRate := 4.2;
    topSellingItems := [
      mkSellingItem "Synthetic Oil 5W-30" 48 431.52;
      mkSellingItem "Oil Filter" 25 324.75;
      mkSellingItem "Brake Pads" 18 450.00 ];
    slowMovingItems := [
      mkSlowMovingItem "Specialty Tool A" 45 2;
      mkSlowMovingItem "Rare Part B" 38 1 ];
    categoryPerformance := [
      mkCategoryPerformance "Consumables" 15000 45;
      mkCategoryPerformance "Parts" 20000 67;
      mkCategoryPerformance "Tools" 10000 44 ];
    supplierPerformance := [
      mkSupplierPerformance "AutoZone Supply" 45 18000 4.5;
      mkSupplierPerformance "NAPA Auto Parts" 38 15000 4.8 ]
  |}.

Definition generatePerformanceAnalytics (timeRange : string) : Eff Env PerformanceAnalytics :=
  ret {|
    technicianPerformance := [
      mkTechnicianPerformance "Mike Johnson" 45 4.8 92 18000;
      mkTechnicianPerformance "Sarah Chen" 38 4.6 88 15000;
      mkTechnicianPerformance "Carlos Rodriguez" 32 4.9 95 12000 ];
    bayPerformance := [
      mkBayPerformance "Bay 1" 45 85 18000 2.3;
      mkBayPerformance "Bay 2" 38 78 15000 2.7;
      mkBayPerformance "Bay 3" 52 92 12000 2.1 ];
    equipmentPerformance := [
      mkEquipmentPerformance "Lift 1" 180 500 90;
      mkEquipmentPerformance "Scanner" 130 200 85 ];
    qualityMetrics := {|
      reworkRate := 2.5;
      warrantyClaims := 1.8;
      customerComplaints := 0.5;
      firstTimeFixRate := 97.5 |}
  |}.

Definition generateTrendAnalytics (timeRange : string) : Eff Env TrendAnalytics :=
  revenueTrend <- arrayFrom 12 (fun i =>
    r1 <- mathRandom ;;
    r2 <- mathRandom ;;
    ret (mkRevenueTrend (monthShort i) (3000 + r1 * 2000)%float ((r2 - 0.5) * 20)%float)) ;;
  customerTrend <- arrayFrom 12 (fun i =>
    r1 <- mathRandom ;;
    r2 <- mathRandom ;;
    ret (mkCustomerTrend (monthShort i) (20 + r1 * 10)%float ((r2 - 0.5) * 15)%float)) ;;
  jobTrend <- arrayFrom 12 (fun i =>
    r1 <- mathRandom ;;
    r2 <- mathRandom ;;
    ret (mkJobTrend (monthShort i) (150 + r1 * 50)%float ((r2 - 0.5) * 12)%float)) ;;
  ret {|
    revenueTrend := revenueTrend;
    customerTrend := customerTrend;
    jobTrend := jobTrend;
    seasonalPatterns := [
      mkSeasonalPattern "Jan" 3500 false;
      mkSeasonalPattern "Feb" 3200 false;
      mkSeasonalPattern "Mar" 3800 false;
      mkSeasonalPattern "Apr" 4200 true;
      mkSeasonalPattern "May" 4500 true;
      mkSeasonalPattern "Jun" 4800 true;
      mkSeasonalPattern "Jul" 4600 true;
      mkSeasonalPattern "Aug" 4400 true;
      mkSeasonalPattern "Sep" 4000 false;
      mkSeasonalPattern "Oct" 3800 false;
      mkSeasonalPattern "Nov" 3600 false;
      mkSeasonalPattern "Dec" 3400 false ];
    serviceTrends := [
      mkServiceTrend "Oil Change" stable 2.5;
      mkServiceTrend "Brake Service" increasing 8.2;
      mkServiceTrend "Diagnostics" increasing 12.1;
      mkServiceTrend "Tire Service" decreasing (-3.4) ]
  |}.

End Simulated.

(** ** The state of an [AnalyticsModule] and of the process around it *)

(** An entry of [dataCache]: [{ data, timestamp }]. *)
Record CacheEntry : Type := mkCacheEntry {
  data : AnalyticsData;
  timestamp : Z
}.

(** The fields of the class.  [cacheExpiry] is never assigned after its
    initialiser, so it is the constant below. *)
Record AnalyticsModule : Type := mkAnalyticsModule {
  reports : JSMap.t Report;
  dashboards : JSMap.t Dashboard;
  dataCache : gmap string CacheEntry
}.

Definition cacheExpiry : Z := 5 * 60 * 1000. (* 5 minutes *)

(** The facet a generator call computes. *)
Inductive Facet : Type :=
| Revenue | Operations | Customers | Inventory | Performance | Trends.

Global Instance Facet_eq_dec : EqDecision Facet.
Proof. solve_decision. Defined.

(** A line written to the console. *)
Inductive ConsoleEntry : Type :=
| ConsoleLog (text : string)
| ConsoleError (text : string) (e : JsError).

(** What a method of the module runs in: the module itself ([this]), the
    environment, the console, and a record of the generator calls made so far
    (facet and argument, oldest first).  The record of calls is observation
    only: no method reads it. *)
Record World : Type := mkWorld {
  this : AnalyticsModule;
  env : Env;
  console : list ConsoleEntry;
  facetCalls : list (Facet * string)
}.

Definition setThis (f : AnalyticsModule -> AnalyticsModule) (w : World) : World :=
  {| this := f (this w); env := env w; console := console w; facetCalls := facetCalls w |}.

Definition setEnv (e : Env) (w : World) : World :=
  {| this := this w; env := e; console := console w; facetCalls := facetCalls w |}.

Definition setReports (f : JSMap.t Report -> JSMap.t Report) (m : AnalyticsModule) : AnalyticsModule :=
  {| reports := f (reports m); dashboards := dashboards m; dataCache := dataCache m |}.

Definition setDashboards (f : JSMap.t Dashboard -> JSMap.t Dashboard) (m : AnalyticsModule) : AnalyticsModule :=
  {| reports := reports m; dashboards := f (dashboards m); dataCache := dataCache m |}.

Definition setDataCache (f : gmap string CacheEntry -> gmap string CacheEntry) (m : AnalyticsModule) : AnalyticsModule :=
  {| reports := reports m; dashboards := dashboards m; dataCache := f (dataCache m) |}.

(** An effect on the environment, run inside a method. *)
Definition inEnv {A} (m : Eff Env A) : Eff World A := zoom env setEnv m.

(** [console.log(text)] *)
Definition consoleLog (text : string) : Eff World unit :=
  modify (fun w =>
    {| this := this w; env := env w;
       console := console w ++ [ConsoleLog text]; facetCalls := facetCalls w |}).

(** [console.error(text, e)] *)
Definition consoleError (text : string) (e : JsError) : Eff World unit :=
  modify (fun w =>
    {| this := this w; env := env w;
       console := console w ++ [ConsoleError text e]; facetCalls := facetCalls w |}).

Definition recordCall (f : Facet) (timeRange : string) : Eff World unit :=
  modify (fun w =>
    {| this := this w; env := env w;
       console := console w; facetCalls := facetCalls w ++ [(f, timeRange)] |}).

(** The six private generator methods, as [generateAnalyticsData] sees them:
    each takes the time range, may draw random numbers and read the clock, and
    may throw.  They do not touch the fields of the module. *)
Record Generators : Type := mkGenerators {
  generateRevenueAnalytics : string -> Eff Env RevenueAnalytics;
  generateOperationsAnalytics : string -> Eff Env OperationsAnalytics;
  generateCustomerAnalytics : string -> Eff Env CustomerAnalytics;
  generateInventoryAnalytics : string -> Eff Env InventoryAnalytics;
  generatePerformanceAnalytics : string -> Eff Env PerformanceAnalytics;
  generateTrendAnalytics : string -> Eff Env TrendAnalytics
}.

(** The generators of the source. *)
Definition simulated : Generators := {|
  generateRevenueAnalytics := Simulated.generateRevenueAnalytics;
  generateOperationsAnalytics := Simulated.generateOperationsAnalytics;
  generateCustomerAnalytics := Simulated.generateCustomerAnalytics;
  generateInventoryAnalytics := Simulated.generateInventoryAnalytics;
  generatePerformanceAnalytics := Simulated.generatePerformanceAnalytics;
  generateTrendAnalytics := Simulated.generateTrendAnalytics
|}.

(** [await this.generateXAnalytics(timeRange)], with the call recorded. *)
Definition callFacet {A} (f : Facet) (generate : string -> Eff Env A) (timeRange : string)
  : Eff World A :=
  recordCall f timeRange ;; inEnv (generate timeRange).

(** ['day' | 'week' | 'month' | 'quarter' | 'year']: the declared type of the
    [timeRange] parameter.  Types are erased at run time and [generateReport]
    passes any string ([timeRange as any]), so the methods take a [string]. *)
Definition isTimeRange (s : string) : bool :=
  String.eqb s "day" || String.eqb s "week" || String.eqb s "month"
  || String.eqb s "quarter" || String.eqb s "year".

(** ** Sorting and dates of the JavaScript library *)

(** [Array.prototype.sort(compareFn)]: ECMAScript requires a stable sort, which
    fixes the result for a consistent [compareFn]; insertion from the right is
    the reference stable sort.  [compareFn a b <= 0] keeps [a] before [b]. *)
Fixpoint sortInsert {A} (compareFn : A -> A -> Z) (a : A) (sorted : list A) : list A :=
  match sorted with
  | [] => [a]
  | b :: rest =>
      if compareFn a b <=? 0 then a :: b :: rest
      else b :: sortInsert compareFn a rest
  end.

Definition arraySort {A} (compareFn : A -> A -> Z) (l : list A) : list A :=
  foldr (sortInsert compareFn) [] l.

Definition msPerDay : Z := 86400000.

(** The proleptic Gregorian date (year, month 1..12, day 1..31) of a day
    number counted from 1970-01-01, in UTC. *)
Definition civilFromDays (days : Z) : Z * Z * Z :=
  let z := days + 719468 in
  let era := z / 146097 in
  let doe := z - era * 146097 in
  let yoe := (doe - doe / 1460 + doe / 36524 - doe / 146096) / 365 in
  let doy := doe - (365 * yoe + yoe / 4 - yoe / 100) in
  let mp := (5 * doy + 2) / 153 in
  let d := doy - (153 * mp + 2) / 5 + 1 in
  let m := if mp <? 10 then mp + 3 else mp - 9 in
  let y := yoe + era * 400 + (if m <=? 2 then 1 else 0) in
  (y, m, d).

Definition digitChar (n : Z) : ascii := ascii_of_nat (48 + Z.to_nat (n mod 10)).

(** The last [k] decimal digits of [n], zero padded. *)
Fixpoint padDigits (k : nat) (n : Z) : string :=
  match k with
  | O => ""
  | S k' => padDigits k' (n / 10) +:+ String (digitChar n) ""
  end.

(** The year of [toISOString]: four digits from 0000 to 9999, otherwise a sign
    and six digits. *)
Definition isoYear (y : Z) : string :=
  if (0 <=? y) && (y <=? 9999) then padDigits 4 y
  else (if y <? 0 then "-" else "+") +:+ padDigits 6 (Z.abs y).

(** [date.toISOString().split('T')[0]] *)
Definition isoDate (t : Z) : string :=
  let '(y, m, d) := civilFromDays (t / msPerDay) in
  isoYear y +:+ "-" +:+ padDigits 2 m +:+ "-" +:+ padDigits 2 d.

(** ** The methods of [AnalyticsModule] *)

(** [Omit<Dashboard, 'id' | 'createdAt' | 'updatedAt'>], the argument of
    [createDashboard]. *)
Record DashboardInput : Type := mkDashboardInput {
  i_name : string;
  i_description : string;
  i_widgets : list DashboardWidget;
  i_layout : DashboardLayout;
  i_isPublic : bool;
  i_createdBy : string
}.

(** [Partial<Dashboard>], the argument of [updateDashboard]: each field is
    present or not.  A field that is present holds a value of its type: an
    object with a property set to [undefined] is not among these. *)
Record DashboardUpdates : Type := mkDashboardUpdates {
  u_id : option string;
  u_name : option string;
  u_description : option string;
  u_widgets : option (list DashboardWidget);
  u_layout : option DashboardLayout;
  u_isPublic : option bool;
  u_createdBy : option string;
  u_createdAt : option Z;
  u_updatedAt : option Z
}.

(** The object literal [{ name: X }]. *)
Definition nameOnly (X : string) : DashboardUpdates := {|
  u_id := None; u_name := Some X; u_description := None; u_widgets := None;
  u_layout := None; u_isPublic := None; u_createdBy := None;
  u_createdAt := None; u_updatedAt := None
|}.

(** [{ ...dashboard, ...updates, updatedAt }] *)
Definition spread (dashboard : Dashboard) (updates : DashboardUpdates) (updatedAt : Z)
  : Dashboard := {|
  d_id := default (d_id dashboard) (u_id updates);
  d_name := default (d_name dashboard) (u_name updates);
  d_description := default (d_description dashboard) (u_description updates);
  d_widgets := default (d_widgets dashboard) (u_widgets updates);
  d_layout := default (d_layout dashboard) (u_layout updates);
  d_isPublic := default (d_isPublic dashboard) (u_isPublic updates);
  d_createdBy := default (d_createdBy dashboard) (u_createdBy updates);
  d_createdAt := default (d_createdAt dashboard) (u_createdAt updates);
  d_updatedAt := updatedAt
|}.

(** ['pdf' | 'csv' | 'json'] *)
Inductive ExportFormat : Type := pdf | csv | json.

Definition formatString (format : ExportFormat) : string :=
  match format with pdf => "pdf" | csv => "csv" | json => "json" end.

Definition sampleDashboard (createdAt updatedAt : Z) : Dashboard := {|
  d_id := "dashboard-001";
  d_name := "Operations Overview";
  d_description := "Real-time overview of shop operations and key metrics";
  d_widgets := [
    {| w_id := "widget-001";
       w_type := metric;
       w_title := "Today's Revenue";
       w_dataSource := "revenue.today";
       w_configuration := [("format", JsString "currency"); ("color", JsString "green")];
       w_position := mkPosition 0 0 2 1 |};
    {| w_id := "widget-002";
       w_type := metric;
       w_title := "Active Jobs";
       w_dataSource := "operations.activeJobs";
       w_configuration := [("format", JsString "number"); ("color", JsString "blue")];
       w_position := mkPosition 2 0 2 1 |};
    {| w_id := "widget-003";
       w_type := chart;
       w_title := "Revenue Trend";
       w_dataSource := "revenue.monthly";
       w_configuration := [("chartType", JsString "line"); ("timeRange", JsString "30d")];
       w_position := mkPosition 0 1 4 2 |} ];
  d_layout := {| columns := 4; rows := 3; l_widgets := [] |};
  d_isPublic := true;
  d_createdBy := "system";
  d_createdAt := createdAt;
  d_updatedAt := updatedAt
|}.

(** [initializeSampleDashboards], on the fields as their initialisers leave
    them. *)
Definition initializeSampleDashboards (m : AnalyticsModule) : Eff Env AnalyticsModule :=
  createdAt <- newDate ;;
  updatedAt <- newDate ;;
  let sampleDashboard := sampleDashboard createdAt updatedAt in
  ret (setDashboards (JSMap.set (d_id sampleDashboard) sampleDashboard) m).

(** [new AnalyticsModule()] *)
Definition newAnalyticsModule : Eff Env AnalyticsModule :=
  initializeSampleDashboards
    {| reports := JSMap.empty; dashboards := JSMap.empty; dataCache := ∅ |}.

(** [`analytics_${timeRange}`] *)
Definition cacheKeyOf (timeRange : string) : string := "analytics_" +:+ timeRange.

Section Methods.

(** [Number.prototype.toString(36)]: ECMAScript leaves the digits of a
    fraction in a radix other than 10 to the implementation. *)
Variable toString36 : float -> string.

Variable G : Generators.

Definition generateAnalyticsData (timeRange : string) : Eff World AnalyticsData :=
  let cacheKey := cacheKeyOf timeRange in
  cached <- gets (fun w => dataCache (this w) !! cacheKey) ;;
  (* cached && Date.now() - cached.timestamp.getTime() < this.cacheExpiry:
     the clock is read only when there is an entry *)
  hit <- match cached with
         | Some cached =>
             now <- inEnv dateNow ;;
             ret (if now - timestamp cached <? cacheExpiry then Some (data cached) else None)
         | None => ret None
         end ;;
  match hit with
  | Some data => ret data
  | None =>
      revenue <- callFacet Revenue (generateRevenueAnalytics G) timeRange ;;
      operations <- callFacet Operations (generateOperationsAnalytics G) timeRange ;;
      customers <- callFacet Customers (generateCustomerAnalytics G) timeRange ;;
      inventory <- callFacet Inventory (generateInventoryAnalytics G) timeRange ;;
      performance <- callFacet Performance (generatePerformanceAnalytics G) timeRange ;;
      trends <- callFacet Trends (generateTrendAnalytics G) timeRange ;;
      generatedAt <- inEnv newDate ;;
      let data := {|
        revenue := revenue;
        operations := operations;
        customers := customers;
        inventory := inventory;
        performance := performance;
        trends := trends;
        generatedAt := generatedAt
      |} in
      timestamp <- inEnv newDate ;;
      modify (setThis (setDataCache
        (fun dataCache => <[cacheKey := {| data := data; timestamp := timestamp |}]> dataCache))) ;;
      ret data
  end.

(** A call that leaves the parameter out: [timeRange = 'month']. *)
Definition generateAnalyticsData_default : Eff World AnalyticsData :=
  generateAnalyticsData "month".

(** [`prefix-${Date.now()}-${Math.random().toString(36).substr(2, 9)}`] *)
Definition freshId (prefix : string) : Eff World string :=
  now <- inEnv dateNow ;;
  r <- inEnv mathRandom ;;
  ret (prefix +:+ "-" +:+ pretty now +:+ "-" +:+ substring 2 9 (toString36 r)).

Definition generateReport (name : string) (type : ReportType) (timeRange generatedBy : string)
  : Eff World Report :=
  data <- generateAnalyticsData timeRange ;;
  id <- freshId "report" ;;
  generatedAt <- inEnv newDate ;;
  let report := {|
    r_id := id;
    r_name := name;
    r_type := type;
    r_data := data;
    r_generatedBy := generatedBy;
    r_generatedAt := generatedAt;
    r_parameters := None
  |} in
  modify (setThis (setReports (JSMap.set (r_id report) report))) ;;
  consoleLog ("📊 Generated report: " +:+ name) ;;
  ret report.

End Methods.

Definition getReport (id : string) : Eff World (option Report) :=
  gets (fun w => JSMap.get id (reports (this w))).

Definition getAllReports : Eff World (list Report) :=
  gets (fun w =>
    arraySort (fun a b => r_generatedAt b - r_generatedAt a)
      (JSMap.values (reports (this w)))).

Definition getDashboard (id : string) : Eff World (option Dashboard) :=
  gets (fun w => JSMap.get id (dashboards (this w))).

Definition getAllDashboards : Eff World (list Dashboard) :=
  gets (fun w => JSMap.values (dashboards (this w))).

Definition createDashboard (toString36 : float -> string) (dashboard : DashboardInput)
  : Eff World Dashboard :=
  id <- freshId toString36 "dashboard" ;;
  createdAt <- inEnv newDate ;;
  updatedAt <- inEnv newDate ;;
  let newDashboard := {|
    d_id := id;
    d_name := i_name dashboard;
    d_description := i_description dashboard;
    d_widgets := i_widgets dashboard;
    d_layout := i_layout dashboard;
    d_isPublic := i_isPublic dashboard;
    d_createdBy := i_createdBy dashboard;
    d_createdAt := createdAt;
    d_updatedAt := updatedAt
  |} in
  modify (setThis (setDashboards (JSMap.set (d_id newDashboard) newDashboard))) ;;
  consoleLog ("📈 Created dashboard: " +:+ d_name newDashboard) ;;
  ret newDashboard.

Definition updateDashboard (id : string) (updates : DashboardUpdates) : Eff World unit :=
  dashboard <- gets (fun w => JSMap.get id (dashboards (this w))) ;;
  match dashboard with
  | Some dashboard =>
      updatedAt <- inEnv newDate ;;
      let updatedDashboard := spread dashboard updates updatedAt in
      modify (setThis (setDashboards (JSMap.set id updatedDashboard))) ;;
      consoleLog ("📝 Updated dashboard: " +:+ d_name dashboard)
  | None => ret tt
  end.

Definition getRealTimeMetrics : Eff World RealTimeMetrics :=
  ret {|
    currentJobs := 8;
    availableBays := 1;
    todayRevenue := 1250.75;
    todayJobs := 12;
    activeTechnicians := 3;
    queueLength := 4
  |}.

(** The one-second [setTimeout] the export awaits has no effect on the state
    of the module; the report was read before it. *)
Definition exportReport (reportId : string) (format : ExportFormat) : Eff World string :=
  report <- gets (fun w => JSMap.get reportId (reports (this w))) ;;
  match report with
  | None => throw (Error ("Report " +:+ reportId +:+ " not found"))
  | Some report =>
      let filename :=
        r_name report +:+ "_" +:+ isoDate (r_generatedAt report)
        +:+ "." +:+ formatString format in
      consoleLog ("📤 Exported report: " +:+ filename) ;;
      ret filename
  end.

Definition lowStockAlert (timestamp : Z) : Alert := {|
  a_type := warning;
  a_message := "5 items are running low on stock";
  a_severity := medium;
  a_timestamp := timestamp
|}.

Definition equipmentAlert (timestamp : Z) : Alert := {|
  a_type := error;
  a_message := "Lift 2 requires maintenance";
  a_severity := high;
  a_timestamp := timestamp
|}.

Definition checkAlerts : Eff World (list Alert) :=
  let alerts : list Alert := [] in
  (* Check for low stock items *)
  r <- inEnv mathRandom ;;
  alerts <- (if (0.7 <? r)%float
             then timestamp <- inEnv newDate ;; ret (alerts ++ [lowStockAlert timestamp])%list
             else ret alerts) ;;
  (* Check for equipment issues *)
  r <- inEnv mathRandom ;;
  alerts <- (if (0.8 <? r)%float
             then timestamp <- inEnv newDate ;; ret (alerts ++ [equipmentAlert timestamp])%list
             else ret alerts) ;;
  ret alerts.

(** ** The realtime broadcast of [MufflerManOS.setupWebSockets] *)

Section Broadcast.

(** The state of the socket.io server behind [this.io]. *)
Variable Io : Type.

(** [this.io.emit(event, payload)]: the transport is outside the repository
    and may throw. *)
Variable ioEmit : string -> RealTimeMetrics -> Eff Io unit.

(** [this.analyticsModule.getRealTimeMetrics()]; [getRealTimeMetrics] above in
    the source, any computation of a snapshot in the statements below. *)
Variable realTimeMetrics : Eff World RealTimeMetrics.

(** The fields of [MufflerManOS] the broadcast uses. *)
Record Server : Type := mkServer {
  analyticsModule : World;
  io : Io
}.

Definition inModule {A} (m : Eff World A) : Eff Server A :=
  zoom analyticsModule (fun w srv => {| analyticsModule := w; io := io srv |}) m.

Definition inIo {A} (m : Eff Io A) : Eff Server A :=
  zoom io (fun i srv => {| analyticsModule := analyticsModule srv; io := i |}) m.

(** The [try] block of the timer callback. *)
Definition broadcastBody : Eff Server unit :=
  metrics <- inModule realTimeMetrics ;;
  inIo (ioEmit "real-time-metrics" metrics).

(** The callback given to [setInterval]. *)
Definition broadcastTick : Eff Server unit :=
  tryCatch broadcastBody
    (fun e => inModule (consoleError "Error broadcasting real-time metrics:" e)).

(** A timer made by [setInterval]: it has fired some number of times, or an
    error escaped one of its callbacks (an unhandled rejection, which ends the
    process). *)
Inductive Timer : Type :=
| Active (fired : nat)
| Dead (uncaught : JsError).

(** One period of the timer elapses. *)
Definition fire (callback : Eff Server unit) (st : Timer * Server) : Timer * Server :=
  match st with
  | (Active n, srv) =>
      match callback srv with
      | (Ok _, srv') => (Active (S n), srv')
      | (Throw e, srv') => (Dead e, srv')
      end
  | (Dead e, srv) => (Dead e, srv)
  end.

(** [n] periods elapse. *)
Fixpoint periods (n : nat) (callback : Eff Server unit) (st : Timer * Server)
  : Timer * Server :=
  match n with
  | O => st
  | S n' => periods n' callback (fire callback st)
  end.

(** [setInterval(async () => { ... }, 5000)] as [setupWebSockets] leaves it. *)
Definition setupWebSockets (srv : Server) : Timer * Server := (Active 0, srv).

End Broadcast.

Arguments mkServer {Io} analyticsModule io.
Arguments analyticsModule {Io} s.
Arguments io {Io} s.
Arguments broadcastBody {Io} ioEmit realTimeMetrics.
Arguments broadcastTick {Io} ioEmit realTimeMetrics.
Arguments fire {Io} callback st.
Arguments periods {Io} n callback st.
Arguments setupWebSockets {Io} srv.
Arguments inModule {Io A} m.
Arguments inIo {Io A} m.

(** ** Notions used in the statements *)

(** The lookup of [generateAnalyticsData] as the specification words it: a miss
    when there is no entry, or when the entry is as old as the expiry time or
    older at the next reading of the clock. *)
Definition Miss (timeRange : string) (w : World) : Prop :=
  dataCache (this w) !! cacheKeyOf timeRange = None
  \/ exists cached,
       dataCache (this w) !! cacheKeyOf timeRange = Some cached
       /\ cacheExpiry <= nextNow (env w) - timestamp cached.

(** The miss path of [generateAnalyticsData], from the first generator call
    to the [return]. *)
Definition recompute (G : Generators) (timeRange : string) : Eff World AnalyticsData :=
  revenue <- callFacet Revenue (generateRevenueAnalytics G) timeRange ;;
  operations <- callFacet Operations (generateOperationsAnalytics G) timeRange ;;
  customers <- callFacet Customers (generateCustomerAnalytics G) timeRange ;;
  inventory <- callFacet Inventory (generateInventoryAnalytics G) timeRange ;;
  performance <- callFacet Performance (generatePerformanceAnalytics G) timeRange ;;
  trends <- callFacet Trends (generateTrendAnalytics G) timeRange ;;
  generatedAt <- inEnv newDate ;;
  let data := {|
    revenue := revenue;
    operations := operations;
    customers := customers;
    inventory := inventory;
    performance := performance;
    trends := trends;
    generatedAt := generatedAt
  |} in
  timestamp <- inEnv newDate ;;
  modify (setThis (setDataCache
    (fun dataCache =>
       <[cacheKeyOf timeRange := {| data := data; timestamp := timestamp |}]> dataCache))) ;;
  ret data.

(** The bundle of one miss: what the six generators return, called in the
    order of the source from the environment [e], each in the environment the
    one before left, with the next reading of the clock as [generatedAt].
    Nothing of the cache enters it. *)
Definition freshBundle (G : Generators) (timeRange : string) : Eff Env AnalyticsData :=
  revenue <- generateRevenueAnalytics G timeRange ;;
  operations <- generateOperationsAnalytics G timeRange ;;
  customers <- generateCustomerAnalytics G timeRange ;;
  inventory <- generateInventoryAnalytics G timeRange ;;
  performance <- generatePerformanceAnalytics G timeRange ;;
  trends <- generateTrendAnalytics G timeRange ;;
  generatedAt <- newDate ;;
  ret {|
    revenue := revenue;
    operations := operations;
    customers := customers;
    inventory := inventory;
    performance := performance;
    trends := trends;
    generatedAt := generatedAt
  |}.

(** The generator calls of one miss, in order. *)
Definition sixCalls (timeRange : string) : list (Facet * string) :=
  [(Revenue, timeRange); (Operations, timeRange); (Customers, timeRange);
   (Inventory, timeRange); (Performance, timeRange); (Trends, timeRange)].

(** How many of [calls] are calls of the generator of facet [f]. *)
Definition callsOf (f : Facet) (calls : list (Facet * string)) : nat :=
  length (filter (fun call => call.1 = f) calls).

Definition thrown {A} (r : Outcome A * Env) : option JsError :=
  match r with
  | (Throw err, _) => Some err
  | (Ok _, _) => None
  end.

(** The error the generator of facet [f] throws when called in [e], if it
    throws. *)
Definition facetOutcome (G : Generators) (f : Facet) (timeRange : string) (e : Env)
  : option JsError :=
  match f with
  | Revenue => thrown (generateRevenueAnalytics G timeRange e)
  | Operations => thrown (generateOperationsAnalytics G timeRange e)
  | Customers => thrown (generateCustomerAnalytics G timeRange e)
  | Inventory => thrown (generateInventoryAnalytics G timeRange e)
  | Performance => thrown (generatePerformanceAnalytics G timeRange e)
  | Trends => thrown (generateTrendAnalytics G timeRange e)
  end.

(** The environment the generator of facet [f] leaves when called in [e]. *)
Definition facetEnv (G : Generators) (f : Facet) (timeRange : string) (e : Env) : Env :=
  match f with
  | Revenue => snd (generateRevenueAnalytics G timeRange e)
  | Operations => snd (generateOperationsAnalytics G timeRange e)
  | Customers => snd (generateCustomerAnalytics G timeRange e)
  | Inventory => snd (generateInventoryAnalytics G timeRange e)
  | Performance => snd (generatePerformanceAnalytics G timeRange e)
  | Trends => snd (generateTrendAnalytics G timeRange e)
  end.

Definition allFacets : list Facet :=
  [Revenue; Operations; Customers; Inventory; Performance; Trends].

(** The generators of [facets] are called one after the other from [e], each
    in the environment the one before left: the error of the first that
    throws, if one does. *)
Fixpoint firstThrow (G : Generators) (timeRange : string) (facets : list Facet) (e : Env)
  : option JsError :=
  match facets with
  | [] => None
  | f :: rest =>
      match facetOutcome G f timeRange e with
      | Some err => Some err
      | None => firstThrow G timeRange rest (facetEnv G f timeRange e)
      end
  end.

(** The environment after the lookup of [generateAnalyticsData]: the clock
    has been read when there is an entry. *)
Definition envAfterLookup (timeRange : string) (w : World) : Env :=
  match dataCache (this w) !! cacheKeyOf timeRange with
  | Some _ => tickClock (env w)
  | None => env w
  end.

(** The value of the latest reading of the clock. *)
Definition lastNow (e : Env) : Z := clock e (Nat.pred (clockReads e)).

Definition succeeds {A} (m : Eff Env A) : Prop :=
  forall e, exists a e', m e = (Ok a, e').

(** Generators that never throw, as those of the source. *)
Definition Total (G : Generators) : Prop :=
  forall timeRange,
    succeeds (generateRevenueAnalytics G timeRange)
    /\ succeeds (generateOperationsAnalytics G timeRange)
    /\ succeeds (generateCustomerAnalytics G timeRange)
    /\ succeeds (generateInventoryAnalytics G timeRange)
    /\ succeeds (generatePerformanceAnalytics G timeRange)
    /\ succeeds (generateTrendAnalytics G timeRange).

(** The arguments of one [generateReport] call. *)
Record ReportRequest : Type := mkReportRequest {
  q_name : string;
  q_type : ReportType;
  q_timeRange : string;
  q_generatedBy : string
}.

(** A sequence of [generateReport] calls; a call that throws leaves the state
    it reached and the next call goes on from there. *)
Fixpoint generateReports (toString36 : float -> string) (G : Generators)
    (requests : list ReportRequest) (w : World) : World :=
  match requests with
  | [] => w
  | q :: rest =>
      generateReports toString36 G rest
        (snd (generateReport toString36 G
                (q_name q) (q_type q) (q_timeRange q) (q_generatedBy q) w))
  end.

(** The order [getAllReports] promises: most recent first. *)
Definition newestFirst (a b : Report) : Prop := r_generatedAt b <= r_generatedAt a.

(** The reports of a list generated at time [t], in the order of the list. *)
Definition generatedAtTime (t : Z) (l : list Report) : list Report :=
  filter (fun r => r_generatedAt r = t) l.

(** ** Fixtures for the examples *)

Module Demo.

(** [(0.5).toString(36)]: every draw of the fixtures below is [0.5], whose
    rendering has one digit, so the ids they make end in [i]. *)
Definition toString36 (r : float) : string := "0.i".

(** The clock advances by [step] milliseconds at every reading; every random
    draw gives [r]. *)
Definition steadyEnv (step : Z) (r : float) : Env := {|
  clock := fun k => 1700000000000 + step * Z.of_nat k;
  clockReads := 0;
  random := fun _ => r;
  randomDraws := 0
|}.

(** The process just after [new AnalyticsModule()]. *)
Definition boot (e : Env) : World :=
  let (r, e') := newAnalyticsModule e in
  {| this := match r with
             | Ok m => m
             | Throw _ => {| reports := []; dashboards := []; dataCache := ∅ |}
             end;
     env := e'; console := []; facetCalls := [] |}.

(** One second per reading of the clock. *)
Definition fresh : World := boot (steadyEnv 1000 0.5).

(** Five minutes per reading of the clock: after one call, the entry of the
    cache is exactly five minutes old at the next reading. *)
Definition stale : World :=
  snd (generateAnalyticsData simulated "month" (boot (steadyEnv 300000 0.5))).

(** Generators whose customer facet is unavailable. *)
Definition broken : Generators := {|
  generateRevenueAnalytics := Simulated.generateRevenueAnalytics;
  generateOperationsAnalytics := Simulated.generateOperationsAnalytics;
  generateCustomerAnalytics := fun _ => throw (Error "customer store unavailable");
  generateInventoryAnalytics := Simulated.generateInventoryAnalytics;
  generatePerformanceAnalytics := Simulated.generatePerformanceAnalytics;
  generateTrendAnalytics := Simulated.generateTrendAnalytics
|}.

(** The clock gives the listed values, one per reading, then 0. *)
Definition scriptedEnv (times : list Z) : Env := {|
  clock := fun k => nth k times 0;
  clockReads := 0;
  random := fun _ => 0.5%float;
  randomDraws := 0
|}.

Definition threeRequests : list ReportRequest := [
  mkReportRequest "first" monthly "month" "alice";
  mkReportRequest "second" monthly "month" "bob";
  mkReportRequest "third" monthly "month" "carol" ].

(** Three reports: the readings of the clock that become [generatedAt] are
    the sixth, ninth and twelfth ([t1], [t2], [t3]); the fifth, eighth and
    eleventh go into the ids. *)
Definition threeReports (t1 t2 t3 : Z) : World :=
  generateReports toString36 simulated threeRequests
    (boot (scriptedEnv [0; 0; 0; 0; 10; t1; 0; 20; t2; 0; 30; t3])).

(** One report named [Monthly Ops], for the range [month]. *)
Definition reported : World :=
  snd (generateReport toString36 simulated "Monthly Ops" monthly "month" "alice" fresh).

(** A transport that refuses every message, and one that records them. *)
Definition refusingEmit (event : string) (payload : RealTimeMetrics) : Eff (list string) unit :=
  throw (Error "transport closed").

Definition recordingEmit (event : string) (payload : RealTimeMetrics) : Eff (list string) unit :=
  modify (fun sent => (sent ++ [event])%list).

End Demo.

(** ** More of the JavaScript library *)

(** Days from 1970-01-01 of a proleptic Gregorian date. *)
Definition daysFromCivil (y m d : Z) : Z :=
  let y' := if m <=? 2 then y - 1 else y in
  let era := y' / 400 in
  let yoe := y' - era * 400 in
  let doy := (153 * (if 2 <? m then m - 3 else m + 9) + 2) / 5 + d - 1 in
  let doe := yoe * 365 + yoe / 4 - yoe / 100 + doy in
  era * 146097 + doe - 719468.

(** [new Date('YYYY-MM-DD')]: a date-only ISO string is midnight UTC. *)
Definition dateOnly (y m d : Z) : Z := daysFromCivil y m d * msPerDay.

(** [items.forEach(item => map.set(key item, item))] *)
Definition setAll {V} (key : V -> string) (items : list V) (m : JSMap.t V) : JSMap.t V :=
  foldl (fun m item => JSMap.set (key item) item m) m items.

(** [s.includes(searchString)] *)
Definition includes (s searchString : string) : bool :=
  match index 0 searchString s with
  | Some _ => true
  | None => false
  end.

(** [array.length], a number. *)
Definition arrayLength {A} (l : list A) : float :=
  PrimFloat.of_uint63 (Uint63.of_Z (Z.of_nat (length l))).

(** [array.find(predicate)] *)
Fixpoint arrayFind {A} (predicate : A -> bool) (l : list A) : option A :=
  match l with
  | [] => None
  | a :: rest => if predicate a then Some a else arrayFind predicate rest
  end.

(** The array after the element [find] returns was changed by [change]. *)
Fixpoint changeFound {A} (predicate : A -> bool) (change : A -> A) (l : list A) : list A :=
  match l with
  | [] => []
  | a :: rest =>
      if predicate a then change a :: rest else a :: changeFound predicate change rest
  end.

(** ** Ids, clock readings and maps keyed by id *)

(** The id [freshId prefix] makes in the environment [e]. *)
Definition nextId (toString36 : float -> string) (prefix : string) (e : Env) : string :=
  prefix +:+ "-" +:+ pretty (nextNow e) +:+ "-" +:+ substring 2 9 (toString36 (nextRandom e)).

(** The [k]-th reading of the clock after those made so far. *)
Definition reading (k : nat) (e : Env) : Z := clock e (k + clockReads e).

(** An optional property after the spread of an update over it. *)
Definition orKeep {A} (update current : option A) : option A :=
  match update with
  | Some value => Some value
  | None => current
  end.

(** A [Map] keyed by id: no key twice, as in every [Map], and every entry
    stored under the [id] of its value. *)
Definition keyedBy {V} (id : V -> string) (m : JSMap.t V) : Prop :=
  NoDup (JSMap.keys m) /\ Forall (fun entry : string * V => id entry.2 = entry.1) m.

(** ** The customers module

    Class [CustomersModule] of [src/modules/analytics/analytics.ts], after the
    analytics module in that file.  The string-literal union types of its
    interfaces ([membershipLevel], [status], [priority], ...) are kept as
    strings, as they are at run time; an optional field is an [option].
    [getTopCustomers] (a sort on a difference of floats) and
    [getServiceRevenueByMonth] (local time), which read the maps and write
    nothing, are not part of the embedding. *)

Module Customers.

Record Address : Type := mkAddress {
  street : string;
  city : string;
  state : string;
  zipCode : string;
  country : string
}.

Record EmergencyContact : Type := mkEmergencyContact {
  ec_name : string;
  ec_relationship : string;
  ec_phone : string;
  ec_email : option string
}.

Record CustomerPreferences : Type := mkCustomerPreferences {
  preferredContactMethod : string;
  marketingOptIn : bool;
  serviceReminders : bool;
  appointmentReminders : bool;
  preferredTechnician : option string;
  specialInstructions : option string
}.

Record Customer : Type := mkCustomer {
  c_id : string;
  c_firstName : string;
  c_lastName : string;
  c_email : string;
  c_phone : string;
  c_address : Address;
  c_dateOfBirth : option Z;
  c_emergencyContact : option EmergencyContact;
  c_membershipLevel : string;
  c_loyaltyPoints : float;
  c_totalSpent : float;
  c_firstVisit : Z;
  c_lastVisit : option Z;
  c_isActive : bool;
  c_notes : option string;
  c_preferences : CustomerPreferences;
  c_createdAt : Z;
  c_updatedAt : Z
}.

Record Vehicle : Type := mkVehicle {
  v_id : string;
  v_customerId : string;
  v_vin : string;
  v_make : string;
  v_model : string;
  v_year : float;
  v_color : string;
  v_licensePlate : string;
  v_state : string;
  v_mileage : float;
  v_fuelType : string;
  v_transmission : string;
  v_engineSize : option string;
  v_trim : option string;
  v_isPrimary : bool;
  v_purchaseDate : option Z;
  v_warrantyExpiry : option Z;
  v_lastServiceDate : option Z;
  v_nextServiceDate : option Z;
  v_isActive : bool;
  v_notes : option string;
  v_specifications : option (list (string * JsValue));
  v_createdAt : Z;
  v_updatedAt : Z
}.

Record ServicePart : Type := mkServicePart {
  p_itemId : string;
  p_name : string;
  p_partNumber : string;
  p_quantity : float;
  p_unitPrice : float;
  p_totalPrice : float;
  p_warranty : option string
}.

Record WarrantyInfo : Type := mkWarrantyInfo {
  wi_type : string;
  wi_duration : float; (* months *)
  wi_expiryDate : Z;
  wi_terms : string
}.

Record ServiceRecord : Type := mkServiceRecord {
  s_id : string;
  s_customerId : string;
  s_vehicleId : string;
  s_jobId : string;
  s_serviceDate : Z;
  s_mileage : float;
  s_serviceType : string;
  s_description : string;
  s_technicianId : string;
  s_partsUsed : list ServicePart;
  s_laborHours : float;
  s_laborRate : float;
  s_partsTotal : float;
  s_laborTotal : float;
  s_tax : float;
  s_totalAmount : float;
  s_warranty : option WarrantyInfo;
  s_recommendations : list string;
  s_customerNotes : option string;
  s_technicianNotes : option string;
  s_status : string;
  s_createdAt : Z
}.

Record Appointment : Type := mkAppointment {
  ap_id : string;
  ap_customerId : string;
  ap_vehicleId : string;
  ap_serviceType : string;
  ap_description : string;
  ap_scheduledDate : Z;
  ap_estimatedDuration : float; (* minutes *)
  ap_technicianId : option string;
  ap_bayId : option string;
  ap_status : string;
  ap_priority : string;
  ap_customerNotes : option string;
  ap_reminderSent : bool;
  ap_createdAt : Z;
  ap_updatedAt : Z
}.

(** The fields of the class. *)
Record CustomersModule : Type := mkCustomersModule {
  customers : JSMap.t Customer;
  vehicles : JSMap.t Vehicle;
  serviceRecords : JSMap.t ServiceRecord;
  appointments : JSMap.t Appointment
}.

(** What a method of the module runs in. *)
Record World : Type := mkWorld {
  this : CustomersModule;
  env : Env;
  console : list ConsoleEntry
}.

Definition inEnv {A} (m : Eff Env A) : Eff World A :=
  zoom env (fun e w => {| this := this w; env := e; console := console w |}) m.

Definition setThis (f : CustomersModule -> CustomersModule) (w : World) : World :=
  {| this := f (this w); env := env w; console := console w |}.

Definition setCustomers (f : JSMap.t Customer -> JSMap.t Customer) (m : CustomersModule)
  : CustomersModule :=
  {| customers := f (customers m); vehicles := vehicles m;
     serviceRecords := serviceRecords m; appointments := appointments m |}.

Definition setVehicles (f : JSMap.t Vehicle -> JSMap.t Vehicle) (m : CustomersModule)
  : CustomersModule :=
  {| customers := customers m; vehicles := f (vehicles m);
     serviceRecords := serviceRecords m; appointments := appointments m |}.

Definition setServiceRecords (f : JSMap.t ServiceRecord -> JSMap.t ServiceRecord)
    (m : CustomersModule) : CustomersModule :=
  {| customers := customers m; vehicles := vehicles m;
     serviceRecords := f (serviceRecords m); appointments := appointments m |}.

Definition setAppointments (f : JSMap.t Appointment -> JSMap.t Appointment)
    (m : CustomersModule) : CustomersModule :=
  {| customers := customers m; vehicles := vehicles m;
     serviceRecords := serviceRecords m; appointments := f (appointments m) |}.

(** [console.log(text)] *)
Definition consoleLog (text : string) : Eff World unit :=
  modify (fun w =>
    {| this := this w; env := env w; console := console w ++ [ConsoleLog text] |}).

(** The object fields a method overwrites on a copy of a record. *)
Definition customerWith (c : Customer) (id : string) (createdAt updatedAt : Z) : Customer := {|
  c_id := id;
  c_firstName := c_firstName c;
  c_lastName := c_lastName c;
  c_email := c_email c;
  c_phone := c_phone c;
  c_address := c_address c;
  c_dateOfBirth := c_dateOfBirth c;
  c_emergencyContact := c_emergencyContact c;
  c_membershipLevel := c_membershipLevel c;
  c_loyaltyPoints := c_loyaltyPoints c;
  c_totalSpent := c_totalSpent c;
  c_firstVisit := c_firstVisit c;
  c_lastVisit := c_lastVisit c;
  c_isActive := c_isActive c;
  c_notes := c_notes c;
  c_preferences := c_preferences c;
  c_createdAt := createdAt;
  c_updatedAt := updatedAt
|}.

(** [customer.totalSpent += amount; customer.lastVisit = date;
    customer.updatedAt = updatedAt] *)
Definition customerVisited (c : Customer) (amount : float) (date updatedAt : Z) : Customer := {|
  c_id := c_id c;
  c_firstName := c_firstName c;
  c_lastName := c_lastName c;
  c_email := c_email c;
  c_phone := c_phone c;
  c_address := c_address c;
  c_dateOfBirth := c_dateOfBirth c;
  c_emergencyContact := c_emergencyContact c;
  c_membershipLevel := c_membershipLevel c;
  c_loyaltyPoints := c_loyaltyPoints c;
  c_totalSpent := (c_totalSpent c + amount)%float;
  c_firstVisit := c_firstVisit c;
  c_lastVisit := Some date;
  c_isActive := c_isActive c;
  c_notes := c_notes c;
  c_preferences := c_preferences c;
  c_createdAt := c_createdAt c;
  c_updatedAt := updatedAt
|}.

Definition vehicleWith (v : Vehicle) (id : string) (createdAt updatedAt : Z) : Vehicle := {|
  v_id := id;
  v_customerId := v_customerId v;
  v_vin := v_vin v;
  v_make := v_make v;
  v_model := v_model v;
  v_year := v_year v;
  v_color := v_color v;
  v_licensePlate := v_licensePlate v;
  v_state := v_state v;
  v_mileage := v_mileage v;
  v_fuelType := v_fuelType v;
  v_transmission := v_transmission v;
  v_engineSize := v_engineSize v;
  v_trim := v_trim v;
  v_isPrimary := v_isPrimary v;
  v_purchaseDate := v_purchaseDate v;
  v_warrantyExpiry := v_warrantyExpiry v;
  v_lastServiceDate := v_lastServiceDate v;
  v_nextServiceDate := v_nextServiceDate v;
  v_isActive := v_isActive v;
  v_notes := v_notes v;
  v_specifications := v_specifications v;
  v_createdAt := createdAt;
  v_updatedAt := updatedAt
|}.

(** [vehicle.mileage = mileage; vehicle.lastServiceDate = date;
    vehicle.updatedAt = updatedAt] *)
Definition vehicleServiced (v : Vehicle) (mileage : float) (date updatedAt : Z) : Vehicle := {|
  v_id := v_id v;
  v_customerId := v_customerId v;
  v_vin := v_vin v;
  v_make := v_make v;
  v_model := v_model v;
  v_year := v_year v;
  v_color := v_color v;
  v_licensePlate := v_licensePlate v;
  v_state := v_state v;
  v_mileage := mileage;
  v_fuelType := v_fuelType v;
  v_transmission := v_transmission v;
  v_engineSize := v_engineSize v;
  v_trim := v_trim v;
  v_isPrimary := v_isPrimary v;
  v_purchaseDate := v_purchaseDate v;
  v_warrantyExpiry := v_warrantyExpiry v;
  v_lastServiceDate := Some date;
  v_nextServiceDate := v_nextServiceDate v;
  v_isActive := v_isActive v;
  v_notes := v_notes v;
  v_specifications := v_specifications v;
  v_createdAt := v_createdAt v;
  v_updatedAt := updatedAt
|}.

Definition serviceRecordWith (r : ServiceRecord) (id : string) (createdAt : Z)
  : ServiceRecord := {|
  s_id := id;
  s_customerId := s_customerId r;
  s_vehicleId := s_vehicleId r;
  s_jobId := s_jobId r;
  s_serviceDate := s_serviceDate r;
  s_mileage := s_mileage r;
  s_serviceType := s_serviceType r;
  s_description := s_description r;
  s_technicianId := s_technicianId r;
  s_partsUsed := s_partsUsed r;
  s_laborHours := s_laborHours r;
  s_laborRate := s_laborRate r;
  s_partsTotal := s_partsTotal r;
  s_laborTotal := s_laborTotal r;
  s_tax := s_tax r;
  s_totalAmount := s_totalAmount r;
  s_warranty := s_warranty r;
  s_recommendations := s_recommendations r;
  s_customerNotes := s_customerNotes r;
  s_technicianNotes := s_technicianNotes r;
  s_status := s_status r;
  s_createdAt := createdAt
|}.

Definition appointmentWith (a : Appointment) (id : string) (createdAt updatedAt : Z)
  : Appointment := {|
  ap_id := id;
  ap_customerId := ap_customerId a;
  ap_vehicleId := ap_vehicleId a;
  ap_serviceType := ap_serviceType a;
  ap_description := ap_description a;
  ap_scheduledDate := ap_scheduledDate a;
  ap_estimatedDuration := ap_estimatedDuration a;
  ap_technicianId := ap_technicianId a;
  ap_bayId := ap_bayId a;
  ap_status := ap_status a;
  ap_priority := ap_priority a;
  ap_customerNotes := ap_customerNotes a;
  ap_reminderSent := ap_reminderSent a;
  ap_createdAt := createdAt;
  ap_updatedAt := updatedAt
|}.

(** [appointment.status = status; appointment.updatedAt = updatedAt] *)
Definition appointmentStatus (a : Appointment) (status : string) (updatedAt : Z)
  : Appointment := {|
  ap_id := ap_id a;
  ap_customerId := ap_customerId a;
  ap_vehicleId := ap_vehicleId a;
  ap_serviceType := ap_serviceType a;
  ap_description := ap_description a;
  ap_scheduledDate := ap_scheduledDate a;
  ap_estimatedDuration := ap_estimatedDuration a;
  ap_technicianId := ap_technicianId a;
  ap_bayId := ap_bayId a;
  ap_status := status;
  ap_priority := ap_priority a;
  ap_customerNotes := ap_customerNotes a;
  ap_reminderSent := ap_reminderSent a;
  ap_createdAt := ap_createdAt a;
  ap_updatedAt := updatedAt
|}.

(** [Partial<Customer>], the argument of [updateCustomer]: each property is absent or
    holds a value of its type. *)
Record CustomerUpdates : Type := mkCustomerUpdates {
  cu_id : option string;
  cu_firstName : option string;
  cu_lastName : option string;
  cu_email : option string;
  cu_phone : option string;
  cu_address : option Address;
  cu_dateOfBirth : option Z;
  cu_emergencyContact : option EmergencyContact;
  cu_membershipLevel : option string;
  cu_loyaltyPoints : option float;
  cu_totalSpent : option float;
  cu_firstVisit : option Z;
  cu_lastVisit : option Z;
  cu_isActive : option bool;
  cu_notes : option string;
  cu_preferences : option CustomerPreferences;
  cu_createdAt : option Z;
  cu_updatedAt : option Z
}.

(** [{ ...customer, ...updates, updatedAt }] *)
Definition spreadCustomer (customer : Customer) (updates : CustomerUpdates) (updatedAt : Z)
  : Customer := {|
  c_id := default (c_id customer) (cu_id updates);
  c_firstName := default (c_firstName customer) (cu_firstName updates);
  c_lastName := default (c_lastName customer) (cu_lastName updates);
  c_email := default (c_email customer) (cu_email updates);
  c_phone := default (c_phone customer) (cu_phone updates);
  c_address := default (c_address customer) (cu_address updates);
  c_dateOfBirth := orKeep (cu_dateOfBirth updates) (c_dateOfBirth customer);
  c_emergencyContact := orKeep (cu_emergencyContact updates) (c_emergencyContact customer);
  c_membershipLevel := default (c_membershipLevel customer) (cu_membershipLevel updates);
  c_loyaltyPoints := default (c_loyaltyPoints customer) (cu_loyaltyPoints updates);
  c_totalSpent := default (c_totalSpent customer) (cu_totalSpent updates);
  c_firstVisit := default (c_firstVisit customer) (cu_firstVisit updates);
  c_lastVisit := orKeep (cu_lastVisit updates) (c_lastVisit customer);
  c_isActive := default (c_isActive customer) (cu_isActive updates);
  c_notes := orKeep (cu_notes updates) (c_notes customer);
  c_preferences := default (c_preferences customer) (cu_preferences updates);
  c_createdAt := default (c_createdAt customer) (cu_createdAt updates);
  c_updatedAt := updatedAt
|}.

(** [Partial<Vehicle>], the argument of [updateVehicle]: each property is absent or
    holds a value of its type. *)
Record VehicleUpdates : Type := mkVehicleUpdates {
  vu_id : option string;
  vu_customerId : option string;
  vu_vin : option string;
  vu_make : option string;
  vu_model : option string;
  vu_year : option float;
  vu_color : option string;
  vu_licensePlate : option string;
  vu_state : option string;
  vu_mileage : option float;
  vu_fuelType : option string;
  vu_transmission : option string;
  vu_engineSize : option string;
  vu_trim : option string;
  vu_isPrimary : option bool;
  vu_purchaseDate : option Z;
  vu_warrantyExpiry : option Z;
  vu_lastServiceDate : option Z;
  vu_nextServiceDate : option Z;
  vu_isActive : option bool;
  vu_notes : option string;
  vu_specifications : option (list (string * JsValue));
  vu_createdAt : option Z;
  vu_updatedAt : option Z
}.

(** [{ ...vehicle, ...updates, updatedAt }] *)
Definition spreadVehicle (vehicle : Vehicle) (updates : VehicleUpdates) (updatedAt : Z)
  : Vehicle := {|
  v_id := default (v_id vehicle) (vu_id updates);
  v_customerId := default (v_customerId vehicle) (vu_customerId updates);
  v_vin := default (v_vin vehicle) (vu_vin updates);
  v_make := default (v_make vehicle) (vu_make updates);
  v_model := default (v_model vehicle) (vu_model updates);
  v_year := default (v_year vehicle) (vu_year updates);
  v_color := default (v_color vehicle) (vu_color updates);
  v_licensePlate := default (v_licensePlate vehicle) (vu_licensePlate updates);
  v_state := default (v_state vehicle) (vu_state updates);
  v_mileage := default (v_mileage vehicle) (vu_mileage updates);
  v_fuelType := default (v_fuelType vehicle) (vu_fuelType updates);
  v_transmission := default (v_transmission vehicle) (vu_transmission updates);
  v_engineSize := orKeep (vu_engineSize updates) (v_engineSize vehicle);
  v_trim := orKeep (vu_trim updates) (v_trim vehicle);
  v_isPrimary := default (v_isPrimary vehicle) (vu_isPrimary updates);
  v_purchaseDate := orKeep (vu_purchaseDate updates) (v_purchaseDate vehicle);
  v_warrantyExpiry := orKeep (vu_warrantyExpiry updates) (v_warrantyExpiry vehicle);
  v_lastServiceDate := orKeep (vu_lastServiceDate updates) (v_lastServiceDate vehicle);
  v_nextServiceDate := orKeep (vu_nextServiceDate updates) (v_nextServiceDate vehicle);
  v_isActive := default (v_isActive vehicle) (vu_isActive updates);
  v_notes := orKeep (vu_notes updates) (v_notes vehicle);
  v_specifications := orKeep (vu_specifications updates) (v_specifications vehicle);
  v_createdAt := default (v_createdAt vehicle) (vu_createdAt updates);
  v_updatedAt := updatedAt
|}.

(** The sample data of [initializeSampleData]; the four [updatedAt] are
    readings of the clock, in the order the array literals are evaluated. *)
Definition sampleCustomers (t1 t2 : Z) : list Customer := [
  {| c_id := "cust-001";
     c_firstName := "John";
     c_lastName := "Smith";
     c_email := "john.smith@email.com";
     c_phone := "(407) 555-0101";
     c_address := {|
       street := "123 Main Street";
       city := "Orlando";
       state := "FL";
       zipCode := "32801";
       country := "USA" |};
     c_dateOfBirth := None;
     c_emergencyContact := None;
     c_membershipLevel := "gold";
     c_loyaltyPoints := 1250;
     c_totalSpent := 2847.50;
     c_firstVisit := dateOnly 2023 1 15;
     c_lastVisit := Some (dateOnly 2024 12 10);
     c_isActive := true;
     c_notes := None;
     c_preferences := {|
       preferredContactMethod := "email";
       marketingOptIn := true;
       serviceReminders := true;
       appointmentReminders := true;
       preferredTechnician := Some "tech-001";
       specialInstructions := None |};
     c_createdAt := dateOnly 2023 1 15;
     c_updatedAt := t1 |};
  {| c_id := "cust-002";
     c_firstName := "Sarah";
     c_lastName := "Johnson";
     c_email := "sarah.johnson@email.com";
     c_phone := "(407) 555-0102";
     c_address := {|
       street := "456 Oak Avenue";
       city := "Orlando";
       state := "FL";
       zipCode := "32802";
       country := "USA" |};
     c_dateOfBirth := None;
     c_emergencyContact := None;
     c_membershipLevel := "silver";
     c_loyaltyPoints := 750;
     c_totalSpent := 1245.75;
     c_firstVisit := dateOnly 2023 6 20;
     c_lastVisit := Some (dateOnly 2024 11 28);
     c_isActive := true;
     c_notes := None;
     c_preferences := {|
       preferredContactMethod := "phone";
       marketingOptIn := false;
       serviceReminders := true;
       appointmentReminders := true;
       preferredTechnician := None;
       specialInstructions := None |};
     c_createdAt := dateOnly 2023 6 20;
     c_updatedAt := t2 |} ].

Definition sampleVehicles (t3 t4 : Z) : list Vehicle := [
  {| v_id := "veh-001";
     v_customerId := "cust-001";
     v_vin := "1HGBH41JXMN109186";
     v_make := "Honda";
     v_model := "Civic";
     v_year := 2020;
     v_color := "Blue";
     v_licensePlate := "ABC123";
     v_state := "FL";
     v_mileage := 45000;
     v_fuelType := "gasoline";
     v_transmission := "automatic";
     v_engineSize := Some "2.0L";
     v_trim := Some "EX";
     v_isPrimary := true;
     v_purchaseDate := Some (dateOnly 2020 3 15);
     v_warrantyExpiry := None;
     v_lastServiceDate := Some (dateOnly 2024 12 10);
     v_nextServiceDate := Some (dateOnly 2025 3 10);
     v_isActive := true;
     v_notes := None;
     v_specifications := None;
     v_createdAt := dateOnly 2020 3 15;
     v_updatedAt := t3 |};
  {| v_id := "veh-002";
     v_customerId := "cust-002";
     v_vin := "5NPE34AF4FH012345";
     v_make := "Hyundai";
     v_model := "Sonata";
     v_year := 2019;
     v_color := "Silver";
     v_licensePlate := "XYZ789";
     v_state := "FL";
     v_mileage := 62000;
     v_fuelType := "gasoline";
     v_transmission := "automatic";
     v_engineSize := Some "2.5L";
     v_trim := Some "Limited";
     v_isPrimary := true;
     v_purchaseDate := Some (dateOnly 2019 8 10);
     v_warrantyExpiry := None;
     v_lastServiceDate := Some (dateOnly 2024 11 28);
     v_nextServiceDate := Some (dateOnly 2025 2 28);
     v_isActive := true;
     v_notes := None;
     v_specifications := None;
     v_createdAt := dateOnly 2019 8 10;
     v_updatedAt := t4 |} ].

Definition sampleServiceRecords : list ServiceRecord := [
  {| s_id := "sr-001";
     s_customerId := "cust-001";
     s_vehicleId := "veh-001";
     s_jobId := "job-001";
     s_serviceDate := dateOnly 2024 12 10;
     s_mileage := 45000;
     s_serviceType := "Oil Change & Inspection";
     s_description :=
       "Synthetic oil change, filter replacement, and comprehensive inspection";
     s_technicianId := "tech-001";
     s_partsUsed := [
       {| p_itemId := "item-001";
          p_name := "Synthetic Oil 5W-30";
          p_partNumber := "M1-110A";
          p_quantity := 4;
          p_unitPrice := 8.99;
          p_totalPrice := 35.96;
          p_warranty := None |};
       {| p_itemId := "item-002";
          p_name := "Oil Filter";
          p_partNumber := "PH2870A";
          p_quantity := 1;
          p_unitPrice := 12.99;
          p_totalPrice := 12.99;
          p_warranty := None |} ];
     s_laborHours := 1.5;
     s_laborRate := 85.00;
     s_partsTotal := 48.95;
     s_laborTotal := 127.50;
     s_tax := 12.34;
     s_totalAmount := 188.79;
     s_warranty := None;
     s_recommendations := [
       "Brake pads showing wear - recommend replacement in 5,000 miles";
       "Tire rotation needed at next service" ];
     s_customerNotes := None;
     s_technicianNotes := None;
     s_status := "completed";
     s_createdAt := dateOnly 2024 12 10 |} ].

(** [new CustomersModule()] *)
Definition newCustomersModule : Eff Env CustomersModule :=
  t1 <- newDate ;;
  t2 <- newDate ;;
  t3 <- newDate ;;
  t4 <- newDate ;;
  ret {|
    customers := setAll c_id (sampleCustomers t1 t2) JSMap.empty;
    vehicles := setAll v_id (sampleVehicles t3 t4) JSMap.empty;
    serviceRecords := setAll s_id sampleServiceRecords JSMap.empty;
    appointments := JSMap.empty
  |}.

(** The object [getCustomerAnalytics] returns. *)
Record CustomerAnalyticsResult : Type := mkCustomerAnalyticsResult {
  ca_totalSpent : float;
  ca_totalServices : float;
  ca_averageServiceCost : float;
  ca_lastVisit : option Z;
  ca_loyaltyPoints : float;
  ca_membershipLevel : string;
  ca_vehicles : list Vehicle;
  ca_recentServices : list ServiceRecord
}.

Section Methods.

(** [Number.prototype.toString(36)], [String.prototype.toLowerCase], and the
    conversions of a number and of a [Date] to a string in a template literal:
    functions of the JavaScript library, taken as they come. *)
Variable toString36 : float -> string.
Variable toLowerCase : string -> string.
Variable numberToString : float -> string.
Variable dateToString : Z -> string.

(** [`prefix-${Date.now()}-${Math.random().toString(36).substr(2, 9)}`] *)
Definition freshId (prefix : string) : Eff World string :=
  now <- inEnv dateNow ;;
  r <- inEnv mathRandom ;;
  ret (prefix +:+ "-" +:+ pretty now +:+ "-" +:+ substring 2 9 (toString36 r)).

(** *** Customer management *)

Definition getCustomer (id : string) : Eff World (option Customer) :=
  gets (fun w => JSMap.get id (customers (this w))).

Definition getAllCustomers : Eff World (list Customer) :=
  gets (fun w => JSMap.values (customers (this w))).

Definition getActiveCustomers : Eff World (list Customer) :=
  gets (fun w => List.filter c_isActive (JSMap.values (customers (this w)))).

(** The argument has no [id], [createdAt] and [updatedAt] by its type; the
    spread would copy them and the literal overwrites them. *)
Definition addCustomer (customer : Customer) : Eff World Customer :=
  id <- freshId "cust" ;;
  createdAt <- inEnv newDate ;;
  updatedAt <- inEnv newDate ;;
  let newCustomer := customerWith customer id createdAt updatedAt in
  modify (setThis (setCustomers (JSMap.set (c_id newCustomer) newCustomer))) ;;
  consoleLog ("‚ûï Added customer: " +:+ c_firstName newCustomer +:+ " "
              +:+ c_lastName newCustomer) ;;
  ret newCustomer.

(** The line written to the console names the customer as it was. *)
Definition updateCustomer (id : string) (updates : CustomerUpdates) : Eff World unit :=
  customer <- gets (fun w => JSMap.get id (customers (this w))) ;;
  match customer with
  | Some customer =>
      updatedAt <- inEnv newDate ;;
      let updatedCustomer := spreadCustomer customer updates updatedAt in
      modify (setThis (setCustomers (JSMap.set id updatedCustomer))) ;;
      consoleLog ("üìù Updated customer: " +:+ c_firstName customer +:+ " " +:+ c_lastName customer)
  | None => ret tt
  end.

Definition searchCustomers (query : string) : Eff World (list Customer) :=
  let searchTerm := toLowerCase query in
  gets (fun w =>
    List.filter (fun customer =>
        includes (toLowerCase (c_firstName customer)) searchTerm
        || includes (toLowerCase (c_lastName customer)) searchTerm
        || includes (toLowerCase (c_email customer)) searchTerm
        || includes (c_phone customer) searchTerm)
      (JSMap.values (customers (this w)))).

(** *** Vehicle management *)

Definition getVehicle (id : string) : Eff World (option Vehicle) :=
  gets (fun w => JSMap.get id (vehicles (this w))).

Definition getCustomerVehicles (customerId : string) : Eff World (list Vehicle) :=
  gets (fun w =>
    List.filter (fun vehicle => String.eqb (v_customerId vehicle) customerId)
      (JSMap.values (vehicles (this w)))).

Definition addVehicle (vehicle : Vehicle) : Eff World Vehicle :=
  id <- freshId "veh" ;;
  createdAt <- inEnv newDate ;;
  updatedAt <- inEnv newDate ;;
  let newVehicle := vehicleWith vehicle id createdAt updatedAt in
  modify (setThis (setVehicles (JSMap.set (v_id newVehicle) newVehicle))) ;;
  consoleLog ("üöó Added vehicle: " +:+ numberToString (v_year newVehicle) +:+ " "
              +:+ v_make newVehicle +:+ " " +:+ v_model newVehicle) ;;
  ret newVehicle.

Definition updateVehicle (id : string) (updates : VehicleUpdates) : Eff World unit :=
  vehicle <- gets (fun w => JSMap.get id (vehicles (this w))) ;;
  match vehicle with
  | Some vehicle =>
      updatedAt <- inEnv newDate ;;
      let updatedVehicle := spreadVehicle vehicle updates updatedAt in
      modify (setThis (setVehicles (JSMap.set id updatedVehicle))) ;;
      consoleLog ("üìù Updated vehicle: " +:+ numberToString (v_year vehicle) +:+ " "
                  +:+ v_make vehicle +:+ " " +:+ v_model vehicle)
  | None => ret tt
  end.

Definition getVehicleByVIN (vin : string) : Eff World (option Vehicle) :=
  gets (fun w =>
    arrayFind (fun vehicle => String.eqb (v_vin vehicle) vin)
      (JSMap.values (vehicles (this w)))).

(** *** Service records *)

Definition getServiceRecord (id : string) : Eff World (option ServiceRecord) :=
  gets (fun w => JSMap.get id (serviceRecords (this w))).

Definition getVehicleServiceHistory (vehicleId : string) : Eff World (list ServiceRecord) :=
  gets (fun w =>
    arraySort (fun a b => s_serviceDate b - s_serviceDate a)
      (List.filter (fun record => String.eqb (s_vehicleId record) vehicleId)
         (JSMap.values (serviceRecords (this w))))).

Definition getCustomerServiceHistory (customerId : string) : Eff World (list ServiceRecord) :=
  gets (fun w =>
    arraySort (fun a b => s_serviceDate b - s_serviceDate a)
      (List.filter (fun record => String.eqb (s_customerId record) customerId)
         (JSMap.values (serviceRecords (this w))))).

(** The vehicle and the customer of the record are changed in place and then
    stored under their own [id]: [set] is on [vehicle.id], not on the key the
    vehicle was found under.  When the two differ, which takes an
    [updateVehicle] or [updateCustomer] that changed the [id], both keys then
    hold the one object; here they hold two equal values, which is the same
    until that object is changed again through one of the keys.  As long as
    every entry is under its own [id] there is one key and nothing to tell
    apart. *)
Definition addServiceRecord (record : ServiceRecord) : Eff World ServiceRecord :=
  id <- freshId "sr" ;;
  createdAt <- inEnv newDate ;;
  let newRecord := serviceRecordWith record id createdAt in
  modify (setThis (setServiceRecords (JSMap.set (s_id newRecord) newRecord))) ;;
  (* Update vehicle mileage and last service date *)
  vehicle <- gets (fun w => JSMap.get (s_vehicleId record) (vehicles (this w))) ;;
  match vehicle with
  | Some vehicle =>
      updatedAt <- inEnv newDate ;;
      let vehicle := vehicleServiced vehicle (s_mileage record) (s_serviceDate record)
                       updatedAt in
      modify (setThis (setVehicles (fun vehicles =>
        JSMap.set (v_id vehicle) vehicle
          (JSMap.set (s_vehicleId record) vehicle vehicles))))
  | None => ret tt
  end ;;
  (* Update customer total spent and last visit *)
  customer <- gets (fun w => JSMap.get (s_customerId record) (customers (this w))) ;;
  match customer with
  | Some customer =>
      updatedAt <- inEnv newDate ;;
      let customer := customerVisited customer (s_totalAmount record)
                        (s_serviceDate record) updatedAt in
      modify (setThis (setCustomers (fun customers =>
        JSMap.set (c_id customer) customer
          (JSMap.set (s_customerId record) customer customers))))
  | None => ret tt
  end ;;
  consoleLog ("üîß Added service record: " +:+ s_serviceType record +:+ " for "
              +:+ numberToString (s_totalAmount record)) ;;
  ret newRecord.

(** *** Appointments *)

Definition getAppointment (id : string) : Eff World (option Appointment) :=
  gets (fun w => JSMap.get id (appointments (this w))).

Definition getCustomerAppointments (customerId : string) : Eff World (list Appointment) :=
  gets (fun w =>
    arraySort (fun a b => ap_scheduledDate a - ap_scheduledDate b)
      (List.filter (fun appointment => String.eqb (ap_customerId appointment) customerId)
         (JSMap.values (appointments (this w))))).

Definition getUpcomingAppointments : Eff World (list Appointment) :=
  now <- inEnv newDate ;;
  gets (fun w =>
    arraySort (fun a b => ap_scheduledDate a - ap_scheduledDate b)
      (List.filter (fun appointment =>
           (now <? ap_scheduledDate appointment)
           && (String.eqb "scheduled" (ap_status appointment)
               || String.eqb "confirmed" (ap_status appointment)))
         (JSMap.values (appointments (this w))))).

Definition addAppointment (appointment : Appointment) : Eff World Appointment :=
  id <- freshId "apt" ;;
  createdAt <- inEnv newDate ;;
  updatedAt <- inEnv newDate ;;
  let newAppointment := appointmentWith appointment id createdAt updatedAt in
  modify (setThis (setAppointments (JSMap.set (ap_id newAppointment) newAppointment))) ;;
  consoleLog ("üìÖ Added appointment: " +:+ ap_serviceType newAppointment +:+ " for "
              +:+ dateToString (ap_scheduledDate newAppointment)) ;;
  ret newAppointment.

Definition updateAppointmentStatus (id status : string) : Eff World unit :=
  appointment <- gets (fun w => JSMap.get id (appointments (this w))) ;;
  match appointment with
  | Some appointment =>
      updatedAt <- inEnv newDate ;;
      let appointment := appointmentStatus appointment status updatedAt in
      modify (setThis (setAppointments (JSMap.set id appointment))) ;;
      consoleLog ("üìÖ Updated appointment " +:+ id +:+ " status to: " +:+ status)
  | None => ret tt
  end.

(** *** Analytics and reporting *)

Definition getCustomerAnalytics (customerId : string) : Eff World CustomerAnalyticsResult :=
  customer <- gets (fun w => JSMap.get customerId (customers (this w))) ;;
  match customer with
  | None => throw (Error ("Customer " +:+ customerId +:+ " not found"))
  | Some customer =>
      services <- getCustomerServiceHistory customerId ;;
      vehicles <- getCustomerVehicles customerId ;;
      let averageServiceCost :=
        if (0 <? length services)%nat
        then (foldl (fun sum service => sum + s_totalAmount service) 0 services
              / arrayLength services)%float
        else 0%float in
      ret {|
        ca_totalSpent := c_totalSpent customer;
        ca_totalServices := arrayLength services;
        ca_averageServiceCost := averageServiceCost;
        ca_lastVisit := c_lastVisit customer;
        ca_loyaltyPoints := c_loyaltyPoints customer;
        ca_membershipLevel := c_membershipLevel customer;
        ca_vehicles := vehicles;
        ca_recentServices := take 5 services
      |}
  end.

(** *** Sequences of calls *)

(** A call of a public method with its arguments. *)
Inductive Call : Type :=
| CallGetCustomer (id : string)
| CallGetAllCustomers
| CallGetActiveCustomers
| CallAddCustomer (customer : Customer)
| CallUpdateCustomer (id : string) (updates : CustomerUpdates)
| CallSearchCustomers (query : string)
| CallGetVehicle (id : string)
| CallGetCustomerVehicles (customerId : string)
| CallAddVehicle (vehicle : Vehicle)
| CallUpdateVehicle (id : string) (updates : VehicleUpdates)
| CallGetVehicleByVIN (vin : string)
| CallGetServiceRecord (id : string)
| CallGetVehicleServiceHistory (vehicleId : string)
| CallGetCustomerServiceHistory (customerId : string)
| CallAddServiceRecord (record : ServiceRecord)
| CallGetAppointment (id : string)
| CallGetCustomerAppointments (customerId : string)
| CallGetUpcomingAppointments
| CallAddAppointment (appointment : Appointment)
| CallUpdateAppointmentStatus (id status : string)
| CallGetCustomerAnalytics (customerId : string).

(** The state a call leaves, whether it returns or throws. *)
Definition runCall (c : Call) (w : World) : World :=
  match c with
  | CallGetCustomer id => snd (getCustomer id w)
  | CallGetAllCustomers => snd (getAllCustomers w)
  | CallGetActiveCustomers => snd (getActiveCustomers w)
  | CallAddCustomer customer => snd (addCustomer customer w)
  | CallUpdateCustomer id updates => snd (updateCustomer id updates w)
  | CallSearchCustomers query => snd (searchCustomers query w)
  | CallGetVehicle id => snd (getVehicle id w)
  | CallGetCustomerVehicles customerId => snd (getCustomerVehicles customerId w)
  | CallAddVehicle vehicle => snd (addVehicle vehicle w)
  | CallUpdateVehicle id updates => snd (updateVehicle id updates w)
  | CallGetVehicleByVIN vin => snd (getVehicleByVIN vin w)
  | CallGetServiceRecord id => snd (getServiceRecord id w)
  | CallGetVehicleServiceHistory vehicleId => snd (getVehicleServiceHistory vehicleId w)
  | CallGetCustomerServiceHistory customerId => snd (getCustomerServiceHistory customerId w)
  | CallAddServiceRecord record => snd (addServiceRecord record w)
  | CallGetAppointment id => snd (getAppointment id w)
  | CallGetCustomerAppointments customerId => snd (getCustomerAppointments customerId w)
  | CallGetUpcomingAppointments => snd (getUpcomingAppointments w)
  | CallAddAppointment appointment => snd (addAppointment appointment w)
  | CallUpdateAppointmentStatus id status => snd (updateAppointmentStatus id status w)
  | CallGetCustomerAnalytics customerId => snd (getCustomerAnalytics customerId w)
  end.

Definition runCalls (calls : list Call) (w : World) : World :=
  foldl (fun w c => runCall c w) w calls.

(** A call that stores no customer and no vehicle with an [id] other than
    the key it is stored under: every call but an update with an [id] that
    is not the key. *)
Definition keepsIds (c : Call) : Prop :=
  match c with
  | CallUpdateCustomer id updates => cu_id updates = None \/ cu_id updates = Some id
  | CallUpdateVehicle id updates => vu_id updates = None \/ vu_id updates = Some id
  | _ => True
  end.

(** The object literal [{ id: X }]. *)
Definition customerIdOnly (X : string) : CustomerUpdates := {|
  cu_id := Some X;
  cu_firstName := None;
  cu_lastName := None;
  cu_email := None;
  cu_phone := None;
  cu_address := None;
  cu_dateOfBirth := None;
  cu_emergencyContact := None;
  cu_membershipLevel := None;
  cu_loyaltyPoints := None;
  cu_totalSpent := None;
  cu_firstVisit := None;
  cu_lastVisit := None;
  cu_isActive := None;
  cu_notes := None;
  cu_preferences := None;
  cu_createdAt := None;
  cu_updatedAt := None
|}.

(** The object literal [{ id: X }]. *)
Definition vehicleIdOnly (X : string) : VehicleUpdates := {|
  vu_id := Some X;
  vu_customerId := None;
  vu_vin := None;
  vu_make := None;
  vu_model := None;
  vu_year := None;
  vu_color := None;
  vu_licensePlate := None;
  vu_state := None;
  vu_mileage := None;
  vu_fuelType := None;
  vu_transmission := None;
  vu_engineSize := None;
  vu_trim := None;
  vu_isPrimary := None;
  vu_purchaseDate := None;
  vu_warrantyExpiry := None;
  vu_lastServiceDate := None;
  vu_nextServiceDate := None;
  vu_isActive := None;
  vu_notes := None;
  vu_specifications := None;
  vu_createdAt := None;
  vu_updatedAt := None
|}.

End Methods.

(** What holds of the four maps whatever the calls: no key twice, and every
    service record and appointment under its own [id]. *)
Definition KeyedApart (m : CustomersModule) : Prop :=
  NoDup (JSMap.keys (customers m)) /\ NoDup (JSMap.keys (vehicles m))
  /\ keyedBy s_id (serviceRecords m) /\ keyedBy ap_id (appointments m).

Definition KeyedById (m : CustomersModule) : Prop :=
  keyedBy c_id (customers m) /\ keyedBy v_id (vehicles m)
  /\ keyedBy s_id (serviceRecords m) /\ keyedBy ap_id (appointments m).

(** Between two states of the module nothing was removed: the keys of the
    four maps of the first are still there, in the same places. *)
Definition Kept (m m' : CustomersModule) : Prop :=
  JSMap.keys (customers m) `prefix_of` JSMap.keys (customers m')
  /\ JSMap.keys (vehicles m) `prefix_of` JSMap.keys (vehicles m')
  /\ JSMap.keys (serviceRecords m) `prefix_of` JSMap.keys (serviceRecords m')
  /\ JSMap.keys (appointments m) `prefix_of` JSMap.keys (appointments m').


(** An appointment still to come at the time [now]. *)
Definition Upcoming (now : Z) (a : Appointment) : Prop :=
  now < ap_scheduledDate a /\ (ap_status a = "scheduled" \/ ap_status a = "confirmed").

#[export] Instance Upcoming_dec now a : Decision (Upcoming now a).
Proof. unfold Upcoming. apply _. Defined.

(** [listed] is the appointments of [stored] that satisfy [P], earliest first,
    appointments of one date in the order of [stored]. *)
Definition EarliestFirstOf (P : Appointment -> Prop) `{forall a, Decision (P a)}
    (stored listed : list Appointment) : Prop :=
  listed ≡ₚ filter P stored
  /\ StronglySorted (fun a b => ap_scheduledDate a <= ap_scheduledDate b) listed
  /\ forall t, filter (fun a => ap_scheduledDate a = t) listed
               = filter (fun a => ap_scheduledDate a = t) (filter P stored).

(** The process just after [new CustomersModule()]. *)
Definition boot (e : Env) : World :=
  let (r, e') := newCustomersModule e in
  {| this := match r with
             | Ok m => m
             | Throw _ => {| customers := []; vehicles := [];
                             serviceRecords := []; appointments := [] |}
             end;
     env := e'; console := [] |}.

End Customers.

(** Fixtures for the customers module. *)
Module CustomersDemo.

(** [toLowerCase] on the letters of ASCII. *)
Definition lowerAscii (c : ascii) : ascii :=
  let n := nat_of_ascii c in
  if ((65 <=? n) && (n <=? 90))%nat then ascii_of_nat (n + 32) else c.

Fixpoint toLowerCase (s : string) : string :=
  match s with
  | EmptyString => EmptyString
  | String c rest => String (lowerAscii c) (toLowerCase rest)
  end.

(** Renderings of the shape a number and a [Date] take in a template. *)
Definition numberToString (x : float) : string := "2020".
Definition dateToString (t : Z) : string := "Wed Nov 15 2023".

(** The process just after [new CustomersModule()], one second per reading of
    the clock. *)
Definition fresh : Customers.World := Customers.boot (Demo.steadyEnv 1000 0.5).

(** A second car entered with the VIN of the first. *)
Definition sameVin : Customers.Vehicle := {|
  Customers.v_id := "";
  Customers.v_customerId := "cust-002";
  Customers.v_vin := "1HGBH41JXMN109186";
  Customers.v_make := "Honda";
  Customers.v_model := "Accord";
  Customers.v_year := 2021;
  Customers.v_color := "Red";
  Customers.v_licensePlate := "DEF456";
  Customers.v_state := "FL";
  Customers.v_mileage := 12000;
  Customers.v_fuelType := "gasoline";
  Customers.v_transmission := "automatic";
  Customers.v_engineSize := None;
  Customers.v_trim := None;
  Customers.v_isPrimary := false;
  Customers.v_purchaseDate := None;
  Customers.v_warrantyExpiry := None;
  Customers.v_lastServiceDate := None;
  Customers.v_nextServiceDate := None;
  Customers.v_isActive := true;
  Customers.v_notes := None;
  Customers.v_specifications := None;
  Customers.v_createdAt := 0;
  Customers.v_updatedAt := 0
|}.

(** The first sample vehicle, as [fresh] holds it. *)
Definition civic : Customers.Vehicle :=
  hd sameVin (Customers.sampleVehicles 1700000002000 1700000003000).

(** A brake job on the first sample vehicle, dated before its last service
    and with a lower mileage. *)
Definition brakeJob : Customers.ServiceRecord := {|
  Customers.s_id := "";
  Customers.s_customerId := "cust-001";
  Customers.s_vehicleId := "veh-001";
  Customers.s_jobId := "job-002";
  Customers.s_serviceDate := dateOnly 2024 6 1;
  Customers.s_mileage := 41000;
  Customers.s_serviceType := "Brake Service";
  Customers.s_description := "Front brake pads";
  Customers.s_technicianId := "tech-001";
  Customers.s_partsUsed := [];
  Customers.s_laborHours := 2;
  Customers.s_laborRate := 85;
  Customers.s_partsTotal := 80;
  Customers.s_laborTotal := 170;
  Customers.s_tax := 0;
  Customers.s_totalAmount := 250;
  Customers.s_warranty := None;
  Customers.s_recommendations := [];
  Customers.s_customerNotes := None;
  Customers.s_technicianNotes := None;
  Customers.s_status := "completed";
  Customers.s_createdAt := 0
|}.

(** An appointment a day after the clock of [fresh]. *)
Definition tomorrow : Customers.Appointment := {|
  Customers.ap_id := "";
  Customers.ap_customerId := "cust-001";
  Customers.ap_vehicleId := "veh-001";
  Customers.ap_serviceType := "Tire Rotation";
  Customers.ap_description := "";
  Customers.ap_scheduledDate := 1700000000000 + msPerDay;
  Customers.ap_estimatedDuration := 30;
  Customers.ap_technicianId := None;
  Customers.ap_bayId := None;
  Customers.ap_status := "scheduled";
  Customers.ap_priority := "low";
  Customers.ap_customerNotes := None;
  Customers.ap_reminderSent := false;
  Customers.ap_createdAt := 0;
  Customers.ap_updatedAt := 0
|}.

(** [fresh] after [tomorrow] was added. *)
Definition booked : Customers.World :=
  Customers.runCall Demo.toString36 toLowerCase numberToString dateToString
    (Customers.CallAddAppointment tomorrow) fresh.

End CustomersDemo.

(** ** The inventory module

    Class [InventoryModule] of [src/modules/employees/employees.ts], after the
    employees module in that file.  [getTopSellingItems] (a sort on a
    difference of floats), which reads the maps and writes nothing, is not
    part of the embedding. *)

Module Inventory.

Record InventoryItem : Type := mkInventoryItem {
  i_id : string;
  i_sku : string;
  i_name : string;
  i_category : string;
  i_subcategory : string;
  i_manufacturer : string;
  i_partNumber : option string;
  i_description : string;
  i_quantity : float;
  i_minQuantity : float;
  i_maxQuantity : float;
  i_unit : string;
  i_unitPrice : float;
  i_location : string;
  i_binLocation : option string;
  i_supplier : string;
  i_supplierPartNumber : option string;
  i_lastRestocked : Z;
  i_nextRestockDate : option Z;
  i_isActive : bool;
  i_tags : list string;
  i_specifications : option (list (string * JsValue));
  i_images : option (list string);
  i_createdAt : Z;
  i_updatedAt : Z
}.

Record InventoryTransaction : Type := mkInventoryTransaction {
  t_id : string;
  t_itemId : string;
  t_type : string;
  t_quantity : float;
  t_previousQuantity : float;
  t_newQuantity : float;
  t_reason : string;
  t_technicianId : option string;
  t_jobId : option string;
  t_notes : option string;
  t_timestamp : Z
}.

Record Supplier : Type := mkSupplier {
  su_id : string;
  su_name : string;
  su_contactPerson : string;
  su_email : string;
  su_phone : string;
  su_address : string;
  su_website : option string;
  su_paymentTerms : string;
  su_leadTime : float; (* days *)
  su_minimumOrder : float;
  su_isActive : bool;
  su_rating : float;
  su_notes : option string
}.

Record PurchaseOrderItem : Type := mkPurchaseOrderItem {
  poi_itemId : string;
  poi_quantity : float;
  poi_unitPrice : float;
  poi_totalPrice : float;
  poi_receivedQuantity : option float
}.

Record PurchaseOrder : Type := mkPurchaseOrder {
  po_id : string;
  po_supplierId : string;
  po_status : string;
  po_items : list PurchaseOrderItem;
  po_totalAmount : float;
  po_tax : float;
  po_shipping : float;
  po_grandTotal : float;
  po_orderDate : Z;
  po_expectedDelivery : option Z;
  po_actualDelivery : option Z;
  po_notes : option string;
  po_createdBy : string
}.

(** The fields of the class. *)
Record InventoryModule : Type := mkInventoryModule {
  items : JSMap.t InventoryItem;
  transactions : JSMap.t InventoryTransaction;
  suppliers : JSMap.t Supplier;
  purchaseOrders : JSMap.t PurchaseOrder
}.

(** What a method of the module runs in. *)
Record World : Type := mkWorld {
  this : InventoryModule;
  env : Env;
  console : list ConsoleEntry
}.

Definition inEnv {A} (m : Eff Env A) : Eff World A :=
  zoom env (fun e w => {| this := this w; env := e; console := console w |}) m.

Definition setThis (f : InventoryModule -> InventoryModule) (w : World) : World :=
  {| this := f (this w); env := env w; console := console w |}.

Definition setItems (f : JSMap.t InventoryItem -> JSMap.t InventoryItem)
    (m : InventoryModule) : InventoryModule :=
  {| items := f (items m); transactions := transactions m;
     suppliers := suppliers m; purchaseOrders := purchaseOrders m |}.

Definition setTransactions
    (f : JSMap.t InventoryTransaction -> JSMap.t InventoryTransaction)
    (m : InventoryModule) : InventoryModule :=
  {| items := items m; transactions := f (transactions m);
     suppliers := suppliers m; purchaseOrders := purchaseOrders m |}.

Definition setSuppliers (f : JSMap.t Supplier -> JSMap.t Supplier) (m : InventoryModule)
  : InventoryModule :=
  {| items := items m; transactions := transactions m;
     suppliers := f (suppliers m); purchaseOrders := purchaseOrders m |}.

Definition setPurchaseOrders (f : JSMap.t PurchaseOrder -> JSMap.t PurchaseOrder)
    (m : InventoryModule) : InventoryModule :=
  {| items := items m; transactions := transactions m;
     suppliers := suppliers m; purchaseOrders := f (purchaseOrders m) |}.

(** [console.log(text)] *)
Definition consoleLog (text : string) : Eff World unit :=
  modify (fun w =>
    {| this := this w; env := env w; console := console w ++ [ConsoleLog text] |}).

(** The object fields a method overwrites on a copy of a record. *)
Definition itemWith (item : InventoryItem) (id : string) (createdAt updatedAt : Z)
  : InventoryItem := {|
  i_id := id;
  i_sku := i_sku item;
  i_name := i_name item;
  i_category := i_category item;
  i_subcategory := i_subcategory item;
  i_manufacturer := i_manufacturer item;
  i_partNumber := i_partNumber item;
  i_description := i_description item;
  i_quantity := i_quantity item;
  i_minQuantity := i_minQuantity item;
  i_maxQuantity := i_maxQuantity item;
  i_unit := i_unit item;
  i_unitPrice := i_unitPrice item;
  i_location := i_location item;
  i_binLocation := i_binLocation item;
  i_supplier := i_supplier item;
  i_supplierPartNumber := i_supplierPartNumber item;
  i_lastRestocked := i_lastRestocked item;
  i_nextRestockDate := i_nextRestockDate item;
  i_isActive := i_isActive item;
  i_tags := i_tags item;
  i_specifications := i_specifications item;
  i_images := i_images item;
  i_createdAt := createdAt;
  i_updatedAt := updatedAt
|}.

(** [item.quantity = quantity; item.updatedAt = updatedAt] *)
Definition itemCounted (item : InventoryItem) (quantity : float) (updatedAt : Z)
  : InventoryItem := {|
  i_id := i_id item;
  i_sku := i_sku item;
  i_name := i_name item;
  i_category := i_category item;
  i_subcategory := i_subcategory item;
  i_manufacturer := i_manufacturer item;
  i_partNumber := i_partNumber item;
  i_description := i_description item;
  i_quantity := quantity;
  i_minQuantity := i_minQuantity item;
  i_maxQuantity := i_maxQuantity item;
  i_unit := i_unit item;
  i_unitPrice := i_unitPrice item;
  i_location := i_location item;
  i_binLocation := i_binLocation item;
  i_supplier := i_supplier item;
  i_supplierPartNumber := i_supplierPartNumber item;
  i_lastRestocked := i_lastRestocked item;
  i_nextRestockDate := i_nextRestockDate item;
  i_isActive := i_isActive item;
  i_tags := i_tags item;
  i_specifications := i_specifications item;
  i_images := i_images item;
  i_createdAt := i_createdAt item;
  i_updatedAt := updatedAt
|}.

Definition transactionWith (t : InventoryTransaction) (id : string) (timestamp : Z)
  : InventoryTransaction := {|
  t_id := id;
  t_itemId := t_itemId t;
  t_type := t_type t;
  t_quantity := t_quantity t;
  t_previousQuantity := t_previousQuantity t;
  t_newQuantity := t_newQuantity t;
  t_reason := t_reason t;
  t_technicianId := t_technicianId t;
  t_jobId := t_jobId t;
  t_notes := t_notes t;
  t_timestamp := timestamp
|}.

Definition supplierWith (s : Supplier) (id : string) : Supplier := {|
  su_id := id;
  su_name := su_name s;
  su_contactPerson := su_contactPerson s;
  su_email := su_email s;
  su_phone := su_phone s;
  su_address := su_address s;
  su_website := su_website s;
  su_paymentTerms := su_paymentTerms s;
  su_leadTime := su_leadTime s;
  su_minimumOrder := su_minimumOrder s;
  su_isActive := su_isActive s;
  su_rating := su_rating s;
  su_notes := su_notes s
|}.

Definition orderWith (o : PurchaseOrder) (id : string) (orderDate : Z) : PurchaseOrder := {|
  po_id := id;
  po_supplierId := po_supplierId o;
  po_status := po_status o;
  po_items := po_items o;
  po_totalAmount := po_totalAmount o;
  po_tax := po_tax o;
  po_shipping := po_shipping o;
  po_grandTotal := po_grandTotal o;
  po_orderDate := orderDate;
  po_expectedDelivery := po_expectedDelivery o;
  po_actualDelivery := po_actualDelivery o;
  po_notes := po_notes o;
  po_createdBy := po_createdBy o
|}.

(** [order.status = status], and [order.actualDelivery = actualDelivery] when
    one is given. *)
Definition orderStatus (o : PurchaseOrder) (status : string) (actualDelivery : option Z)
  : PurchaseOrder := {|
  po_id := po_id o;
  po_supplierId := po_supplierId o;
  po_status := status;
  po_items := po_items o;
  po_totalAmount := po_totalAmount o;
  po_tax := po_tax o;
  po_shipping := po_shipping o;
  po_grandTotal := po_grandTotal o;
  po_orderDate := po_orderDate o;
  po_expectedDelivery := po_expectedDelivery o;
  po_actualDelivery :=
    match actualDelivery with
    | Some date => Some date
    | None => po_actualDelivery o
    end;
  po_notes := po_notes o;
  po_createdBy := po_createdBy o
|}.

(** [Partial<InventoryItem>], the argument of [updateItem]: each property is absent or
    holds a value of its type. *)
Record ItemUpdates : Type := mkItemUpdates {
  iu_id : option string;
  iu_sku : option string;
  iu_name : option string;
  iu_category : option string;
  iu_subcategory : option string;
  iu_manufacturer : option string;
  iu_partNumber : option string;
  iu_description : option string;
  iu_quantity : option float;
  iu_minQuantity : option float;
  iu_maxQuantity : option float;
  iu_unit : option string;
  iu_unitPrice : option float;
  iu_location : option string;
  iu_binLocation : option string;
  iu_supplier : option string;
  iu_supplierPartNumber : option string;
  iu_lastRestocked : option Z;
  iu_nextRestockDate : option Z;
  iu_isActive : option bool;
  iu_tags : option (list string);
  iu_specifications : option (list (string * JsValue));
  iu_images : option (list string);
  iu_createdAt : option Z;
  iu_updatedAt : option Z
}.

(** [{ ...item, ...updates, updatedAt }] *)
Definition spreadItem (item : InventoryItem) (updates : ItemUpdates) (updatedAt : Z)
  : InventoryItem := {|
  i_id := default (i_id item) (iu_id updates);
  i_sku := default (i_sku item) (iu_sku updates);
  i_name := default (i_name item) (iu_name updates);
  i_category := default (i_category item) (iu_category updates);
  i_subcategory := default (i_subcategory item) (iu_subcategory updates);
  i_manufacturer := default (i_manufacturer item) (iu_manufacturer updates);
  i_partNumber := orKeep (iu_partNumber updates) (i_partNumber item);
  i_description := default (i_description item) (iu_description updates);
  i_quantity := default (i_quantity item) (iu_quantity updates);
  i_minQuantity := default (i_minQuantity item) (iu_minQuantity updates);
  i_maxQuantity := default (i_maxQuantity item) (iu_maxQuantity updates);
  i_unit := default (i_unit item) (iu_unit updates);
  i_unitPrice := default (i_unitPrice item) (iu_unitPrice updates);
  i_location := default (i_location item) (iu_location updates);
  i_binLocation := orKeep (iu_binLocation updates) (i_binLocation item);
  i_supplier := default (i_supplier item) (iu_supplier updates);
  i_supplierPartNumber := orKeep (iu_supplierPartNumber updates) (i_supplierPartNumber item);
  i_lastRestocked := default (i_lastRestocked item) (iu_lastRestocked updates);
  i_nextRestockDate := orKeep (iu_nextRestockDate updates) (i_nextRestockDate item);
  i_isActive := default (i_isActive item) (iu_isActive updates);
  i_tags := default (i_tags item) (iu_tags updates);
  i_specifications := orKeep (iu_specifications updates) (i_specifications item);
  i_images := orKeep (iu_images updates) (i_images item);
  i_createdAt := default (i_createdAt item) (iu_createdAt updates);
  i_updatedAt := updatedAt
|}.

(** The sample data of [initializeSampleData]; the three [updatedAt] are
    readings of the clock. *)
Definition sampleItems (t1 t2 t3 : Z) : list InventoryItem := [
  {| i_id := "item-001";
     i_sku := "OIL-5W30-1QT";
     i_name := "Synthetic Oil 5W-30";
     i_category := "consumable";
     i_subcategory := "lubricants";
     i_manufacturer := "Mobil";
     i_partNumber := Some "M1-110A";
     i_description := "High-performance synthetic motor oil";
     i_quantity := 48;
     i_minQuantity := 10;
     i_maxQuantity := 100;
     i_unit := "quart";
     i_unitPrice := 8.99;
     i_location := "Warehouse A";
     i_binLocation := Some "A1-B2-C3";
     i_supplier := "AutoZone Supply";
     i_supplierPartNumber := None;
     i_lastRestocked := dateOnly 2024 12 1;
     i_nextRestockDate := Some (dateOnly 2024 12 20);
     i_isActive := true;
     i_tags := ["oil"; "synthetic"; "5w30"];
     i_specifications := Some [
       ("viscosity", JsString "5W-30");
       ("apiRating", JsString "SN Plus");
       ("capacity", JsString "1 quart") ];
     i_images := None;
     i_createdAt := dateOnly 2024 1 1;
     i_updatedAt := t1 |};
  {| i_id := "item-002";
     i_sku := "FILT-OIL-001";
     i_name := "Oil Filter";
     i_category := "part";
     i_subcategory := "filters";
     i_manufacturer := "Fram";
     i_partNumber := Some "PH2870A";
     i_description := "High-capacity oil filter for most vehicles";
     i_quantity := 25;
     i_minQuantity := 5;
     i_maxQuantity := 50;
     i_unit := "each";
     i_unitPrice := 12.99;
     i_location := "Warehouse A";
     i_binLocation := Some "A2-B1-C4";
     i_supplier := "NAPA Auto Parts";
     i_supplierPartNumber := None;
     i_lastRestocked := dateOnly 2024 12 5;
     i_nextRestockDate := None;
     i_isActive := true;
     i_tags := ["filter"; "oil"; "maintenance"];
     i_specifications := None;
     i_images := None;
     i_createdAt := dateOnly 2024 1 1;
     i_updatedAt := t2 |};
  {| i_id := "item-003";
     i_sku := "TOOL-SCANNER-001";
     i_name := "OBD-II Scanner";
     i_category := "tool";
     i_subcategory := "diagnostic";
     i_manufacturer := "Innova";
     i_partNumber := Some "3100j";
     i_description := "Professional OBD-II diagnostic scanner";
     i_quantity := 3;
     i_minQuantity := 1;
     i_maxQuantity := 5;
     i_unit := "each";
     i_unitPrice := 299.99;
     i_location := "Tool Room";
     i_binLocation := Some "T1-A1";
     i_supplier := "Tool Supply Co";
     i_supplierPartNumber := None;
     i_lastRestocked := dateOnly 2024 11 15;
     i_nextRestockDate := None;
     i_isActive := true;
     i_tags := ["scanner"; "obd2"; "diagnostic"];
     i_specifications := Some [
       ("compatibility", JsString "OBD-II");
       ("display", JsString "Color LCD");
       ("connectivity", JsString "USB/WiFi") ];
     i_images := None;
     i_createdAt := dateOnly 2024 1 1;
     i_updatedAt := t3 |} ].

Definition sampleSuppliers : list Supplier := [
  {| su_id := "supplier-001";
     su_name := "AutoZone Supply";
     su_contactPerson := "John Smith";
     su_email := "john.smith@autozone.com";
     su_phone := "(555) 123-4567";
     su_address := "123 Auto Parts Blvd, Orlando, FL 32801";
     su_website := Some "https://www.autozone.com";
     su_paymentTerms := "Net 30";
     su_leadTime := 3;
     su_minimumOrder := 100;
     su_isActive := true;
     su_rating := 4.5;
     su_notes := None |};
  {| su_id := "supplier-002";
     su_name := "NAPA Auto Parts";
     su_contactPerson := "Sarah Johnson";
     su_email := "sarah.johnson@napa.com";
     su_phone := "(555) 987-6543";
     su_address := "456 Parts Street, Orlando, FL 32802";
     su_website := Some "https://www.napaonline.com";
     su_paymentTerms := "Net 15";
     su_leadTime := 2;
     su_minimumOrder := 50;
     su_isActive := true;
     su_rating := 4.8;
     su_notes := None |} ].

(** [new InventoryModule()] *)
Definition newInventoryModule : Eff Env InventoryModule :=
  t1 <- newDate ;;
  t2 <- newDate ;;
  t3 <- newDate ;;
  ret {|
    items := setAll i_id (sampleItems t1 t2 t3) JSMap.empty;
    transactions := JSMap.empty;
    suppliers := setAll su_id sampleSuppliers JSMap.empty;
    purchaseOrders := JSMap.empty
  |}.

(** The object [getInventoryValue] returns. *)
Record InventoryValue : Type := mkInventoryValue {
  iv_totalValue : float;
  iv_totalItems : float;
  iv_lowStockItems : float;
  iv_outOfStockItems : float
}.

(** An element of the array [getRestockRecommendations] returns. *)
Record RestockRecommendation : Type := mkRestockRecommendation {
  rr_item : InventoryItem;
  rr_recommendedQuantity : float;
  rr_estimatedCost : float
}.

Section Methods.

(** [Number.prototype.toString(36)] and the conversion of a number to a
    string in a template literal, as in the customers module. *)
Variable toString36 : float -> string.
Variable numberToString : float -> string.

(** [`prefix-${Date.now()}-${Math.random().toString(36).substr(2, 9)}`] *)
Definition freshId (prefix : string) : Eff World string :=
  now <- inEnv dateNow ;;
  r <- inEnv mathRandom ;;
  ret (prefix +:+ "-" +:+ pretty now +:+ "-" +:+ substring 2 9 (toString36 r)).

(** *** Item management *)

Definition getItem (id : string) : Eff World (option InventoryItem) :=
  gets (fun w => JSMap.get id (items (this w))).

Definition getAllItems : Eff World (list InventoryItem) :=
  gets (fun w => JSMap.values (items (this w))).

Definition getItemsByCategory (category : string) : Eff World (list InventoryItem) :=
  gets (fun w =>
    List.filter (fun item => String.eqb (i_category item) category)
      (JSMap.values (items (this w)))).

Definition getLowStockItems : Eff World (list InventoryItem) :=
  gets (fun w =>
    List.filter (fun item => (i_quantity item <=? i_minQuantity item)%float)
      (JSMap.values (items (this w)))).

Definition addItem (item : InventoryItem) : Eff World InventoryItem :=
  id <- freshId "item" ;;
  createdAt <- inEnv newDate ;;
  updatedAt <- inEnv newDate ;;
  let newItem := itemWith item id createdAt updatedAt in
  modify (setThis (setItems (JSMap.set (i_id newItem) newItem))) ;;
  consoleLog ("➕ Added inventory item: " +:+ i_name newItem) ;;
  ret newItem.

(** The line written to the console names the item as it was. *)
Definition updateItem (id : string) (updates : ItemUpdates) : Eff World unit :=
  item <- gets (fun w => JSMap.get id (items (this w))) ;;
  match item with
  | Some item =>
      updatedAt <- inEnv newDate ;;
      let updatedItem := spreadItem item updates updatedAt in
      modify (setThis (setItems (JSMap.set id updatedItem))) ;;
      consoleLog ("📝 Updated inventory item: " +:+ i_name item)
  | None => ret tt
  end.

(** *** Transaction management *)

(** [item?.name] in a template literal. *)
Definition nameOrUndefined (item : option InventoryItem) : string :=
  match item with
  | Some item => i_name item
  | None => "undefined"
  end.

Definition addTransaction (transaction : InventoryTransaction)
  : Eff World InventoryTransaction :=
  id <- freshId "txn" ;;
  timestamp <- inEnv newDate ;;
  let newTransaction := transactionWith transaction id timestamp in
  (* Update item quantity *)
  item <- gets (fun w => JSMap.get (t_itemId transaction) (items (this w))) ;;
  item <- match item with
          | Some item =>
              updatedAt <- inEnv newDate ;;
              let item := itemCounted item (t_newQuantity transaction) updatedAt in
              modify (setThis (setItems (JSMap.set (t_itemId transaction) item))) ;;
              ret (Some item)
          | None => ret None
          end ;;
  modify (setThis (setTransactions (JSMap.set (t_id newTransaction) newTransaction))) ;;
  consoleLog ("📊 Added transaction: " +:+ t_type newTransaction +:+ " "
              +:+ numberToString (t_quantity newTransaction) +:+ " "
              +:+ nameOrUndefined item) ;;
  ret newTransaction.

Definition getItemTransactions (itemId : string) : Eff World (list InventoryTransaction) :=
  gets (fun w =>
    arraySort (fun a b => t_timestamp b - t_timestamp a)
      (List.filter (fun txn => String.eqb (t_itemId txn) itemId)
         (JSMap.values (transactions (this w))))).

(** *** Stock operations *)

Definition checkOutItem (itemId : string) (quantity : float) (technicianId : string)
    (jobId notes : option string) : Eff World unit :=
  item <- gets (fun w => JSMap.get itemId (items (this w))) ;;
  match item with
  | None => throw (Error ("Item " +:+ itemId +:+ " not found"))
  | Some item =>
      if (i_quantity item <? quantity)%float
      then throw (Error ("Insufficient stock for " +:+ i_name item +:+ ". Available: "
                         +:+ numberToString (i_quantity item) +:+ ", Requested: "
                         +:+ numberToString quantity))
      else
        let previousQuantity := i_quantity item in
        let newQuantity := (i_quantity item - quantity)%float in
        addTransaction {|
          t_id := "";
          t_itemId := itemId;
          t_type := "out";
          t_quantity := quantity;
          t_previousQuantity := previousQuantity;
          t_newQuantity := newQuantity;
          t_reason := "Technician checkout";
          t_technicianId := Some technicianId;
          t_jobId := jobId;
          t_notes := notes;
          t_timestamp := 0
        |} ;;
        ret tt
  end.

Definition returnItem (itemId : string) (quantity : float) (technicianId : string)
    (notes : option string) : Eff World unit :=
  item <- gets (fun w => JSMap.get itemId (items (this w))) ;;
  match item with
  | None => throw (Error ("Item " +:+ itemId +:+ " not found"))
  | Some item =>
      let previousQuantity := i_quantity item in
      let newQuantity := (i_quantity item + quantity)%float in
      addTransaction {|
        t_id := "";
        t_itemId := itemId;
        t_type := "return";
        t_quantity := quantity;
        t_previousQuantity := previousQuantity;
        t_newQuantity := newQuantity;
        t_reason := "Technician return";
        t_technicianId := Some technicianId;
        t_jobId := None;
        t_notes := notes;
        t_timestamp := 0
      |} ;;
      ret tt
  end.

(** *** Supplier management *)

Definition getSupplier (id : string) : Eff World (option Supplier) :=
  gets (fun w => JSMap.get id (suppliers (this w))).

Definition getAllSuppliers : Eff World (list Supplier) :=
  gets (fun w => JSMap.values (suppliers (this w))).

Definition addSupplier (supplier : Supplier) : Eff World Supplier :=
  id <- freshId "supplier" ;;
  let newSupplier := supplierWith supplier id in
  modify (setThis (setSuppliers (JSMap.set (su_id newSupplier) newSupplier))) ;;
  consoleLog ("➕ Added supplier: " +:+ su_name newSupplier) ;;
  ret newSupplier.

(** *** Purchase order management *)

Definition createPurchaseOrder (order : PurchaseOrder) : Eff World PurchaseOrder :=
  id <- freshId "po" ;;
  orderDate <- inEnv newDate ;;
  let newOrder := orderWith order id orderDate in
  modify (setThis (setPurchaseOrders (JSMap.set (po_id newOrder) newOrder))) ;;
  consoleLog ("📋 Created purchase order: " +:+ po_id newOrder) ;;
  ret newOrder.

Definition getPurchaseOrder (id : string) : Eff World (option PurchaseOrder) :=
  gets (fun w => JSMap.get id (purchaseOrders (this w))).

Definition updatePurchaseOrderStatus (id status : string) : Eff World unit :=
  order <- gets (fun w => JSMap.get id (purchaseOrders (this w))) ;;
  match order with
  | Some order =>
      actualDelivery <- (if String.eqb status "received"
                         then now <- inEnv newDate ;; ret (Some now)
                         else ret None) ;;
      let order := orderStatus order status actualDelivery in
      modify (setThis (setPurchaseOrders (JSMap.set id order))) ;;
      consoleLog ("📋 Updated PO " +:+ id +:+ " status to: " +:+ status)
  | None => ret tt
  end.

(** *** Analytics and reporting *)

Definition getInventoryValue : Eff World InventoryValue :=
  items <- gets (fun w => JSMap.values (items (this w))) ;;
  let totalValue :=
    foldl (fun sum item => sum + (i_quantity item * i_unitPrice item))%float 0%float items in
  let lowStockItems :=
    arrayLength
      (List.filter (fun item => (i_quantity item <=? i_minQuantity item)%float) items) in
  let outOfStockItems :=
    arrayLength
      (List.filter (fun item => (i_quantity item =? 0)%float) items) in
  ret {|
    iv_totalValue := totalValue;
    iv_totalItems := arrayLength items;
    iv_lowStockItems := lowStockItems;
    iv_outOfStockItems := outOfStockItems
  |}.

Definition getRestockRecommendations : Eff World (list RestockRecommendation) :=
  lowStockItems <- getLowStockItems ;;
  ret (map (fun item =>
              let recommendedQuantity := (i_maxQuantity item - i_quantity item)%float in
              let estimatedCost := (recommendedQuantity * i_unitPrice item)%float in
              {| rr_item := item;
                 rr_recommendedQuantity := recommendedQuantity;
                 rr_estimatedCost := estimatedCost |})
           lowStockItems).

(** *** Sequences of calls *)

(** A call of a public method with its arguments. *)
Inductive Call : Type :=
| CallGetItem (id : string)
| CallGetAllItems
| CallGetItemsByCategory (category : string)
| CallGetLowStockItems
| CallAddItem (item : InventoryItem)
| CallUpdateItem (id : string) (updates : ItemUpdates)
| CallAddTransaction (transaction : InventoryTransaction)
| CallGetItemTransactions (itemId : string)
| CallCheckOutItem (itemId : string) (quantity : float) (technicianId : string)
    (jobId notes : option string)
| CallReturnItem (itemId : string) (quantity : float) (technicianId : string)
    (notes : option string)
| CallGetSupplier (id : string)
| CallGetAllSuppliers
| CallAddSupplier (supplier : Supplier)
| CallCreatePurchaseOrder (order : PurchaseOrder)
| CallGetPurchaseOrder (id : string)
| CallUpdatePurchaseOrderStatus (id status : string)
| CallGetInventoryValue
| CallGetRestockRecommendations.

(** The state a call leaves, whether it returns or throws. *)
Definition runCall (c : Call) (w : World) : World :=
  match c with
  | CallGetItem id => snd (getItem id w)
  | CallGetAllItems => snd (getAllItems w)
  | CallGetItemsByCategory category => snd (getItemsByCategory category w)
  | CallGetLowStockItems => snd (getLowStockItems w)
  | CallAddItem item => snd (addItem item w)
  | CallUpdateItem id updates => snd (updateItem id updates w)
  | CallAddTransaction transaction => snd (addTransaction transaction w)
  | CallGetItemTransactions itemId => snd (getItemTransactions itemId w)
  | CallCheckOutItem itemId quantity technicianId jobId notes =>
      snd (checkOutItem itemId quantity technicianId jobId notes w)
  | CallReturnItem itemId quantity technicianId notes =>
      snd (returnItem itemId quantity technicianId notes w)
  | CallGetSupplier id => snd (getSupplier id w)
  | CallGetAllSuppliers => snd (getAllSuppliers w)
  | CallAddSupplier supplier => snd (addSupplier supplier w)
  | CallCreatePurchaseOrder order => snd (createPurchaseOrder order w)
  | CallGetPurchaseOrder id => snd (getPurchaseOrder id w)
  | CallUpdatePurchaseOrderStatus id status => snd (updatePurchaseOrderStatus id status w)
  | CallGetInventoryValue => snd (getInventoryValue w)
  | CallGetRestockRecommendations => snd (getRestockRecommendations w)
  end.

Definition runCalls (calls : list Call) (w : World) : World :=
  foldl (fun w c => runCall c w) w calls.

(** A call that stores no item with an [id] other than the key it is stored
    under: every call but an [updateItem] with an [id] that is not the key. *)
Definition keepsIds (c : Call) : Prop :=
  match c with
  | CallUpdateItem id updates => iu_id updates = None \/ iu_id updates = Some id
  | _ => True
  end.

(** The object literal [{ id: X }]. *)
Definition itemIdOnly (X : string) : ItemUpdates := {|
  iu_id := Some X;
  iu_sku := None;
  iu_name := None;
  iu_category := None;
  iu_subcategory := None;
  iu_manufacturer := None;
  iu_partNumber := None;
  iu_description := None;
  iu_quantity := None;
  iu_minQuantity := None;
  iu_maxQuantity := None;
  iu_unit := None;
  iu_unitPrice := None;
  iu_location := None;
  iu_binLocation := None;
  iu_supplier := None;
  iu_supplierPartNumber := None;
  iu_lastRestocked := None;
  iu_nextRestockDate := None;
  iu_isActive := None;
  iu_tags := None;
  iu_specifications := None;
  iu_images := None;
  iu_createdAt := None;
  iu_updatedAt := None
|}.

End Methods.

(** What holds of the four maps whatever the calls: no key twice, and every
    transaction, supplier and purchase order under its own [id]. *)
Definition KeyedApart (m : InventoryModule) : Prop :=
  NoDup (JSMap.keys (items m)) /\ keyedBy t_id (transactions m)
  /\ keyedBy su_id (suppliers m) /\ keyedBy po_id (purchaseOrders m).

Definition KeyedById (m : InventoryModule) : Prop :=
  keyedBy i_id (items m) /\ keyedBy t_id (transactions m)
  /\ keyedBy su_id (suppliers m) /\ keyedBy po_id (purchaseOrders m).

(** The object literal [checkOutItem] and [returnItem] give to
    [addTransaction]. *)
Definition stockMove (type : string) (itemId : string) (quantity previousQuantity
    newQuantity : float) (reason technicianId : string) (jobId notes : option string)
  : InventoryTransaction := {|
  t_id := "";
  t_itemId := itemId;
  t_type := type;
  t_quantity := quantity;
  t_previousQuantity := previousQuantity;
  t_newQuantity := newQuantity;
  t_reason := reason;
  t_technicianId := Some technicianId;
  t_jobId := jobId;
  t_notes := notes;
  t_timestamp := 0
|}.

(** The state after the calls [updatePurchaseOrderStatus(id, status)] for the
    pairs of [updates], in turn. *)
Definition updateOrders (updates : list (string * string)) (w : World) : World :=
  foldl (fun w update => snd (updatePurchaseOrderStatus update.1 update.2 w)) w updates.

(** The process just after [new InventoryModule()]. *)
Definition boot (e : Env) : World :=
  let (r, e') := newInventoryModule e in
  {| this := match r with
             | Ok m => m
             | Throw _ => {| items := []; transactions := [];
                             suppliers := []; purchaseOrders := [] |}
             end;
     env := e'; console := [] |}.

End Inventory.

(** Fixtures for the inventory module. *)
Module InventoryDemo.

(** The process just after [new InventoryModule()], one second per reading of
    the clock. *)
Definition fresh : Inventory.World := Inventory.boot (Demo.steadyEnv 1000 0.5).

(** An order of oil, as a draft. *)
Definition oilOrder : Inventory.PurchaseOrder := {|
  Inventory.po_id := "";
  Inventory.po_supplierId := "supplier-001";
  Inventory.po_status := "draft";
  Inventory.po_items := [
    {| Inventory.poi_itemId := "item-001";
       Inventory.poi_quantity := 52;
       Inventory.poi_unitPrice := 8.99;
       Inventory.poi_totalPrice := 467.48;
       Inventory.poi_receivedQuantity := None |} ];
  Inventory.po_totalAmount := 467.48;
  Inventory.po_tax := 0;
  Inventory.po_shipping := 0;
  Inventory.po_grandTotal := 467.48;
  Inventory.po_orderDate := 0;
  Inventory.po_expectedDelivery := None;
  Inventory.po_actualDelivery := None;
  Inventory.po_notes := None;
  Inventory.po_createdBy := "alice"
|}.

(** The id the order gets in [fresh]. *)
Definition oilOrderId : string := "po-1700000003000-i".

(** [fresh] after the order was created and received. *)
Definition received : Inventory.World :=
  Inventory.runCalls Demo.toString36 CustomersDemo.numberToString
    [Inventory.CallCreatePurchaseOrder oilOrder;
     Inventory.CallUpdatePurchaseOrderStatus oilOrderId "received"]
    fresh.

(** The order as [received] holds it. *)
Definition receivedOrder : Inventory.PurchaseOrder :=
  Inventory.orderStatus (Inventory.orderWith oilOrder oilOrderId 1700000004000)
    "received" (Some 1700000005000).

End InventoryDemo.

(** ** The routes of the server and the modules behind them

    [DiagnosticsModule], [AssignmentsModule] and [VRNode], and the handlers
    that [setupRoutes] of [MufflerManOS] gives them.  A handler runs to its
    end before another starts: its [await]s are on promises that are already
    settled.  The routes that read [this.config] are not part of the
    embedding. *)

Module MufflerManOS.

Set Warnings "-register-all".

(** A value as [express.json()] leaves it in [req.body], or [undefined]. *)
Inductive Json : Type :=
| JUndefined
| JNull
| JBoolean (b : bool)
| JNumber (x : float)
| JString (s : string)
| JArray (items : list Json)
| JObject (properties : list (string * Json)).

(** The truth value of [value] in a condition: [undefined], [null], [false],
    [0], [-0], [NaN] and the empty string are false. *)
Definition truthy (value : Json) : bool :=
  match value with
  | JUndefined | JNull => false
  | JBoolean b => b
  | JNumber x => negb (x =? 0)%float && (x =? x)%float
  | JString s => negb (String.eqb s "")
  | JArray _ | JObject _ => true
  end.

(** [source.name] on a value other than [undefined] and [null]: the property
    of an object, and [undefined] on the other values, which have no property
    of the names the routes ask for. *)
Definition property (name : string) (source : Json) : Json :=
  match source with
  | JObject properties =>
      match JSMap.get name properties with
      | Some value => value
      | None => JUndefined
      end
  | _ => JUndefined
  end.

(** [const { name } = source], [sourceText] being the text of [source] in the
    program: a [TypeError] on [undefined] and on [null]. *)
Definition destructure {St} (name sourceText : string) (source : Json) : Eff St Json :=
  match source with
  | JUndefined =>
      throw (Error ("Cannot destructure property '" +:+ name +:+ "' of '" +:+ sourceText
                    +:+ "' as it is undefined."))
  | JNull =>
      throw (Error ("Cannot destructure property '" +:+ name +:+ "' of '" +:+ sourceText
                    +:+ "' as it is null."))
  | _ => ret (property name source)
  end.

(** *** [DiagnosticsModule] *)

Record FaultCode : Type := mkFaultCode {
  fc_code : string;
  fc_description : string;
  fc_severity : string
}.

(** [vin] is whatever the caller passes: the route passes a property of the
    request body. *)
Record VehicleScan : Type := mkVehicleScan {
  vs_vin : Json;
  vs_make : string;
  vs_model : string;
  vs_year : float;
  vs_faultCodes : list FaultCode
}.

Definition scanVehicle {St} (vin : Json) : Eff St VehicleScan :=
  (* Vehicle scanning logic *)
  ret {|
    vs_vin := vin;
    vs_make := "Unknown";
    vs_model := "Unknown";
    vs_year := 0;
    vs_faultCodes := []
  |}.

Definition lookupFaultCode {St} (code : string) : Eff St (option FaultCode) :=
  (* OBD-II fault code lookup *)
  ret None.

(** *** [AssignmentsModule] *)

Record Job : Type := mkJob {
  j_id : string;
  j_vehicleId : string;
  j_description : string;
  j_priority : string;
  j_assignedTechnician : option string;
  j_status : string
}.

Record AssignmentsModule : Type := mkAssignmentsModule {
  jobQueue : list Job
}.

(** [new AssignmentsModule()] *)
Definition newAssignmentsModule : AssignmentsModule := {| jobQueue := [] |}.

(** [assignJob] changes the job it is given; the job as the caller then sees
    it is returned. *)
Definition assignJob (job : Job) (technicianId : string) : Eff AssignmentsModule Job :=
  ret {|
    j_id := j_id job;
    j_vehicleId := j_vehicleId job;
    j_description := j_description job;
    j_priority := j_priority job;
    j_assignedTechnician := Some technicianId;
    j_status := "in-progress"
  |}.

Definition getJobQueue : Eff AssignmentsModule (list Job) := gets jobQueue.

(** *** [VRNode] *)

Record Position : Type := mkPosition { x : float; y : float; z : float }.

Record Dimensions : Type := mkDimensions {
  dim_width : float;
  dim_length : float;
  dim_height : float
}.

(** [status] is declared ['available' | 'occupied' | 'maintenance'] and holds
    whatever [updateBayStatus] was given. *)
Record Bay : Type := mkBay {
  bay_id : string;
  bay_number : float;
  bay_position : Position;
  bay_currentVehicle : option string;
  bay_status : Json
}.

Record Equipment : Type := mkEquipment {
  eq_id : string;
  eq_name : string;
  eq_type : string;
  eq_position : Position;
  eq_status : string
}.

Record ShopLayout : Type := mkShopLayout {
  sl_id : string;
  sl_name : string;
  sl_dimensions : Dimensions;
  sl_bays : list Bay;
  sl_equipment : list Equipment
}.

Record VRNode : Type := mkVRNode {
  layout : ShopLayout
}.

(** [new VRNode(layout)] *)
Definition newVRNode (layout : ShopLayout) : VRNode := {| layout := layout |}.

Definition getLayout : Eff VRNode ShopLayout := gets layout.

(** [bay.status = status] *)
Definition bayWithStatus (bay : Bay) (status : Json) : Bay := {|
  bay_id := bay_id bay;
  bay_number := bay_number bay;
  bay_position := bay_position bay;
  bay_currentVehicle := bay_currentVehicle bay;
  bay_status := status
|}.

Definition setBays (f : list Bay -> list Bay) (node : VRNode) : VRNode :=
  {| layout := {|
       sl_id := sl_id (layout node);
       sl_name := sl_name (layout node);
       sl_dimensions := sl_dimensions (layout node);
       sl_bays := f (sl_bays (layout node));
       sl_equipment := sl_equipment (layout node)
     |} |}.

Definition updateBayStatus (bayId : string) (status : Json) : Eff VRNode unit :=
  bay <- gets (fun node =>
           arrayFind (fun b => String.eqb (bay_id b) bayId) (sl_bays (layout node))) ;;
  match bay with
  | Some _ =>
      modify (setBays (changeFound (fun b => String.eqb (bay_id b) bayId)
                         (fun bay => bayWithStatus bay status)))
  | None => ret tt
  end.

(** *** The routes *)

(** The fields of [MufflerManOS] behind the routes below; the diagnostics
    module has no state. *)
Record App : Type := mkApp {
  assignmentsModule : AssignmentsModule;
  vrNode : VRNode
}.

Definition inAssignments {A} (m : Eff AssignmentsModule A) : Eff App A :=
  zoom assignmentsModule
    (fun a app => {| assignmentsModule := a; vrNode := vrNode app |}) m.

Definition inVRNode {A} (m : Eff VRNode A) : Eff App A :=
  zoom vrNode
    (fun n app => {| assignmentsModule := assignmentsModule app; vrNode := n |}) m.

(** What a handler gives to [res.json]. *)
Inductive Body : Type :=
| ErrorBody (error : string)             (* { error } *)
| MessageBody (message : string)         (* { message } *)
| ScanBody (scan : VehicleScan)
| FaultCodeBody (faultCode : FaultCode)
| QueueBody (queue : list Job)
| LayoutBody (layout : ShopLayout).

Record Response : Type := mkResponse {
  status : Z;
  body : Body
}.

(** [res.json(body)] and [res.status(code).json(body)] *)
Definition resJson (body : Body) : Response := {| status := 200; body := body |}.
Definition resStatusJson (code : Z) (body : Body) : Response :=
  {| status := code; body := body |}.

(** [POST /api/diagnostics/scan] *)
Definition postDiagnosticsScan (reqBody : Json) : Eff App Response :=
  tryCatch
    (vin <- destructure "vin" "req.body" reqBody ;;
     if negb (truthy vin)
     then ret (resStatusJson 400 (ErrorBody "VIN is required"))
     else
       scan <- scanVehicle vin ;;
       ret (resJson (ScanBody scan)))
    (fun error => ret (resStatusJson 500 (ErrorBody "Vehicle scan failed"))).

(** [GET /api/diagnostics/fault-code/:code] *)
Definition getDiagnosticsFaultCode (code : string) : Eff App Response :=
  tryCatch
    (faultCode <- lookupFaultCode code ;;
     match faultCode with
     | None => ret (resStatusJson 404 (ErrorBody "Fault code not found"))
     | Some faultCode => ret (resJson (FaultCodeBody faultCode))
     end)
    (fun error => ret (resStatusJson 500 (ErrorBody "Fault code lookup failed"))).

(** [GET /api/assignments/queue] *)
Definition getAssignmentsQueue : Eff App Response :=
  tryCatch
    (queue <- inAssignments getJobQueue ;;
     ret (resJson (QueueBody queue)))
    (fun error => ret (resStatusJson 500 (ErrorBody "Failed to get job queue"))).

(** [POST /api/assignments/assign] *)
Definition postAssignmentsAssign (reqBody : Json) : Eff App Response :=
  tryCatch
    (jobId <- destructure "jobId" "req.body" reqBody ;;
     technicianId <- destructure "technicianId" "req.body" reqBody ;;
     (* Implementation would need job lookup logic *)
     ret (resJson (MessageBody "Job assigned successfully")))
    (fun error => ret (resStatusJson 500 (ErrorBody "Job assignment failed"))).

(** [GET /api/vr/layout] *)
Definition getVrLayout : Eff App Response :=
  tryCatch
    (layout <- inVRNode getLayout ;;
     ret (resJson (LayoutBody layout)))
    (fun error => ret (resStatusJson 500 (ErrorBody "Failed to get VR layout"))).

(** [PUT /api/vr/bay/:bayId/status] *)
Definition putVrBayStatus (bayId : string) (reqBody : Json) : Eff App Response :=
  tryCatch
    (status <- destructure "status" "req.body" reqBody ;;
     inVRNode (updateBayStatus bayId status) ;;
     ret (resJson (MessageBody "Bay status updated")))
    (fun error => ret (resStatusJson 500 (ErrorBody "Failed to update bay status"))).

(** *** Sequences of requests *)

Inductive Request : Type :=
| PostDiagnosticsScan (reqBody : Json)
| GetDiagnosticsFaultCode (code : string)
| GetAssignmentsQueue
| PostAssignmentsAssign (reqBody : Json)
| GetVrLayout
| PutVrBayStatus (bayId : string) (reqBody : Json).

Definition handle (request : Request) : Eff App Response :=
  match request with
  | PostDiagnosticsScan reqBody => postDiagnosticsScan reqBody
  | GetDiagnosticsFaultCode code => getDiagnosticsFaultCode code
  | GetAssignmentsQueue => getAssignmentsQueue
  | PostAssignmentsAssign reqBody => postAssignmentsAssign reqBody
  | GetVrLayout => getVrLayout
  | PutVrBayStatus bayId reqBody => putVrBayStatus bayId reqBody
  end.

(** The state after the requests were served in turn. *)
Definition serve (requests : list Request) (app : App) : App :=
  foldl (fun app request => snd (handle request app)) app requests.

(** The modules as [initializeModules] makes them, around a layout. *)
Definition newApp (layout : ShopLayout) : App :=
  {| assignmentsModule := newAssignmentsModule; vrNode := newVRNode layout |}.

(** The [bays] and [equipment] of the layout [initializeModules] gives the
    node. *)
Definition defaultBays : list Bay := [
  {| bay_id := "bay-1"; bay_number := 1;
     bay_position := {| x := 10; y := 10; z := 0 |};
     bay_currentVehicle := None; bay_status := JString "available" |};
  {| bay_id := "bay-2"; bay_number := 2;
     bay_position := {| x := 30; y := 10; z := 0 |};
     bay_currentVehicle := None; bay_status := JString "available" |};
  {| bay_id := "bay-3"; bay_number := 3;
     bay_position := {| x := 50; y := 10; z := 0 |};
     bay_currentVehicle := None; bay_status := JString "available" |} ].

Definition defaultEquipment : list Equipment := [
  {| eq_id := "lift-1"; eq_name := "2-Post Lift"; eq_type := "lift";
     eq_position := {| x := 10; y := 15; z := 0 |}; eq_status := "operational" |};
  {| eq_id := "scanner-1"; eq_name := "OBD-II Scanner"; eq_type := "scanner";
     eq_position := {| x := 5; y := 5; z := 0 |}; eq_status := "operational" |} ].

(** The default layout, without its [zones] and [metadata], which are not of
    [ShopLayout] and which no method of the node reads. *)
Definition defaultLayout : ShopLayout := {|
  sl_id := "shop-9305";
  sl_name := "MufflerMan Shop - 9305";
  sl_dimensions := {| dim_width := 100; dim_length := 150; dim_height := 20 |};
  sl_bays := defaultBays;
  sl_equipment := defaultEquipment
|}.

(** [undefined] and [null], the values that cannot be destructured. *)
Definition nullish (value : Json) : bool :=
  match value with
  | JUndefined | JNull => true
  | _ => false
  end.

(** The answers of the routes. *)
Definition ok (body : Body) : Response := resJson body.
Definition failed (code : Z) (error : string) : Response :=
  resStatusJson code (ErrorBody error).

End MufflerManOS.

(** ** Sequences of calls on an [AnalyticsModule] *)

(** A call of a public method with its arguments. *)
Inductive Call : Type :=
| CallGenerateAnalyticsData (timeRange : string)
| CallGenerateReport (name : string) (type : ReportType) (timeRange generatedBy : string)
| CallGetReport (id : string)
| CallGetAllReports
| CallGetDashboard (id : string)
| CallGetAllDashboards
| CallCreateDashboard (dashboard : DashboardInput)
| CallUpdateDashboard (id : string) (updates : DashboardUpdates)
| CallGetRealTimeMetrics
| CallExportReport (reportId : string) (format : ExportFormat)
| CallCheckAlerts.

(** The state a call leaves, whether it returns or throws. *)
Definition runCall (toString36 : float -> string) (G : Generators) (c : Call) (w : World)
  : World :=
  match c with
  | CallGenerateAnalyticsData timeRange => snd (generateAnalyticsData G timeRange w)
  | CallGenerateReport name type timeRange generatedBy =>
      snd (generateReport toString36 G name type timeRange generatedBy w)
  | CallGetReport id => snd (getReport id w)
  | CallGetAllReports => snd (getAllReports w)
  | CallGetDashboard id => snd (getDashboard id w)
  | CallGetAllDashboards => snd (getAllDashboards w)
  | CallCreateDashboard dashboard => snd (createDashboard toString36 dashboard w)
  | CallUpdateDashboard id updates => snd (updateDashboard id updates w)
  | CallGetRealTimeMetrics => snd (getRealTimeMetrics w)
  | CallExportReport reportId format => snd (exportReport reportId format w)
  | CallCheckAlerts => snd (checkAlerts w)
  end.

Definition runCalls (toString36 : float -> string) (G : Generators) (calls : list Call)
    (w : World) : World :=
  foldl (fun w c => runCall toString36 G c w) w calls.

(** Every report of the store is stored under its own id. *)
Definition ReportsKeyedById (w : World) : Prop :=
  Forall (fun entry : string * Report => r_id entry.2 = entry.1) (reports (this w)).

(** The object literal [{ id: X }]. *)
Definition idOnly (X : string) : DashboardUpdates := {|
  u_id := Some X; u_name := None; u_description := None; u_widgets := None;
  u_layout := None; u_isPublic := None; u_createdBy := None;
  u_createdAt := None; u_updatedAt := None
|}.

(** Between two states of the module nothing was removed: the ids of the
    reports and of the dashboards of the first are still there, in the same
    places, and so are the keys of its cache. *)
Definition Grown (w w' : World) : Prop :=
  JSMap.keys (reports (this w)) `prefix_of` JSMap.keys (reports (this w'))
  /\ JSMap.keys (dashboards (this w)) `prefix_of` JSMap.keys (dashboards (this w'))
  /\ forall key, is_Some (dataCache (this w) !! key) ->
                 is_Some (dataCache (this w') !! key).

(** * Properties *)

(** Unfolds the operations of [Eff] so that a run reduces. *)
Ltac unfold_eff :=
  unfold callFacet, recordCall, consoleLog, consoleError, inEnv, zoom, bind, ret, gets,
    modify, throw, newDate, dateNow, mathRandom in *.

(** Case analysis on the outcome of the next generator call of the goal; [E]
    names the equation and [e'] the environment the call leaves. *)
Ltac run_generator E e' :=
  match goal with
  | |- context [generateRevenueAnalytics ?G ?tr ?e] =>
      destruct (generateRevenueAnalytics G tr e) as [[?|?] e'] eqn:E
  | |- context [generateOperationsAnalytics ?G ?tr ?e] =>
      destruct (generateOperationsAnalytics G tr e) as [[?|?] e'] eqn:E
  | |- context [generateCustomerAnalytics ?G ?tr ?e] =>
      destruct (generateCustomerAnalytics G tr e) as [[?|?] e'] eqn:E
  | |- context [generateInventoryAnalytics ?G ?tr ?e] =>
      destruct (generateInventoryAnalytics G tr e) as [[?|?] e'] eqn:E
  | |- context [generatePerformanceAnalytics ?G ?tr ?e] =>
      destruct (generatePerformanceAnalytics G tr e) as [[?|?] e'] eqn:E
  | |- context [generateTrendAnalytics ?G ?tr ?e] =>
      destruct (generateTrendAnalytics G tr e) as [[?|?] e'] eqn:E
  end; cbn.

(** Closes the case of [recompute] in which the generator of facet [f],
    called in [e0] with outcome [E], threw. *)
Ltac thrown_by f e0 E :=
  intros [= <- <-]; cbn;
  split; [reflexivity |]; split; [reflexivity |]; split;
  [ eexists; split;
    [ rewrite <- ?app_assoc; reflexivity | cbn; eexists; reflexivity ]
  | exists f, e0; cbn; rewrite E; reflexivity ].

(** ** The cache of [generateAnalyticsData] *)

Section Cache.

Variable G : Generators.
Variable timeRange : string.

(** The three paths of the lookup. *)

Lemma generateAnalyticsData_absent w :
  dataCache (this w) !! cacheKeyOf timeRange = None ->
  generateAnalyticsData G timeRange w = recompute G timeRange w.
Proof.
  intros Hnone. unfold generateAnalyticsData, bind at 1, gets.
  rewrite Hnone. reflexivity.
Qed.

Lemma generateAnalyticsData_stale w cached :
  dataCache (this w) !! cacheKeyOf timeRange = Some cached ->
  cacheExpiry <= nextNow (env w) - timestamp cached ->
  generateAnalyticsData G timeRange w
  = recompute G timeRange (setEnv (tickClock (env w)) w).
Proof.
  intros Hsome Hold. unfold generateAnalyticsData, bind at 1, gets.
  rewrite Hsome. do 2 unfold bind at 1. unfold inEnv at 1, zoom, dateNow, ret at 1.
  destruct (Z.ltb_spec (nextNow (env w) - timestamp cached) cacheExpiry); [lia|].
  reflexivity.
Qed.

Lemma generateAnalyticsData_fresh w cached :
  dataCache (this w) !! cacheKeyOf timeRange = Some cached ->
  nextNow (env w) - timestamp cached < cacheExpiry ->
  generateAnalyticsData G timeRange w
  = (Ok (data cached), setEnv (tickClock (env w)) w).
Proof.
  intros Hsome Hyoung. unfold generateAnalyticsData, bind at 1, gets.
  rewrite Hsome. do 2 unfold bind at 1. unfold inEnv at 1, zoom, dateNow, ret at 1.
  destruct (Z.ltb_spec (nextNow (env w) - timestamp cached) cacheExpiry); [|lia].
  reflexivity.
Qed.

(** Every lookup is a miss or finds a young entry. *)
Lemma Miss_or_fresh w :
  Miss timeRange w
  \/ exists cached,
       dataCache (this w) !! cacheKeyOf timeRange = Some cached
       /\ nextNow (env w) - timestamp cached < cacheExpiry.
Proof.
  unfold Miss. destruct (dataCache (this w) !! cacheKeyOf timeRange) as [c|]; [|auto].
  destruct (Z.lt_ge_cases (nextNow (env w) - timestamp c) cacheExpiry); eauto.
Qed.

(** On a miss the call is the recomputation, after the reading of the
    clock the lookup made when it found an entry. *)
Lemma generateAnalyticsData_miss w :
  Miss timeRange w ->
  exists w0,
    generateAnalyticsData G timeRange w = recompute G timeRange w0
    /\ this w0 = this w /\ console w0 = console w /\ facetCalls w0 = facetCalls w
    /\ env w0 = envAfterLookup timeRange w.
Proof.
  unfold envAfterLookup. intros [Hnone | (c & Hc & Hold)].
  - exists w. rewrite generateAnalyticsData_absent by assumption.
    rewrite Hnone. auto.
  - exists (setEnv (tickClock (env w)) w).
    rewrite (generateAnalyticsData_stale w c) by assumption.
    rewrite Hc. auto.
Qed.

(** A recomputation that throws has written nothing: the fields of the
    module and the console are as before, the generators were called in order
    up to the one that threw, and the error is that generator's. *)
Lemma recompute_throw w err w' :
  recompute G timeRange w = (Throw err, w') ->
  this w' = this w
  /\ console w' = console w
  /\ (exists calls, facetCalls w' = (facetCalls w ++ calls)%list
                    /\ calls `prefix_of` sixCalls timeRange)
  /\ exists f e0, facetOutcome G f timeRange e0 = Some err.
Proof.
  unfold recompute. unfold_eff. cbn.
  run_generator E1 e1; [| thrown_by Revenue (env w) E1 ].
  run_generator E2 e2; [| thrown_by Operations e1 E2 ].
  run_generator E3 e3; [| thrown_by Customers e2 E3 ].
  run_generator E4 e4; [| thrown_by Inventory e3 E4 ].
  run_generator E5 e5; [| thrown_by Performance e4 E5 ].
  run_generator E6 e6; [| thrown_by Trends e5 E6 ].
  discriminate.
Qed.

(** A recomputation that returns has called the six generators, in order,
    and has stored the bundle it returns under the time of the latest reading
    of the clock. *)
Lemma recompute_ok w d w' :
  recompute G timeRange w = (Ok d, w') ->
  facetCalls w' = (facetCalls w ++ sixCalls timeRange)%list
  /\ console w' = console w
  /\ this w' = setDataCache
       (fun dataCache =>
          <[cacheKeyOf timeRange := {| data := d; timestamp := lastNow (env w') |}]> dataCache)
       (this w).
Proof.
  unfold recompute. unfold_eff. cbn.
  run_generator E1 e1; [| discriminate ].
  run_generator E2 e2; [| discriminate ].
  run_generator E3 e3; [| discriminate ].
  run_generator E4 e4; [| discriminate ].
  run_generator E5 e5; [| discriminate ].
  run_generator E6 e6; [| discriminate ].
  intros [= <- <-]. cbn. rewrite <- !app_assoc. cbn. repeat split.
Qed.

(** The bundle a recomputation returns is the bundle of the six generators,
    and the reading of the clock after it is the timestamp of the entry. *)
Lemma recompute_bundle w d w' :
  recompute G timeRange w = (Ok d, w') ->
  exists e1,
    freshBundle G timeRange (env w) = (Ok d, e1)
    /\ env w' = tickClock e1
    /\ lastNow (env w') = nextNow e1.
Proof.
  unfold recompute, freshBundle. unfold_eff. cbn.
  run_generator E1 e1; [| discriminate ].
  run_generator E2 e2; [| discriminate ].
  run_generator E3 e3; [| discriminate ].
  run_generator E4 e4; [| discriminate ].
  run_generator E5 e5; [| discriminate ].
  run_generator E6 e6; [| discriminate ].
  intros [= <- <-]. cbn. eexists. repeat split.
Qed.

(** The recomputation throws the error of the first generator that throws,
    and returns when none does. *)
Lemma recompute_firstThrow w :
  match firstThrow G timeRange allFacets (env w) with
  | Some err => exists w', recompute G timeRange w = (Throw err, w')
  | None => exists d w', recompute G timeRange w = (Ok d, w')
  end.
Proof.
  unfold recompute, allFacets. unfold_eff. cbn.
  destruct (generateRevenueAnalytics G timeRange (env w)) as [[a1|err] e1]; cbn; [| eauto].
  destruct (generateOperationsAnalytics G timeRange e1) as [[a2|err] e2]; cbn; [| eauto].
  destruct (generateCustomerAnalytics G timeRange e2) as [[a3|err] e3]; cbn; [| eauto].
  destruct (generateInventoryAnalytics G timeRange e3) as [[a4|err] e4]; cbn; [| eauto].
  destruct (generatePerformanceAnalytics G timeRange e4) as [[a5|err] e5]; cbn; [| eauto].
  destruct (generateTrendAnalytics G timeRange e5) as [[a6|err] e6]; cbn; eauto.
Qed.

(** Total generators do not throw in any run. *)
Lemma firstThrow_total facets e :
  Total G -> firstThrow G timeRange facets e = None.
Proof.
  intros HG. destruct (HG timeRange) as (H1 & H2 & H3 & H4 & H5 & H6).
  revert e. induction facets as [|f facets IH]; intros e; [reflexivity |].
  cbn. destruct f; cbn.
  - destruct (H1 e) as (a & e' & ->). cbn. apply IH.
  - destruct (H2 e) as (a & e' & ->). cbn. apply IH.
  - destruct (H3 e) as (a & e' & ->). cbn. apply IH.
  - destruct (H4 e) as (a & e' & ->). cbn. apply IH.
  - destruct (H5 e) as (a & e' & ->). cbn. apply IH.
  - destruct (H6 e) as (a & e' & ->). cbn. apply IH.
Qed.

Lemma recompute_total w :
  Total G -> exists d w', recompute G timeRange w = (Ok d, w').
Proof.
  intros HG. pose proof (recompute_firstThrow w) as Hrun.
  rewrite (firstThrow_total allFacets (env w) HG) in Hrun. exact Hrun.
Qed.

(** The recomputation starts with the call of the revenue generator. *)
Lemma recompute_calls_revenue w :
  exists rest,
    facetCalls (snd (recompute G timeRange w))
    = (facetCalls w ++ (Revenue, timeRange) :: rest)%list.
Proof.
  destruct (recompute G timeRange w) as [[d|err] w'] eqn:Hrun; cbn.
  - apply recompute_ok in Hrun as (-> & _). eexists. reflexivity.
  - revert Hrun. unfold recompute. unfold_eff. cbn.
    run_generator E1 e1; [| intros [= <- <-]; cbn; exists []; reflexivity ].
    run_generator E2 e2; [| intros [= <- <-]; cbn; rewrite <- app_assoc; eexists; reflexivity ].
    run_generator E3 e3; [| intros [= <- <-]; cbn; rewrite <- !app_assoc; eexists; reflexivity ].
    run_generator E4 e4; [| intros [= <- <-]; cbn; rewrite <- !app_assoc; eexists; reflexivity ].
    run_generator E5 e5; [| intros [= <- <-]; cbn; rewrite <- !app_assoc; eexists; reflexivity ].
    run_generator E6 e6; [| intros [= <- <-]; cbn; rewrite <- !app_assoc; eexists; reflexivity ].
    discriminate.
Qed.

Lemma prefix_sixCalls_once calls f :
  calls `prefix_of` sixCalls timeRange -> (callsOf f calls <= 1)%nat.
Proof.
  intros [k Hk]. unfold sixCalls in Hk.
  do 6 (destruct calls as [|? calls];
        [ destruct f; vm_compute; lia | cbn in Hk; injection Hk as <- Hk ]).
  destruct calls; [ destruct f; vm_compute; lia | discriminate ].
Qed.

(** Any call makes at most one call of each generator. *)
Lemma generateAnalyticsData_calls w r w' :
  generateAnalyticsData G timeRange w = (r, w') ->
  exists calls,
    facetCalls w' = (facetCalls w ++ calls)%list
    /\ calls `prefix_of` sixCalls timeRange.
Proof.
  intros Hrun. destruct (Miss_or_fresh w) as [Hmiss | (c & Hc & Hyoung)].
  - destruct (generateAnalyticsData_miss w Hmiss) as (w0 & Heq & _ & _ & Hcalls & _).
    rewrite Heq in Hrun. rewrite <- Hcalls. destruct r as [d|err].
    + apply recompute_ok in Hrun as (-> & _). exists (sixCalls timeRange).
      split; [reflexivity | exists []; symmetry; apply app_nil_r].
    + apply recompute_throw in Hrun as (_ & _ & Hc & _). exact Hc.
  - rewrite (generateAnalyticsData_fresh w c Hc Hyoung) in Hrun.
    injection Hrun as <- <-. exists []. cbn. rewrite app_nil_r.
    split; [reflexivity | eexists; reflexivity].
Qed.

(** The bundle a call returns is the one the cache then holds. *)
Lemma generateAnalyticsData_ok_cached w d w' :
  generateAnalyticsData G timeRange w = (Ok d, w') ->
  exists cached,
    dataCache (this w') !! cacheKeyOf timeRange = Some cached /\ data cached = d.
Proof.
  intros Hrun. destruct (Miss_or_fresh w) as [Hmiss | (c & Hc & Hyoung)].
  - destruct (generateAnalyticsData_miss w Hmiss) as (w0 & Heq & _).
    rewrite Heq in Hrun. apply recompute_ok in Hrun as (_ & _ & ->). cbn.
    eexists. rewrite lookup_insert_eq. split; reflexivity.
  - rewrite (generateAnalyticsData_fresh w c Hc Hyoung) in Hrun.
    injection Hrun as <- <-. exists c. auto.
Qed.

(** A call that throws leaves every field of the module as it was. *)
Lemma generateAnalyticsData_throw w err w' :
  generateAnalyticsData G timeRange w = (Throw err, w') ->
  Miss timeRange w /\ this w' = this w /\ console w' = console w
  /\ exists f e0, facetOutcome G f timeRange e0 = Some err.
Proof.
  intros Hrun. destruct (Miss_or_fresh w) as [Hmiss | (c & Hc & Hyoung)].
  - destruct (generateAnalyticsData_miss w Hmiss) as (w0 & Heq & Hthis & Hcon & _).
    rewrite Heq in Hrun. apply recompute_throw in Hrun as (-> & -> & _ & Hf). auto.
  - rewrite (generateAnalyticsData_fresh w c Hc Hyoung) in Hrun. discriminate.
Qed.

End Cache.

Section CacheClaims.

Variable G : Generators.
Variable timeRange : string.

(** C1. For every time range (any string, so each of day, week, month,
    quarter and year): when [generateAnalyticsData] is called again while the
    entry of the cache is strictly younger than the five minutes of
    [cacheExpiry], the second call returns the cached bundle, which is the
    bundle the first call returned if it returned one, calls no generator
    (the outcome and the state are the same whatever the generators are) and
    leaves the module as it was; over the two calls each generator is called
    at most once. *)
Theorem cache_hit_makes_no_generator_call w0 r1 w1 cached :
  generateAnalyticsData G timeRange w0 = (r1, w1) ->
  dataCache (this w1) !! cacheKeyOf timeRange = Some cached ->
  nextNow (env w1) - timestamp cached < cacheExpiry ->
  exists w2 calls,
    generateAnalyticsData G timeRange w1 = (Ok (data cached), w2)
    /\ (forall d1, r1 = Ok d1 -> data cached = d1)
    /\ (forall G', generateAnalyticsData G' timeRange w1 = (Ok (data cached), w2))
    /\ facetCalls w2 = facetCalls w1
    /\ this w2 = this w1
    /\ facetCalls w2 = (facetCalls w0 ++ calls)%list
    /\ forall f, (callsOf f calls <= 1)%nat.
Proof.
  intros Hfirst Hsome Hyoung.
  destruct (generateAnalyticsData_calls G timeRange w0 r1 w1 Hfirst)
    as (calls & Hcalls & Hprefix).
  exists (setEnv (tickClock (env w1)) w1), calls.
  split; [ apply generateAnalyticsData_fresh; assumption |].
  split.
  { intros d1 ->. apply generateAnalyticsData_ok_cached in Hfirst as (c & Hc & <-).
    congruence. }
  split.
  { intros G'. apply generateAnalyticsData_fresh; assumption. }
  repeat split; try assumption.
  intros f. apply (prefix_sixCalls_once timeRange). assumption.
Qed.

(** C2. The lookup of [generateAnalyticsData] is a miss exactly when there is
    no entry or [now - timestamp >= cacheExpiry], the boundary included.  On a
    miss the call invokes the generators again, starting with the revenue
    generator, and, when none of them throws, it has called all six, returns
    the bundle of what they returned in this call ([freshBundle]: nothing of
    the entry that was there) and stores that bundle under the key of the
    range with the latest reading of the clock as timestamp, the reading made
    after the bundle was built; the other entries of the cache, the reports
    and the dashboards are as they were.  When the lookup is not a miss the
    call returns the data of the entry, calls no generator and leaves the
    module as it was. *)
Theorem cache_miss_recomputes_and_restamps w :
  (Miss timeRange w ->
     (exists rest,
        facetCalls (snd (generateAnalyticsData G timeRange w))
        = (facetCalls w ++ (Revenue, timeRange) :: rest)%list)
     /\ (firstThrow G timeRange allFacets (envAfterLookup timeRange w) = None ->
         exists d w',
           generateAnalyticsData G timeRange w = (Ok d, w')
           /\ facetCalls w' = (facetCalls w ++ sixCalls timeRange)%list
           /\ dataCache (this w') !! cacheKeyOf timeRange
              = Some {| data := d; timestamp := lastNow (env w') |}
           /\ exists e1,
                freshBundle G timeRange (envAfterLookup timeRange w) = (Ok d, e1)
                /\ env w' = tickClock e1
                /\ lastNow (env w') = nextNow e1
                /\ this w'
                   = setDataCache
                       (fun dataCache =>
                          <[cacheKeyOf timeRange :=
                              {| data := d; timestamp := nextNow e1 |}]> dataCache)
                       (this w)))
  /\ (~ Miss timeRange w ->
        exists cached w',
          dataCache (this w) !! cacheKeyOf timeRange = Some cached
          /\ nextNow (env w) - timestamp cached < cacheExpiry
          /\ generateAnalyticsData G timeRange w = (Ok (data cached), w')
          /\ facetCalls w' = facetCalls w
          /\ this w' = this w).
Proof.
  split.
  - intros Hmiss.
    destruct (generateAnalyticsData_miss G timeRange w Hmiss)
      as (w0 & Heq & Hthis & _ & Hcalls & Henv).
    rewrite Heq, <- Hcalls. split; [apply recompute_calls_revenue |].
    intros Hnone. pose proof (recompute_firstThrow G timeRange w0) as Hrun.
    rewrite Henv, Hnone in Hrun. destruct Hrun as (d & w' & Hrun).
    exists d, w'. split; [exact Hrun |].
    destruct (recompute_bundle G timeRange w0 d w' Hrun) as (e1 & Hbundle & Henv' & Hlast).
    apply recompute_ok in Hrun as (-> & _ & Hstored).
    split; [reflexivity |].
    split; [rewrite Hstored; cbn; apply lookup_insert_eq |].
    exists e1. rewrite <- Henv. split; [exact Hbundle |].
    split; [exact Henv' |]. split; [exact Hlast |].
    rewrite Hstored, Hlast, Hthis. reflexivity.
  - intros Hhit.
    destruct (Miss_or_fresh timeRange w) as [Hmiss | (c & Hc & Hyoung)]; [tauto |].
    exists c, (setEnv (tickClock (env w)) w).
    rewrite (generateAnalyticsData_fresh G timeRange w c Hc Hyoung). auto.
Qed.

(** C3. On a miss, when one of the six generator calls of the recomputation
    throws, the call throws that error (the error of the first generator that
    throws; the later ones are not called), and every field of the module is
    as before the call: the entry of the cache for the time range, present or
    not, and the rest of the cache, are exactly as they were.  More generally,
    any call that throws leaves the module as it was. *)
Theorem facet_failure_leaves_cache_untouched w err :
  Miss timeRange w ->
  firstThrow G timeRange allFacets (envAfterLookup timeRange w) = Some err ->
  (exists w',
     generateAnalyticsData G timeRange w = (Throw err, w')
     /\ this w' = this w
     /\ dataCache (this w') !! cacheKeyOf timeRange
        = dataCache (this w) !! cacheKeyOf timeRange)
  /\ (forall err' w',
        generateAnalyticsData G timeRange w = (Throw err', w') -> this w' = this w).
Proof.
  intros Hmiss Hfirst. split.
  - destruct (generateAnalyticsData_miss G timeRange w Hmiss)
      as (w0 & Heq & Hthis & _ & _ & Henv).
    pose proof (recompute_firstThrow G timeRange w0) as Hrun.
    rewrite Henv, Hfirst in Hrun. destruct Hrun as (w' & Hrun).
    exists w'. rewrite Heq. split; [exact Hrun |].
    apply recompute_throw in Hrun as (Hsame & _).
    rewrite Hsame, Hthis. auto.
  - intros err' w' Hrun. apply generateAnalyticsData_throw in Hrun. tauto.
Qed.

End CacheClaims.

(** The generators of the source never throw. *)
Lemma simulated_total : Total simulated.
Proof.
  intros tr. repeat split; intros e; cbn; unfold ret; eauto.
Qed.

Lemma simulated_never_throws timeRange facets e :
  firstThrow simulated timeRange facets e = None.
Proof. apply firstThrow_total, simulated_total. Qed.

(** The state one call after boot holds an entry one second old at the next
    reading of the clock. *)
Lemma cache_hit_witness :
  exists cached,
    dataCache (this (snd (generateAnalyticsData simulated "month" Demo.fresh)))
      !! cacheKeyOf "month" = Some cached
    /\ exists w2 calls,
         generateAnalyticsData simulated "month"
           (snd (generateAnalyticsData simulated "month" Demo.fresh))
         = (Ok (data cached), w2)
         /\ (forall d1,
               fst (generateAnalyticsData simulated "month" Demo.fresh) = Ok d1 ->
               data cached = d1)
         /\ (forall G',
               generateAnalyticsData G' "month"
                 (snd (generateAnalyticsData simulated "month" Demo.fresh))
               = (Ok (data cached), w2))
         /\ facetCalls w2
            = facetCalls (snd (generateAnalyticsData simulated "month" Demo.fresh))
         /\ this w2 = this (snd (generateAnalyticsData simulated "month" Demo.fresh))
         /\ facetCalls w2 = (facetCalls Demo.fresh ++ calls)%list
         /\ forall f, (callsOf f calls <= 1)%nat.
Proof.
  eexists. split.
  - vm_compute. reflexivity.
  - apply (cache_hit_makes_no_generator_call simulated "month" Demo.fresh
             (fst (generateAnalyticsData simulated "month" Demo.fresh))
             (snd (generateAnalyticsData simulated "month" Demo.fresh))).
    + apply surjective_pairing.
    + vm_compute. reflexivity.
    + vm_compute. reflexivity.
Defined.

(** In [Demo.stale] the entry is exactly [cacheExpiry] old: a miss. *)
Lemma cache_miss_witness :
  Miss "month" Demo.stale
  /\ exists d w',
       generateAnalyticsData simulated "month" Demo.stale = (Ok d, w')
       /\ facetCalls w' = (facetCalls Demo.stale ++ sixCalls "month")%list
       /\ dataCache (this w') !! cacheKeyOf "month"
          = Some {| data := d; timestamp := lastNow (env w') |}
       /\ exists e1,
            freshBundle simulated "month" (envAfterLookup "month" Demo.stale) = (Ok d, e1)
            /\ env w' = tickClock e1
            /\ lastNow (env w') = nextNow e1
            /\ this w'
               = setDataCache
                   (fun dataCache =>
                      <[cacheKeyOf "month" := {| data := d; timestamp := nextNow e1 |}]>
                        dataCache)
                   (this Demo.stale).
Proof.
  assert (Hmiss : Miss "month" Demo.stale).
  { right. eexists. split; [ vm_compute; reflexivity | vm_compute; discriminate ]. }
  assert (Hnone : firstThrow simulated "month" allFacets
                    (envAfterLookup "month" Demo.stale) = None).
  { vm_compute. reflexivity. }
  split; [ exact Hmiss |].
  exact (proj2 (proj1 (cache_miss_recomputes_and_restamps simulated "month" Demo.stale)
                  Hmiss) Hnone).
Defined.

(** With the customer generator failing, a call on the stale entry throws and
    the stale entry stays. *)
Lemma facet_failure_witness :
  exists w',
    generateAnalyticsData Demo.broken "month" Demo.stale
    = (Throw (Error "customer store unavailable"), w')
    /\ this w' = this Demo.stale
    /\ dataCache (this w') !! cacheKeyOf "month"
       = dataCache (this Demo.stale) !! cacheKeyOf "month".
Proof.
  assert (Hmiss : Miss "month" Demo.stale).
  { right. eexists. split; [ vm_compute; reflexivity | vm_compute; discriminate ]. }
  assert (Hfirst : firstThrow Demo.broken "month" allFacets
                     (envAfterLookup "month" Demo.stale)
                   = Some (Error "customer store unavailable")).
  { vm_compute. reflexivity. }
  exact (proj1 (facet_failure_leaves_cache_untouched Demo.broken "month" Demo.stale
                  (Error "customer store unavailable") Hmiss Hfirst)).
Defined.

Example broken_call_throws :
  fst (generateAnalyticsData Demo.broken "month" Demo.stale)
  = Throw (Error "customer store unavailable").
Proof. vm_compute. reflexivity. Qed.

Example stale_entry_timestamp_is_refreshed :
  timestamp <$> (dataCache (this Demo.stale) !! cacheKeyOf "month") = Some 1700000900000
  /\ nextNow (env Demo.stale) = 1700000900000 + cacheExpiry
  /\ timestamp <$> (dataCache (this (snd (generateAnalyticsData simulated "month" Demo.stale)))
                      !! cacheKeyOf "month") = Some 1700001800000.
Proof. vm_compute. repeat split. Qed.

(** The bundle returned on the miss is a new one: the entry of [Demo.stale]
    was generated at the third reading of the clock, the bundle that replaces
    it at the sixth. *)
Example stale_entry_data_is_recomputed :
  generatedAt <$> (data <$> (dataCache (this Demo.stale) !! cacheKeyOf "month"))
  = Some 1700000600000
  /\ match generateAnalyticsData simulated "month" Demo.stale with
     | (Ok d, w) =>
         generatedAt d = 1700001500000
         /\ generatedAt <$> (data <$> (dataCache (this w) !! cacheKeyOf "month"))
            = Some 1700001500000
     | (Throw _, _) => False
     end.
Proof. vm_compute. repeat split. Qed.

(** ** The report store *)

Section SortDescending.

Context {A : Type} (key : A -> Z).

Local Abbreviation compareFn := (fun a b : A => key b - key a).
Local Abbreviation before := (fun a b : A => key b <= key a).

Lemma sortInsert_perm a l : sortInsert compareFn a l ≡ₚ a :: l.
Proof.
  induction l as [|b l IH]; cbn; [reflexivity |].
  destruct (key b - key a <=? 0); [reflexivity |].
  rewrite IH. apply Permutation_swap.
Qed.

Lemma arraySort_perm l : arraySort compareFn l ≡ₚ l.
Proof.
  induction l as [|a l IH]; cbn; [reflexivity |].
  rewrite sortInsert_perm. rewrite IH. reflexivity.
Qed.

Lemma sortInsert_sorted a l :
  StronglySorted before l -> StronglySorted before (sortInsert compareFn a l).
Proof.
  induction 1 as [|b l Hl IH Hb]; cbn.
  - constructor; constructor.
  - destruct (Z.leb_spec (key b - key a) 0) as [Hle | Hgt].
    + constructor; [constructor; assumption |].
      constructor; [lia |].
      eapply Forall_impl; [exact Hb |]. cbn. intros c Hc. lia.
    + constructor; [exact IH |].
      rewrite sortInsert_perm. constructor; [lia | exact Hb].
Qed.

Lemma arraySort_sorted l : StronglySorted before (arraySort compareFn l).
Proof.
  induction l as [|a l IH]; cbn; [constructor | apply sortInsert_sorted, IH].
Qed.

(** Stability: elements with the same key keep their order. *)
Lemma sortInsert_stable t a l :
  filter (fun c => key c = t) (sortInsert compareFn a l)
  = filter (fun c => key c = t) (a :: l).
Proof.
  induction l as [|b l IH]; cbn; [reflexivity |].
  destruct (Z.leb_spec (key b - key a) 0) as [Hle | Hgt]; [reflexivity |].
  rewrite !filter_cons. rewrite IH. rewrite !filter_cons.
  repeat case_decide; try reflexivity. lia.
Qed.

Lemma arraySort_stable t l :
  filter (fun c => key c = t) (arraySort compareFn l) = filter (fun c => key c = t) l.
Proof.
  induction l as [|a l IH]; [reflexivity |].
  change (arraySort compareFn (a :: l)) with (sortInsert compareFn a (arraySort compareFn l)).
  rewrite sortInsert_stable, !filter_cons, IH. reflexivity.
Qed.

End SortDescending.

(** [JSMap.set] on a new key appends, on a key already present replaces in
    place. *)
Lemma JSMap_get_set_eq {V} key (value : V) m :
  JSMap.get key (JSMap.set key value m) = Some value.
Proof.
  induction m as [|[k v] m IH]; cbn.
  - rewrite String.eqb_refl. reflexivity.
  - destruct (String.eqb_spec key k) as [-> | Hne]; cbn.
    + rewrite String.eqb_refl. reflexivity.
    + destruct (String.eqb_spec key k); [contradiction | exact IH].
Qed.

Lemma JSMap_get_set_ne {V} key key' (value : V) m :
  key' <> key -> JSMap.get key' (JSMap.set key value m) = JSMap.get key' m.
Proof.
  intros Hne. induction m as [|[k v] m IH]; cbn.
  - destruct (String.eqb_spec key' key); [contradiction | reflexivity].
  - destruct (String.eqb_spec key k) as [-> | Hk]; cbn.
    + destruct (String.eqb_spec key' k); [contradiction | reflexivity].
    + rewrite IH. reflexivity.
Qed.

Lemma JSMap_values_set_new {V} key (value : V) m :
  JSMap.get key m = None ->
  JSMap.values (JSMap.set key value m) = (JSMap.values m ++ [value])%list.
Proof.
  induction m as [|[k v] m IH]; cbn; [reflexivity |].
  destruct (String.eqb_spec key k); [discriminate |].
  intros Hnone. cbn. f_equal. apply IH, Hnone.
Qed.

Lemma JSMap_keys_set_present {V} key (value : V) m :
  is_Some (JSMap.get key m) -> JSMap.keys (JSMap.set key value m) = JSMap.keys m.
Proof.
  induction m as [|[k v] m IH]; cbn.
  - intros [? [=]].
  - destruct (String.eqb_spec key k); [reflexivity |].
    intros Hsome. cbn. f_equal. apply IH, Hsome.
Qed.

Section Reports.

Variable toString36 : float -> string.
Variable G : Generators.

(** What a [generateReport] that returns has done: the report holds the bundle
    of [generateAnalyticsData] and is stored under its id; when the id is new
    the report is the last of the store. *)
Lemma generateReport_ok name type timeRange generatedBy w report w' :
  generateReport toString36 G name type timeRange generatedBy w = (Ok report, w') ->
  (exists w1, generateAnalyticsData G timeRange w = (Ok (r_data report), w1)
              /\ dataCache (this w') = dataCache (this w1)
              /\ reports (this w') = JSMap.set (r_id report) report (reports (this w))
              /\ dashboards (this w') = dashboards (this w1))
  /\ r_name report = name /\ r_type report = type /\ r_generatedBy report = generatedBy
  /\ JSMap.get (r_id report) (reports (this w')) = Some report
  /\ (JSMap.get (r_id report) (reports (this w)) = None ->
      JSMap.values (reports (this w'))
      = (JSMap.values (reports (this w)) ++ [report])%list).
Proof.
  unfold generateReport, freshId. unfold bind at 1.
  destruct (generateAnalyticsData G timeRange w) as [[d|err] w1] eqn:Hdata;
    [| discriminate ].
  unfold_eff. cbn. intros [= <- <-]. cbn.
  assert (Hreports : reports (this w1) = reports (this w)).
  { destruct (Miss_or_fresh timeRange w) as [Hmiss | (c & Hc & Hyoung)].
    - destruct (generateAnalyticsData_miss G timeRange w Hmiss) as (w0 & Heq & Hthis & _).
      rewrite Heq in Hdata. apply recompute_ok in Hdata as (_ & _ & ->).
      rewrite Hthis. reflexivity.
    - rewrite (generateAnalyticsData_fresh G timeRange w c Hc Hyoung) in Hdata.
      injection Hdata as _ <-. reflexivity. }
  rewrite Hreports. split; [ exists w1; auto |].
  repeat split.
  - apply JSMap_get_set_eq.
  - apply JSMap_values_set_new.
Qed.

(** C4. After any sequence of [generateReport] calls, from any state,
    [getAllReports] returns the stored reports, each once, sorted by
    [generatedAt] descending (most recent first), and the reports with one
    [generatedAt] are in the order the store enumerates them, which is the
    order of insertion. *)
Theorem getAllReports_newest_first requests w0 :
  let w := generateReports toString36 G requests w0 in
  exists listed,
    getAllReports w = (Ok listed, w)
    /\ listed ≡ₚ JSMap.values (reports (this w))
    /\ StronglySorted newestFirst listed
    /\ forall t,
         generatedAtTime t listed = generatedAtTime t (JSMap.values (reports (this w))).
Proof.
  intros w. eexists. split; [reflexivity |]. split; [| split].
  - apply (arraySort_perm r_generatedAt).
  - apply (arraySort_sorted r_generatedAt).
  - intros t. apply (arraySort_stable r_generatedAt).
Qed.

End Reports.

(** ** Exporting a report *)

(** The calendar date of [civilFromDays] is a date. *)
Lemma civilFromDays_range days :
  let '(_, m, d) := civilFromDays days in 1 <= m <= 12 /\ 1 <= d <= 31.
Proof.
  unfold civilFromDays. cbv zeta.
  set (z := days + 719468).
  set (era := z / 146097).
  set (doe := z - era * 146097).
  assert (Hdoe : 0 <= doe <= 146096).
  { subst doe era. Z.to_euclidean_division_equations. lia. }
  clearbody doe. clear z era.
  set (yoe := (doe - doe / 1460 + doe / 36524 - doe / 146096) / 365).
  set (doy := doe - (365 * yoe + yoe / 4 - yoe / 100)).
  assert (Hdoy : 0 <= doy <= 365).
  { subst doy yoe. Z.to_euclidean_division_equations. lia. }
  clearbody doy.
  set (mp := (5 * doy + 2) / 153).
  assert (Hmp : 0 <= mp <= 11).
  { subst mp. Z.to_euclidean_division_equations. lia. }
  assert (Hd : 1 <= doy - (153 * mp + 2) / 5 + 1 <= 31).
  { subst mp. Z.to_euclidean_division_equations. lia. }
  clearbody mp.
  destruct (mp <? 10) eqn:E; [apply Z.ltb_lt in E | apply Z.ltb_ge in E];
    (split; [lia | exact Hd]).
Qed.

(** From 0000-01-01T00:00:00.000Z to 9999-12-31T23:59:59.999Z the year has
    four digits. *)
Lemma civilFromDays_year_range t :
  -62167219200000 <= t <= 253402300799999 ->
  let '(y, _, _) := civilFromDays (t / msPerDay) in 0 <= y <= 9999.
Proof.
  intros Ht. unfold civilFromDays, msPerDay. cbv zeta.
  assert (Hdays : -719528 <= t / 86400000 <= 2932896).
  { Z.to_euclidean_division_equations. lia. }
  generalize dependent (t / 86400000). clear t Ht. intros days Hdays.
  set (z := days + 719468).
  assert (Hz : -60 <= z <= 3652364) by (subst z; lia).
  clearbody z. clear days Hdays.
  set (era := z / 146097).
  set (doe := z - era * 146097).
  assert (Hera : -1 <= era <= 24 /\ 0 <= doe <= 146096
                 /\ (era = -1 -> 146037 <= doe) /\ (era = 24 -> doe <= 146036)).
  { subst doe era. Z.to_euclidean_division_equations. lia. }
  clearbody doe. clearbody era. clear z Hz.
  set (yoe := (doe - doe / 1460 + doe / 36524 - doe / 146096) / 365).
  set (doy := doe - (365 * yoe + yoe / 4 - yoe / 100)).
  set (mp := (5 * doy + 2) / 153).
  assert (H : 0 <= yoe <= 399 /\ 0 <= mp <= 11
              /\ (146037 <= doe -> yoe = 399 /\ 10 <= mp)
              /\ (doe <= 146036 -> yoe = 399 -> mp < 10)).
  { subst mp doy yoe. Z.to_euclidean_division_equations. lia. }
  clearbody mp. clearbody yoe. clear doy.
  destruct (mp <? 10) eqn:E; [apply Z.ltb_lt in E | apply Z.ltb_ge in E].
  - destruct (mp + 3 <=? 2) eqn:E2; [apply Z.leb_le in E2 | apply Z.leb_gt in E2]; lia.
  - destruct (mp - 9 <=? 2) eqn:E2; [apply Z.leb_le in E2 | apply Z.leb_gt in E2]; lia.
Qed.

Lemma length_append (s1 s2 : string) :
  String.length (s1 +:+ s2) = (String.length s1 + String.length s2)%nat.
Proof.
  induction s1 as [|c s1 IH]; [reflexivity |].
  change (String c s1 +:+ s2) with (String c (s1 +:+ s2)). cbn. f_equal. exact IH.
Qed.

Lemma length_padDigits k n : String.length (padDigits k n) = k.
Proof.
  revert n. induction k as [|k IH]; intros n; cbn; [reflexivity |].
  rewrite length_append, IH. cbn. lia.
Qed.

(** The date of [toISOString] is YYYY-MM-DD for the years of four digits. *)
Lemma isoDate_shape t :
  -62167219200000 <= t <= 253402300799999 ->
  exists y m d,
    civilFromDays (t / msPerDay) = (y, m, d)
    /\ 0 <= y <= 9999 /\ 1 <= m <= 12 /\ 1 <= d <= 31
    /\ isoDate t = padDigits 4 y +:+ "-" +:+ padDigits 2 m +:+ "-" +:+ padDigits 2 d
    /\ String.length (isoDate t) = 10%nat.
Proof.
  intros Ht. pose proof (civilFromDays_year_range t Ht) as Hy.
  pose proof (civilFromDays_range (t / msPerDay)) as Hmd.
  unfold isoDate. destruct (civilFromDays (t / msPerDay)) as [[y m] d].
  exists y, m, d. split; [reflexivity |]. split; [exact Hy |].
  split; [tauto |]. split; [tauto |].
  unfold isoYear. destruct (Z.leb_spec 0 y); [| lia].
  destruct (Z.leb_spec y 9999); [| lia]. cbn [andb].
  split; [reflexivity |].
  rewrite !length_append, !length_padDigits. reflexivity.
Qed.

(** C5. For every id and format: [exportReport] throws the error
    [Report <id> not found], and returns no file name, when no report with
    that id is stored; otherwise it returns exactly
    [<name>_<date>.<format>], where the date is the UTC date of the report's
    [generatedAt] as [toISOString] renders it: YYYY-MM-DD, ten characters, for
    every time from year 0000 to year 9999.  The store is unchanged in both
    cases. *)
Theorem exportReport_filename_or_not_found reportId format w :
  match JSMap.get reportId (reports (this w)) with
  | None =>
      exportReport reportId format w
      = (Throw (Error ("Report " +:+ reportId +:+ " not found")), w)
  | Some report =>
      exists w',
        exportReport reportId format w
        = (Ok (r_name report +:+ "_" +:+ isoDate (r_generatedAt report)
               +:+ "." +:+ formatString format), w')
        /\ this w' = this w
        /\ (-62167219200000 <= r_generatedAt report <= 253402300799999 ->
            exists y m d,
              civilFromDays (r_generatedAt report / msPerDay) = (y, m, d)
              /\ 0 <= y <= 9999 /\ 1 <= m <= 12 /\ 1 <= d <= 31
              /\ isoDate (r_generatedAt report)
                 = padDigits 4 y +:+ "-" +:+ padDigits 2 m +:+ "-" +:+ padDigits 2 d
              /\ String.length (isoDate (r_generatedAt report)) = 10%nat)
  end.
Proof.
  destruct (JSMap.get reportId (reports (this w))) as [report|] eqn:Hget;
    unfold exportReport; unfold_eff; rewrite Hget; [| reflexivity].
  eexists. split; [reflexivity |]. split; [reflexivity |]. apply isoDate_shape.
Qed.

(** ** Updating a dashboard *)

(** C6. For a stored dashboard, [updateDashboard id { name: X }] stores under
    the same id, at the same place of the store, a record that has the name
    [X], the time of the call as [updatedAt], and every other field of the
    record stored before; the other dashboards, the reports and the cache are
    as before.  For an id that is not stored the call returns without an error
    and the whole state is as before, whatever the updates. *)
Theorem updateDashboard_name_only id X updates w :
  match JSMap.get id (dashboards (this w)) with
  | Some dashboard =>
      exists w' updated,
        updateDashboard id (nameOnly X) w = (Ok tt, w')
        /\ JSMap.get id (dashboards (this w')) = Some updated
        /\ d_name updated = X
        /\ d_updatedAt updated = nextNow (env w)
        /\ d_id updated = d_id dashboard
        /\ d_description updated = d_description dashboard
        /\ d_widgets updated = d_widgets dashboard
        /\ d_layout updated = d_layout dashboard
        /\ d_isPublic updated = d_isPublic dashboard
        /\ d_createdBy updated = d_createdBy dashboard
        /\ d_createdAt updated = d_createdAt dashboard
        /\ (forall id', id' <> id ->
              JSMap.get id' (dashboards (this w')) = JSMap.get id' (dashboards (this w)))
        /\ JSMap.keys (dashboards (this w')) = JSMap.keys (dashboards (this w))
        /\ reports (this w') = reports (this w)
        /\ dataCache (this w') = dataCache (this w)
  | None => updateDashboard id updates w = (Ok tt, w)
  end.
Proof.
  destruct (JSMap.get id (dashboards (this w))) as [dashboard|] eqn:Hget;
    unfold updateDashboard; unfold_eff; rewrite Hget; [| reflexivity].
  cbn. eexists _, _. split; [reflexivity |]. cbn.
  split; [apply JSMap_get_set_eq |]. cbn.
  repeat (split; [reflexivity |]).
  split; [| split; [| split; reflexivity]].
  - intros id' Hne. apply JSMap_get_set_ne. exact Hne.
  - apply JSMap_keys_set_present. rewrite Hget. eauto.
Qed.

(** ** Alerts *)

(** C7, as the code has it.  [checkAlerts] takes no inventory or equipment
    snapshot and never throws: it returns the low-stock warning exactly when
    its first draw of [Math.random()] is above 0.7, then the equipment error
    exactly when its second draw is above 0.8, each stamped with a reading of
    the clock; the list is empty exactly when neither draw is above its
    threshold.  The module is left as it was. *)
Theorem checkAlerts_follows_the_draws w :
  let r1 := random (env w) (randomDraws (env w)) in
  let r2 := random (env w) (S (randomDraws (env w))) in
  let t1 := clock (env w) (clockReads (env w)) in
  let t2 := clock (env w)
              (if (0.7 <? r1)%float then S (clockReads (env w)) else clockReads (env w)) in
  exists alerts w',
    checkAlerts w = (Ok alerts, w')
    /\ this w' = this w
    /\ alerts = ((if (0.7 <? r1)%float then [lowStockAlert t1] else [])
                 ++ (if (0.8 <? r2)%float then [equipmentAlert t2] else []))%list
    /\ (alerts = [] <-> (0.7 <? r1)%float = false /\ (0.8 <? r2)%float = false).
Proof.
  cbv zeta. unfold checkAlerts. unfold_eff. cbn. unfold nextRandom, nextNow. cbn.
  destruct (0.7 <? random (env w) (randomDraws (env w)))%float; cbn;
    destruct (0.8 <? random (env w) (S (randomDraws (env w))))%float; cbn;
    eexists _, _; (split; [reflexivity |]); (split; [reflexivity |]).
  - split; [reflexivity |]. split; [discriminate | intros [H _]; discriminate].
  - split; [reflexivity |]. split; [discriminate | intros [H _]; discriminate].
  - split; [reflexivity |]. split; [discriminate | intros [_ H]; discriminate].
  - split; [reflexivity |]. split; auto.
Qed.

(** C7, as stated, fails.  Just after boot the module holds no report and no
    entry of the cache, and no inventory or equipment at all; with draws of 0.9
    [checkAlerts] returns both alerts. *)
Lemma checkAlerts_alerts_on_empty_state :
  reports (this (Demo.boot (Demo.steadyEnv 1000 0.9))) = []
  /\ dataCache (this (Demo.boot (Demo.steadyEnv 1000 0.9))) = ∅
  /\ fst (checkAlerts (Demo.boot (Demo.steadyEnv 1000 0.9)))
     = Ok [lowStockAlert 1700000002000; equipmentAlert 1700000003000]
  /\ fst (checkAlerts (Demo.boot (Demo.steadyEnv 1000 0.9))) <> Ok [].
Proof.
  split; [reflexivity |]. split; [reflexivity |].
  split; [vm_compute; reflexivity | vm_compute; discriminate].
Qed.

Example checkAlerts_at_the_thresholds :
  fst (checkAlerts (Demo.boot (Demo.steadyEnv 1000 0.7))) = Ok []
  /\ fst (checkAlerts (Demo.boot (Demo.steadyEnv 1000 0.75)))
     = Ok [lowStockAlert 1700000002000]
  /\ fst (checkAlerts (Demo.boot (Demo.steadyEnv 1000 0.8)))
     = Ok [lowStockAlert 1700000002000].
Proof. vm_compute. repeat split. Qed.

(** ** Time ranges outside the declared five *)

Section AnyTimeRange.

Variable toString36 : float -> string.
Variable G : Generators.

(** With generators that never throw, neither does [generateAnalyticsData]. *)
Lemma generateAnalyticsData_total timeRange w :
  Total G ->
  exists d w', generateAnalyticsData G timeRange w = (Ok d, w').
Proof.
  intros HG. destruct (Miss_or_fresh timeRange w) as [Hmiss | (c & Hc & Hyoung)].
  - destruct (generateAnalyticsData_miss G timeRange w Hmiss) as (w0 & -> & _).
    apply recompute_total, HG.
  - rewrite (generateAnalyticsData_fresh G timeRange w c Hc Hyoung). eauto.
Qed.

Lemma generateReport_total name type timeRange generatedBy w :
  Total G ->
  exists report w',
    generateReport toString36 G name type timeRange generatedBy w = (Ok report, w').
Proof.
  intros HG. unfold generateReport. unfold bind at 1.
  destruct (generateAnalyticsData_total timeRange w HG) as (d & w1 & ->).
  unfold freshId. unfold_eff. cbn. eauto.
Qed.

(** C8, as the code has it.  No method checks the time range: for a string
    that is none of day, week, month, quarter and year, and generators that do
    not throw, [generateAnalyticsData] returns a bundle and the cache holds it
    under [analytics_<string>]; [generateReport], which passes its [timeRange]
    on unchecked, returns a report of that bundle and stores it. *)
Theorem unknown_time_range_is_computed_and_cached timeRange w :
  Total G ->
  isTimeRange timeRange = false ->
  (exists d w',
     generateAnalyticsData G timeRange w = (Ok d, w')
     /\ exists cached,
          dataCache (this w') !! cacheKeyOf timeRange = Some cached
          /\ data cached = d)
  /\ (forall name type generatedBy,
        exists report w',
          generateReport toString36 G name type timeRange generatedBy w = (Ok report, w')
          /\ JSMap.get (r_id report) (reports (this w')) = Some report
          /\ exists cached,
               dataCache (this w') !! cacheKeyOf timeRange = Some cached
               /\ data cached = r_data report).
Proof.
  intros HG _. split.
  - destruct (generateAnalyticsData_total timeRange w HG) as (d & w' & Hrun).
    exists d, w'. split; [exact Hrun |].
    apply generateAnalyticsData_ok_cached in Hrun. exact Hrun.
  - intros name type generatedBy.
    destruct (generateReport_total name type timeRange generatedBy w HG)
      as (report & w' & Hrun).
    exists report, w'. split; [exact Hrun |].
    apply generateReport_ok in Hrun as ((w1 & Hdata & Hcache & _) & _ & _ & _ & Hget & _).
    split; [exact Hget |]. rewrite Hcache.
    apply generateAnalyticsData_ok_cached in Hdata. exact Hdata.
Qed.

End AnyTimeRange.

(** C8, as stated, fails: a range that is not one of the five is not
    rejected; the bundle is computed and cached, by either method. *)
Lemma unknown_time_range_is_not_rejected :
  isTimeRange "decade" = false
  /\ match generateAnalyticsData simulated "decade" Demo.fresh with
     | (Ok d, w') =>
         data <$> (dataCache (this w') !! "analytics_decade") = Some d
     | (Throw _, _) => False
     end
  /\ match generateReport Demo.toString36 simulated "Ten years" custom "decade" "alice"
             Demo.fresh with
     | (Ok report, w') =>
         data <$> (dataCache (this w') !! "analytics_decade") = Some (r_data report)
         /\ JSMap.get (r_id report) (reports (this w')) = Some report
     | (Throw _, _) => False
     end.
Proof. vm_compute. repeat split. Qed.

Lemma unknown_time_range_witness :
  (exists d w',
     generateAnalyticsData simulated "decade" Demo.fresh = (Ok d, w')
     /\ exists cached,
          dataCache (this w') !! cacheKeyOf "decade" = Some cached
          /\ data cached = d)
  /\ (forall name type generatedBy,
        exists report w',
          generateReport Demo.toString36 simulated name type "decade" generatedBy
            Demo.fresh = (Ok report, w')
          /\ JSMap.get (r_id report) (reports (this w')) = Some report
          /\ exists cached,
               dataCache (this w') !! cacheKeyOf "decade" = Some cached
               /\ data cached = r_data report).
Proof.
  apply (unknown_time_range_is_computed_and_cached Demo.toString36 simulated
           "decade" Demo.fresh simulated_total).
  reflexivity.
Defined.

(** ** The broadcast loop *)

Section BroadcastProperties.

Context {Io : Type}.
Variable ioEmit : string -> RealTimeMetrics -> Eff Io unit.
Variable realTimeMetrics : Eff World RealTimeMetrics.

Local Abbreviation tick := (broadcastTick ioEmit realTimeMetrics).

(** A tick returns normally whatever its body does: the state is the one the
    body left, with the error written to the console when the body threw. *)
Lemma broadcastTick_catches srv :
  exists srv',
    tick srv = (Ok tt, srv')
    /\ match broadcastBody ioEmit realTimeMetrics srv with
       | (Ok _, srv1) => srv' = srv1
       | (Throw e, srv1) =>
           io srv' = io srv1
           /\ this (analyticsModule srv') = this (analyticsModule srv1)
           /\ console (analyticsModule srv')
              = (console (analyticsModule srv1)
                 ++ [ConsoleError "Error broadcasting real-time metrics:" e])%list
       end.
Proof.
  unfold tick, broadcastTick, tryCatch.
  destruct (broadcastBody ioEmit realTimeMetrics srv) as [[[]|e] srv1].
  - eauto.
  - unfold inModule, consoleError, zoom, modify. cbn. eauto.
Qed.

Lemma periods_active n : forall k srv,
  fst (periods n tick (Active k, srv)) = Active (k + n).
Proof.
  induction n as [|n IH]; intros k srv; cbn.
  - f_equal. lia.
  - destruct (broadcastTick_catches srv) as (srv' & -> & _).
    rewrite IH. f_equal. lia.
Qed.

(** C9. Every tick of the broadcast returns normally: a failure to compute
    the snapshot or to emit it is caught in the tick and written to the
    console, and no error leaves the callback.  So the timer that
    [setupWebSockets] starts is active after any number of periods and has
    fired at each of them, whichever ticks failed. *)
Theorem broadcast_tick_failure_never_stops_the_timer :
  (forall srv,
     exists srv',
       broadcastTick ioEmit realTimeMetrics srv = (Ok tt, srv')
       /\ match broadcastBody ioEmit realTimeMetrics srv with
          | (Ok _, srv1) => srv' = srv1
          | (Throw e, srv1) =>
              io srv' = io srv1
              /\ this (analyticsModule srv') = this (analyticsModule srv1)
              /\ console (analyticsModule srv')
                 = (console (analyticsModule srv1)
                    ++ [ConsoleError "Error broadcasting real-time metrics:" e])%list
          end)
  /\ forall n srv,
       fst (periods n (broadcastTick ioEmit realTimeMetrics) (setupWebSockets srv))
       = Active n.
Proof.
  split; [exact broadcastTick_catches |].
  intros n srv. unfold setupWebSockets. apply (periods_active n 0).
Qed.

End BroadcastProperties.

(** With a transport that refuses every message, three periods give three
    ticks, three lines on the console, and an active timer; with one that
    works, three messages. *)
Example refused_broadcasts_are_logged :
  let srv := mkServer Demo.fresh ([] : list string) in
  let after := periods 3 (broadcastTick Demo.refusingEmit getRealTimeMetrics)
                 (setupWebSockets srv) in
  fst after = Active 3
  /\ console (analyticsModule (snd after))
     = [ConsoleError "Error broadcasting real-time metrics:" (Error "transport closed");
        ConsoleError "Error broadcasting real-time metrics:" (Error "transport closed");
        ConsoleError "Error broadcasting real-time metrics:" (Error "transport closed")]
  /\ io (snd after) = [].
Proof. vm_compute. repeat split. Qed.

Example accepted_broadcasts_are_sent :
  let srv := mkServer Demo.fresh ([] : list string) in
  let after := periods 3 (broadcastTick Demo.recordingEmit getRealTimeMetrics)
                 (setupWebSockets srv) in
  fst after = Active 3
  /\ console (analyticsModule (snd after)) = []
  /\ io (snd after) = ["real-time-metrics"; "real-time-metrics"; "real-time-metrics"].
Proof. vm_compute. repeat split. Qed.

(** Without the [try], the same transport stops the timer at the first
    period. *)
Example unguarded_broadcast_stops :
  fst (periods 3 (broadcastBody Demo.refusingEmit getRealTimeMetrics)
         (setupWebSockets (mkServer Demo.fresh ([] : list string))))
  = Dead (Error "transport closed").
Proof. vm_compute. reflexivity. Qed.

(** ** The dashboards of a new module *)

(** C10. A new [AnalyticsModule] holds one dashboard: [getDashboard] of
    ['dashboard-001'] returns it, its name is [Operations Overview], it has
    three widgets and is public, and [getAllDashboards] returns the list of
    that one dashboard; no report and no entry of the cache exist yet. *)
Theorem new_module_has_the_sample_dashboard e log calls :
  exists m e' d,
    newAnalyticsModule e = (Ok m, e')
    /\ let w := {| this := m; env := e'; console := log; facetCalls := calls |} in
       getDashboard "dashboard-001" w = (Ok (Some d), w)
       /\ getAllDashboards w = (Ok [d], w)
       /\ d = sampleDashboard (clock e (clockReads e)) (clock e (S (clockReads e)))
       /\ d_id d = "dashboard-001"
       /\ d_name d = "Operations Overview"
       /\ length (d_widgets d) = 3%nat
       /\ d_isPublic d = true
       /\ reports m = []
       /\ dataCache m = ∅.
Proof.
  eexists _, _, _. split; [reflexivity |]. cbn. repeat split.
Qed.

(** ** The examples of the specification *)

(** Reports generated at times 1, 3 and 2 are listed 3, 2, 1. *)
Example reports_1_3_2_are_listed_3_2_1 :
  map r_generatedAt (JSMap.values (reports (this (Demo.threeReports 1 3 2)))) = [1; 3; 2]
  /\ match getAllReports (Demo.threeReports 1 3 2) with
     | (Ok listed, _) =>
         map r_generatedAt listed = [3; 2; 1]
         /\ map r_name listed = ["second"; "third"; "first"]
     | (Throw _, _) => False
     end.
Proof. vm_compute. repeat split. Qed.

(** Reports generated at the same time stay in the order of insertion. *)
Example reports_with_equal_times_keep_insertion_order :
  match getAllReports (Demo.threeReports 5 5 7) with
  | (Ok listed, _) =>
      map r_generatedAt listed = [7; 5; 5]
      /\ map r_name listed = ["third"; "first"; "second"]
      /\ map r_id listed
         = ["report-30-i"; "report-10-i"; "report-20-i"]
  | (Throw _, _) => False
  end.
Proof. vm_compute. repeat split. Qed.

(** Generate, get and export a report; export a missing one. *)
Example monthly_ops_end_to_end :
  match generateReport Demo.toString36 simulated "Monthly Ops" monthly "month" "alice"
          Demo.fresh with
  | (Ok report, w) =>
      fst (getReport (r_id report) w) = Ok (Some report)
      /\ r_generatedAt report = 1700000005000
      /\ fst (exportReport (r_id report) json w) = Ok "Monthly Ops_2023-11-14.json"
      /\ fst (exportReport "missing-id" json w)
         = Throw (Error "Report missing-id not found")
  | (Throw _, _) => False
  end.
Proof. vm_compute. repeat split. Qed.

(** In [Demo.reported] the report [Monthly Ops], generated on 2023-11-14, is
    exported under that date; [missing-id] is not found. *)
Lemma exportReport_witness :
  exportReport "missing-id" json Demo.reported
  = (Throw (Error "Report missing-id not found"), Demo.reported)
  /\ exists w',
       exportReport "report-1700000004000-i" json Demo.reported
       = (Ok "Monthly Ops_2023-11-14.json", w')
       /\ this w' = this Demo.reported
       /\ String.length (isoDate 1700000005000) = 10%nat.
Proof.
  split.
  - exact (exportReport_filename_or_not_found "missing-id" json Demo.reported).
  - pose proof (exportReport_filename_or_not_found "report-1700000004000-i" json
                  Demo.reported) as H.
    destruct (JSMap.get "report-1700000004000-i" (reports (this Demo.reported)))
      as [report|] eqn:Hget; [| vm_compute in Hget; discriminate ].
    vm_compute in Hget. injection Hget as <-.
    destruct H as (w' & Hrun & Hthis & Hdate). exists w'.
    split; [exact Hrun |]. split; [exact Hthis |].
    destruct Hdate as (y & m & d & _ & _ & _ & _ & _ & Hlen); [cbn; lia | exact Hlen].
Defined.

Example isoDate_samples :
  map isoDate [0; 1734220800000; 1709164800000; 1709251199999; 1709251200000; -1]
  = ["1970-01-01"; "2024-12-15"; "2024-02-29"; "2024-02-29"; "2024-03-01"; "1969-12-31"]
  /\ map isoDate [-62167219200000; 253402300799999; 253402300800000; -62167219200001]
     = ["0000-01-01"; "9999-12-31"; "+010000-01-01"; "-000001-12-31"].
Proof. vm_compute. split; reflexivity. Qed.

(** Renaming the sample dashboard; updating a dashboard that does not
    exist. *)
Example rename_sample_dashboard :
  match updateDashboard "dashboard-001" (nameOnly "X") Demo.fresh with
  | (Ok _, w) =>
      fst (getDashboard "dashboard-001" w)
      = Ok (Some {|
          d_id := "dashboard-001";
          d_name := "X";
          d_description := d_description (sampleDashboard 0 0);
          d_widgets := d_widgets (sampleDashboard 0 0);
          d_layout := d_layout (sampleDashboard 0 0);
          d_isPublic := true;
          d_createdBy := "system";
          d_createdAt := 1700000000000;
          d_updatedAt := 1700000002000 |})
      /\ length (JSMap.values (dashboards (this w))) = 1%nat
  | (Throw _, _) => False
  end.
Proof. vm_compute. repeat split. Qed.

Lemma updateDashboard_witness :
  updateDashboard "dashboard-002" (nameOnly "X") Demo.fresh = (Ok tt, Demo.fresh)
  /\ exists w' updated,
       updateDashboard "dashboard-001" (nameOnly "X") Demo.fresh = (Ok tt, w')
       /\ JSMap.get "dashboard-001" (dashboards (this w')) = Some updated
       /\ d_name updated = "X"
       /\ d_updatedAt updated = 1700000002000
       /\ d_widgets updated = d_widgets (sampleDashboard 0 0)
       /\ d_createdAt updated = 1700000000000.
Proof.
  split.
  - exact (updateDashboard_name_only "dashboard-002" "X" (nameOnly "X") Demo.fresh).
  - destruct (updateDashboard_name_only "dashboard-001" "X" (nameOnly "X") Demo.fresh)
      as (w' & updated & Hrun & Hget & Hname & Hupd & _ & _ & Hwidgets & _ & _ & _
          & Hcreated & _).
    exists w', updated. auto 10.
Defined.

Example fresh_module_dashboards :
  fst (getAllDashboards Demo.fresh) = Ok [sampleDashboard 1700000000000 1700000001000]
  /\ fst (getDashboard "dashboard-001" Demo.fresh)
     = Ok (Some (sampleDashboard 1700000000000 1700000001000))
  /\ fst (getDashboard "dashboard-002" Demo.fresh) = Ok None.
Proof. vm_compute. repeat split. Qed.

(** * Further properties of the analytics module *)

Lemma cacheKeyOf_inj a b : cacheKeyOf a = cacheKeyOf b -> a = b.
Proof.
  unfold cacheKeyOf. cbv beta iota delta [String.append] fix. intros [= H]. exact H.
Qed.

(** What any call of [generateAnalyticsData] leaves alone. *)
Lemma generateAnalyticsData_frame G timeRange w r w' :
  generateAnalyticsData G timeRange w = (r, w') ->
  reports (this w') = reports (this w)
  /\ dashboards (this w') = dashboards (this w)
  /\ console w' = console w
  /\ (forall key, key <> cacheKeyOf timeRange ->
        dataCache (this w') !! key = dataCache (this w) !! key)
  /\ (forall key, is_Some (dataCache (this w) !! key) ->
        is_Some (dataCache (this w') !! key)).
Proof.
  intros Hrun. destruct (Miss_or_fresh timeRange w) as [Hmiss | (c & Hc & Hyoung)].
  - destruct (generateAnalyticsData_miss G timeRange w Hmiss)
      as (w0 & Heq & Hthis & Hcon & _).
    rewrite Heq in Hrun. destruct r as [d|err].
    + apply recompute_ok in Hrun as (_ & Hcon' & ->). rewrite Hthis, Hcon', Hcon. cbn.
      repeat split.
      * intros key Hne. apply lookup_insert_ne. congruence.
      * intros key Hsome. destruct (decide (cacheKeyOf timeRange = key)) as [<- | Hne].
        -- rewrite lookup_insert_eq. eauto.
        -- rewrite lookup_insert_ne by assumption. exact Hsome.
    + apply recompute_throw in Hrun as (-> & -> & _). rewrite Hthis, Hcon. auto.
  - rewrite (generateAnalyticsData_fresh G timeRange w c Hc Hyoung) in Hrun.
    injection Hrun as <- <-. cbn. auto.
Qed.

(** [s.substr(start, length)] has [length] characters at most, and fewer when
    [s] ends before: the last part of an id has nine characters at most. *)
Lemma length_substring_le (n m : nat) (s : string) :
  (String.length (substring n m s) <= m)%nat.
Proof.
  revert n m. induction s as [|c s IH]; intros [|n] [|m]; cbn; try lia.
  - specialize (IH 0%nat m). lia.
  - apply (IH n 0%nat).
  - apply (IH n (S m)).
Qed.

Section ReportLifecycle.

Variable toString36 : float -> string.
Variable G : Generators.

(** X1. When the data call of [generateReport] returns a bundle, the report
    holds that bundle and the arguments of the call, has no parameters, the id
    [report-<Date.now()>-<suffix>] and the next reading of the clock as
    [generatedAt].  The suffix is [substr(2, 9)] of the rendering of the random
    draw in base 36: nine characters at most, and fewer when the rendering is
    short ([i] for the draw [0.5], as in [Demo]).  [getReport] of the id
    returns the report, the reports under other ids, the dashboards and the
    cache the data call left are untouched, and one line is written to the
    console. *)
Theorem generateReport_stores_the_report name type timeRange generatedBy w d w1 :
  generateAnalyticsData G timeRange w = (Ok d, w1) ->
  exists report w',
    generateReport toString36 G name type timeRange generatedBy w = (Ok report, w')
    /\ r_data report = d
    /\ r_name report = name /\ r_type report = type
    /\ r_generatedBy report = generatedBy /\ r_parameters report = None
    /\ r_id report
       = "report-" +:+ pretty (nextNow (env w1)) +:+ "-"
         +:+ substring 2 9 (toString36 (nextRandom (env w1)))
    /\ (String.length (substring 2 9 (toString36 (nextRandom (env w1)))) <= 9)%nat
    /\ r_generatedAt report = clock (env w1) (S (clockReads (env w1)))
    /\ getReport (r_id report) w' = (Ok (Some report), w')
    /\ (forall id, id <> r_id report ->
          JSMap.get id (reports (this w')) = JSMap.get id (reports (this w)))
    /\ dashboards (this w') = dashboards (this w)
    /\ dataCache (this w') = dataCache (this w1)
    /\ console w' = (console w ++ [ConsoleLog ("📊 Generated report: " +:+ name)])%list.
Proof.
  intros Hdata.
  destruct (generateAnalyticsData_frame G timeRange w _ _ Hdata)
    as (Hreports & Hdash & Hcon & _).
  unfold generateReport, freshId. unfold bind at 1. rewrite Hdata.
  unfold_eff. cbn. eexists _, _. split; [reflexivity |]. cbn.
  rewrite Hreports, Hdash, Hcon.
  repeat (split; [reflexivity |]).
  split; [apply length_substring_le |].
  repeat (split; [reflexivity |]).
  split; [unfold getReport, gets; cbn; rewrite JSMap_get_set_eq; reflexivity |].
  split; [| repeat split].
  intros id Hne. apply JSMap_get_set_ne. exact Hne.
Qed.

(** X2. When the data call of [generateReport] throws, [generateReport]
    throws the same error and the state is the one the data call left: no
    report is stored, no id is drawn, nothing is written to the console, and
    every field of the module is as before. *)
Theorem generateReport_propagates_failure name type timeRange generatedBy w err w1 :
  generateAnalyticsData G timeRange w = (Throw err, w1) ->
  generateReport toString36 G name type timeRange generatedBy w = (Throw err, w1)
  /\ this w1 = this w
  /\ console w1 = console w.
Proof.
  intros Hdata. unfold generateReport. unfold bind at 1. rewrite Hdata.
  split; [reflexivity |].
  apply generateAnalyticsData_throw in Hdata. tauto.
Qed.

(** X3. A report generated while the entry of the cache for its time range
    is younger than [cacheExpiry] carries the same bundle as the report
    generated before it for that range, and its generation calls no
    generator. *)
Theorem reports_within_expiry_share_the_bundle
    name1 type1 by1 name2 type2 by2 timeRange w0 r1 w1 cached :
  generateReport toString36 G name1 type1 timeRange by1 w0 = (Ok r1, w1) ->
  dataCache (this w1) !! cacheKeyOf timeRange = Some cached ->
  nextNow (env w1) - timestamp cached < cacheExpiry ->
  exists r2 w2,
    generateReport toString36 G name2 type2 timeRange by2 w1 = (Ok r2, w2)
    /\ r_data r2 = r_data r1
    /\ facetCalls w2 = facetCalls w1.
Proof.
  intros Hfirst Hsome Hyoung.
  apply generateReport_ok in Hfirst as ((w' & Hdata & Hcache & _) & _).
  apply generateAnalyticsData_ok_cached in Hdata as (c & Hc & Hd).
  rewrite <- Hcache, Hsome in Hc. injection Hc as <-.
  unfold generateReport, freshId. unfold bind at 1.
  rewrite (generateAnalyticsData_fresh G timeRange w1 cached Hsome Hyoung).
  unfold_eff. cbn. eexists _, _. split; [reflexivity |]. cbn. auto.
Qed.

End ReportLifecycle.

(** ** Dashboards *)

Lemma JSMap_keys_set {V} key (value : V) m :
  JSMap.keys m `prefix_of` JSMap.keys (JSMap.set key value m).
Proof.
  induction m as [|[k v] m IH]; cbn.
  - apply prefix_nil.
  - destruct (String.eqb_spec key k); cbn; [reflexivity |].
    apply prefix_cons, IH.
Qed.

Lemma JSMap_values_set_length {V} key (value : V) m :
  is_Some (JSMap.get key m) ->
  length (JSMap.values (JSMap.set key value m)) = length (JSMap.values m).
Proof.
  intros Hsome. unfold JSMap.values. rewrite !length_map.
  rewrite <- (length_map fst (JSMap.set key value m)), <- (length_map fst m).
  change (length (JSMap.keys (JSMap.set key value m)) = length (JSMap.keys m)).
  rewrite JSMap_keys_set_present by assumption. reflexivity.
Qed.

(** X4. [createDashboard] always returns: the dashboard has the fields of
    the argument, the id [dashboard-<Date.now()>-<suffix>], the suffix being
    [substr(2, 9)] of the rendering of the random draw in base 36 (nine
    characters at most, fewer when the rendering is short), and two
    successive readings of the clock as [createdAt] and [updatedAt] (not one
    reading for both); [getDashboard] of its id returns it.  Dashboards under
    other ids are untouched; a new id is added last, an id already there has
    its dashboard replaced in place. *)
Theorem createDashboard_stores_the_dashboard toString36 input w :
  exists created w',
    createDashboard toString36 input w = (Ok created, w')
    /\ d_id created
       = "dashboard-" +:+ pretty (nextNow (env w)) +:+ "-"
         +:+ substring 2 9 (toString36 (nextRandom (env w)))
    /\ (String.length (substring 2 9 (toString36 (nextRandom (env w)))) <= 9)%nat
    /\ d_name created = i_name input
    /\ d_description created = i_description input
    /\ d_widgets created = i_widgets input
    /\ d_layout created = i_layout input
    /\ d_isPublic created = i_isPublic input
    /\ d_createdBy created = i_createdBy input
    /\ d_createdAt created = clock (env w) (S (clockReads (env w)))
    /\ d_updatedAt created = clock (env w) (S (S (clockReads (env w))))
    /\ getDashboard (d_id created) w' = (Ok (Some created), w')
    /\ (forall id, id <> d_id created ->
          JSMap.get id (dashboards (this w')) = JSMap.get id (dashboards (this w)))
    /\ (JSMap.get (d_id created) (dashboards (this w)) = None ->
          JSMap.values (dashboards (this w'))
          = (JSMap.values (dashboards (this w)) ++ [created])%list)
    /\ (is_Some (JSMap.get (d_id created) (dashboards (this w))) ->
          JSMap.keys (dashboards (this w')) = JSMap.keys (dashboards (this w)))
    /\ reports (this w') = reports (this w)
    /\ dataCache (this w') = dataCache (this w).
Proof.
  unfold createDashboard, freshId. unfold_eff. cbn.
  eexists _, _. split; [reflexivity |]. cbn.
  split; [reflexivity |].
  split; [apply length_substring_le |].
  repeat (split; [reflexivity |]).
  split; [unfold getDashboard, gets; cbn; rewrite JSMap_get_set_eq; reflexivity |].
  split; [intros id Hne; apply JSMap_get_set_ne; exact Hne |].
  split; [apply JSMap_values_set_new |].
  split; [apply JSMap_keys_set_present | split; reflexivity].
Qed.

(** [updateDashboard] replaces a stored dashboard in place or does nothing. *)
Lemma updateDashboard_frame id updates w :
  JSMap.keys (dashboards (this (snd (updateDashboard id updates w))))
  = JSMap.keys (dashboards (this w))
  /\ reports (this (snd (updateDashboard id updates w))) = reports (this w)
  /\ dataCache (this (snd (updateDashboard id updates w))) = dataCache (this w).
Proof.
  destruct (JSMap.get id (dashboards (this w))) as [dashboard|] eqn:Hget;
    unfold updateDashboard; unfold_eff; rewrite Hget; cbn; [| auto].
  split; [| auto]. apply JSMap_keys_set_present. rewrite Hget. eauto.
Qed.

(** X5. For updates in which every property is absent or holds a value of
    its type (what [DashboardUpdates] holds; an object with a property set to
    [undefined] is not among them): [updateDashboard] does not throw and does
    not add, remove or move a dashboard, the ids of the store are the same, in
    the same order.  The record stored under [id] becomes the spread of the
    updates over it with the time of the call as [updatedAt], so an
    [updatedAt] among the updates is ignored, and an [id] among the updates
    changes the [id] field of the record but not the key it is stored
    under. *)
Theorem updateDashboard_keeps_the_keys id updates w :
  exists w',
    updateDashboard id updates w = (Ok tt, w')
    /\ JSMap.keys (dashboards (this w')) = JSMap.keys (dashboards (this w))
    /\ (forall id', id' <> id ->
          JSMap.get id' (dashboards (this w')) = JSMap.get id' (dashboards (this w)))
    /\ match JSMap.get id (dashboards (this w)) with
       | Some dashboard =>
           exists stored,
             JSMap.get id (dashboards (this w')) = Some stored
             /\ stored = spread dashboard updates (nextNow (env w))
             /\ d_updatedAt stored = nextNow (env w)
             /\ d_id stored = default (d_id dashboard) (u_id updates)
       | None => w' = w
       end
    /\ reports (this w') = reports (this w)
    /\ dataCache (this w') = dataCache (this w).
Proof.
  destruct (JSMap.get id (dashboards (this w))) as [dashboard|] eqn:Hget;
    unfold updateDashboard; unfold_eff; rewrite Hget; cbn.
  - eexists. split; [reflexivity |]. cbn.
    split; [apply JSMap_keys_set_present; rewrite Hget; eauto |].
    split; [intros id' Hne; apply JSMap_get_set_ne; exact Hne |].
    split; [| split; reflexivity].
    eexists. split; [apply JSMap_get_set_eq |]. repeat split.
  - exists w. repeat split.
Qed.

(** X6. The entries of the cache are per time range: a call of
    [generateAnalyticsData] for one range, whatever its outcome, leaves the
    entry of every other range exactly as it was (present or not). *)
Theorem cache_entries_are_per_time_range G timeRange other w :
  other <> timeRange ->
  dataCache (this (snd (generateAnalyticsData G timeRange w))) !! cacheKeyOf other
  = dataCache (this w) !! cacheKeyOf other.
Proof.
  intros Hne.
  destruct (generateAnalyticsData G timeRange w) as [r w'] eqn:Hrun. cbn.
  apply generateAnalyticsData_frame in Hrun as (_ & _ & _ & Hother & _).
  apply Hother. intros Heq. apply Hne, cacheKeyOf_inj, Heq.
Qed.

(** ** Sequences of calls *)

Section Sequences.

Variable toString36 : float -> string.
Variable G : Generators.

(** What a [generateReport] leaves, whatever its outcome. *)
Lemma generateReport_frame name type timeRange generatedBy w r w' :
  generateReport toString36 G name type timeRange generatedBy w = (r, w') ->
  dashboards (this w') = dashboards (this w)
  /\ (forall key, is_Some (dataCache (this w) !! key) ->
        is_Some (dataCache (this w') !! key))
  /\ match r with
     | Ok report =>
         reports (this w') = JSMap.set (r_id report) report (reports (this w))
     | Throw _ => reports (this w') = reports (this w)
     end.
Proof.
  unfold generateReport, freshId. unfold bind at 1.
  destruct (generateAnalyticsData G timeRange w) as [[d|err] w1] eqn:Hdata;
    apply generateAnalyticsData_frame in Hdata as (Hrep & Hdash & _ & _ & Hcache).
  - unfold_eff. cbn. intros [= <- <-]. cbn. rewrite Hrep. auto.
  - intros [= <- <-]. auto.
Qed.

Lemma Grown_refl w w' : this w' = this w -> Grown w w'.
Proof. intros H. unfold Grown. rewrite H. auto. Qed.

Lemma runCall_grows c w : Grown w (runCall toString36 G c w).
Proof.
  destruct c; cbn [runCall]; try (apply Grown_refl; reflexivity).
  - destruct (generateAnalyticsData G timeRange w) as [r w'] eqn:Hrun. cbn.
    apply generateAnalyticsData_frame in Hrun as (Hrep & Hdash & _ & _ & Hcache).
    unfold Grown. rewrite Hrep, Hdash. auto.
  - destruct (generateReport toString36 G name type timeRange generatedBy w)
      as [r w'] eqn:Hrun. cbn.
    apply generateReport_frame in Hrun as (Hdash & Hcache & Hrep).
    unfold Grown. rewrite Hdash. split; [| auto].
    destruct r; rewrite Hrep; [apply JSMap_keys_set | reflexivity].
  - unfold createDashboard, freshId. unfold_eff. cbn.
    unfold Grown. cbn. split; [reflexivity |]. split; [apply JSMap_keys_set | auto].
  - destruct (updateDashboard_frame id updates w) as (Hkeys & Hrep & Hcache).
    unfold Grown. rewrite Hkeys, Hrep, Hcache. auto.
  - unfold exportReport. unfold_eff.
    destruct (JSMap.get reportId (reports (this w))); cbn; apply Grown_refl; reflexivity.
  - unfold checkAlerts. unfold_eff. cbn.
    destruct (0.7 <? nextRandom (env w))%float; cbn;
      match goal with |- context [(0.8 <? ?r)%float] => destruct (0.8 <? r)%float end;
      cbn; apply Grown_refl; reflexivity.
Qed.

Lemma Grown_trans w1 w2 w3 : Grown w1 w2 -> Grown w2 w3 -> Grown w1 w3.
Proof.
  intros (H1 & H2 & H3) (H1' & H2' & H3'). repeat split.
  - etransitivity; eassumption.
  - etransitivity; eassumption.
  - auto.
Qed.

(** X7. No sequence of calls of the public methods removes anything: the
    ids of the reports and of the dashboards that were stored are still
    stored, in the same places, and every key of the cache is still in the
    cache (nothing is evicted). *)
Theorem no_call_removes_anything calls w :
  let w' := runCalls toString36 G calls w in
  JSMap.keys (reports (this w)) `prefix_of` JSMap.keys (reports (this w'))
  /\ JSMap.keys (dashboards (this w)) `prefix_of` JSMap.keys (dashboards (this w'))
  /\ forall key, is_Some (dataCache (this w) !! key) ->
                 is_Some (dataCache (this w') !! key).
Proof.
  cbv zeta. change (Grown w (runCalls toString36 G calls w)).
  revert w. induction calls as [|c calls IH]; intros w; cbn.
  - apply Grown_refl. reflexivity.
  - eapply Grown_trans; [apply runCall_grows | apply IH].
Qed.

Lemma keyed_get (m : JSMap.t Report) id report :
  Forall (fun entry : string * Report => r_id entry.2 = entry.1) m ->
  JSMap.get id m = Some report -> r_id report = id.
Proof.
  induction 1 as [|[k r] m Hk Hm IH]; cbn; [discriminate |].
  destruct (String.eqb_spec id k) as [-> | Hne]; [| exact IH].
  intros [= <-]. exact Hk.
Qed.

Lemma keyed_set (m : JSMap.t Report) report :
  Forall (fun entry : string * Report => r_id entry.2 = entry.1) m ->
  Forall (fun entry : string * Report => r_id entry.2 = entry.1)
    (JSMap.set (r_id report) report m).
Proof.
  induction 1 as [|[k r] m Hk Hm IH]; cbn.
  - constructor; [reflexivity | constructor].
  - destruct (String.eqb_spec (r_id report) k) as [Heq | Hne].
    + constructor; [exact Heq | exact Hm].
    + constructor; [exact Hk | exact IH].
Qed.

Lemma runCall_keyed c w :
  ReportsKeyedById w -> ReportsKeyedById (runCall toString36 G c w).
Proof.
  unfold ReportsKeyedById. intros Hw.
  destruct c; cbn [runCall]; try exact Hw.
  - destruct (generateAnalyticsData G timeRange w) as [r w'] eqn:Hrun. cbn.
    apply generateAnalyticsData_frame in Hrun as (-> & _). exact Hw.
  - destruct (generateReport toString36 G name type timeRange generatedBy w)
      as [r w'] eqn:Hrun. cbn.
    apply generateReport_frame in Hrun as (_ & _ & Hrep).
    destruct r; rewrite Hrep; [apply keyed_set, Hw | exact Hw].
  - destruct (updateDashboard_frame id updates w) as (_ & Hrep & _).
    rewrite Hrep. exact Hw.
  - unfold exportReport. unfold_eff.
    destruct (JSMap.get reportId (reports (this w))); cbn; exact Hw.
  - unfold checkAlerts. unfold_eff. cbn.
    destruct (0.7 <? nextRandom (env w))%float; cbn;
      match goal with |- context [(0.8 <? ?r)%float] => destruct (0.8 <? r)%float end;
      cbn; exact Hw.
Qed.

(** X8. When every report is stored under its own id, this is still so after
    any sequence of calls of the public methods, and a report that
    [getReport id] returns has the id [id]. *)
Theorem stored_reports_keep_their_id calls w :
  ReportsKeyedById w ->
  ReportsKeyedById (runCalls toString36 G calls w)
  /\ forall id report,
       getReport id (runCalls toString36 G calls w)
       = (Ok (Some report), runCalls toString36 G calls w) ->
       r_id report = id.
Proof.
  intros Hw.
  assert (Hkeyed : ReportsKeyedById (runCalls toString36 G calls w)).
  { revert w Hw. induction calls as [|c calls IH]; intros w Hw; cbn; [exact Hw |].
    apply IH, runCall_keyed, Hw. }
  split; [exact Hkeyed |].
  intros id report. unfold getReport, gets. intros [= Hget].
  eapply keyed_get; eassumption.
Qed.

End Sequences.

(** Examples for the statements above. *)
Lemma generateReport_stores_witness :
  exists report w',
    generateReport Demo.toString36 simulated "Monthly Ops" monthly "month" "alice"
      Demo.fresh = (Ok report, w')
    /\ r_name report = "Monthly Ops"
    /\ r_type report = monthly
    /\ getReport (r_id report) w' = (Ok (Some report), w').
Proof.
  destruct (generateAnalyticsData_total simulated "month" Demo.fresh simulated_total)
    as (d & w1 & Hdata).
  destruct (generateReport_stores_the_report Demo.toString36 simulated
              "Monthly Ops" monthly "month" "alice" Demo.fresh d w1 Hdata)
    as (report & w' & Hrun & _ & Hname & Htype & _ & _ & _ & _ & _ & Hget & _).
  exists report, w'. auto.
Defined.

Lemma generateReport_failure_witness :
  fst (generateReport Demo.toString36 Demo.broken "Monthly Ops" monthly "month" "alice"
         Demo.stale) = Throw (Error "customer store unavailable")
  /\ this (snd (generateReport Demo.toString36 Demo.broken "Monthly Ops" monthly "month"
                  "alice" Demo.stale)) = this Demo.stale.
Proof.
  assert (Hfst : fst (generateAnalyticsData Demo.broken "month" Demo.stale)
                 = Throw (Error "customer store unavailable")).
  { vm_compute. reflexivity. }
  destruct (generateAnalyticsData Demo.broken "month" Demo.stale) as [r w1] eqn:Hdata.
  cbn in Hfst. subst r.
  destruct (generateReport_propagates_failure Demo.toString36 Demo.broken
              "Monthly Ops" monthly "month" "alice" Demo.stale _ _ Hdata)
    as (Hrun & Hthis & _).
  rewrite Hrun. cbn. auto.
Defined.

Lemma reports_share_bundle_witness :
  exists r1 r2 w2,
    fst (generateReport Demo.toString36 simulated "Monthly Ops" monthly "month" "alice"
           Demo.fresh) = Ok r1
    /\ generateReport Demo.toString36 simulated "Weekly Ops" weekly "month" "bob"
         Demo.reported = (Ok r2, w2)
    /\ r_data r2 = r_data r1
    /\ facetCalls w2 = facetCalls Demo.reported.
Proof.
  destruct (generateReport_total Demo.toString36 simulated "Monthly Ops" monthly "month"
              "alice" Demo.fresh simulated_total) as (r1 & w1 & Hfirst).
  assert (Hw1 : w1 = Demo.reported).
  { unfold Demo.reported. rewrite Hfirst. reflexivity. }
  subst w1.
  assert (Hcached : exists cached,
            dataCache (this Demo.reported) !! cacheKeyOf "month" = Some cached
            /\ nextNow (env Demo.reported) - timestamp cached < cacheExpiry).
  { eexists. split; [vm_compute; reflexivity | vm_compute; reflexivity]. }
  destruct Hcached as (cached & Hsome & Hyoung).
  destruct (reports_within_expiry_share_the_bundle Demo.toString36 simulated
              "Monthly Ops" monthly "alice" "Weekly Ops" weekly "bob" "month"
              Demo.fresh r1 Demo.reported cached Hfirst Hsome Hyoung)
    as (r2 & w2 & Hsecond & Hdata & Hcalls).
  exists r1, r2, w2. rewrite Hfirst. auto.
Defined.

Lemma cache_per_time_range_witness :
  dataCache (this (snd (generateAnalyticsData simulated "month" Demo.fresh)))
    !! cacheKeyOf "week"
  = dataCache (this Demo.fresh) !! cacheKeyOf "week".
Proof.
  apply (cache_entries_are_per_time_range simulated "month" "week" Demo.fresh).
  discriminate.
Defined.

Lemma stored_reports_keep_their_id_witness :
  ReportsKeyedById
    (runCalls Demo.toString36 simulated
       [CallGenerateReport "Monthly Ops" monthly "month" "alice";
        CallUpdateDashboard "dashboard-001" (idOnly "dashboard-002");
        CallGenerateReport "Weekly Ops" weekly "week" "bob"]
       Demo.fresh).
Proof.
  apply (stored_reports_keep_their_id Demo.toString36 simulated).
  constructor.
Defined.

(** An [id] among the updates leaves the dashboard under its old key. *)
Example updateDashboard_id_mismatch :
  match updateDashboard "dashboard-001" (idOnly "dashboard-002") Demo.fresh with
  | (Ok _, w) =>
      d_id <$> JSMap.get "dashboard-001" (dashboards (this w)) = Some "dashboard-002"
      /\ JSMap.get "dashboard-002" (dashboards (this w)) = None
      /\ JSMap.keys (dashboards (this w)) = ["dashboard-001"]
  | (Throw _, _) => False
  end.
Proof. vm_compute. repeat split. Qed.

(** Two dashboards created in the same millisecond with the same random draw
    get the same id: the second replaces the first. *)
Example createDashboard_id_collision :
  let input name := {|
    i_name := name; i_description := ""; i_widgets := [];
    i_layout := {| columns := 1; rows := 1; l_widgets := [] |};
    i_isPublic := false; i_createdBy := "alice" |} in
  let w0 := Demo.boot (Demo.scriptedEnv [0; 0; 7; 1; 2; 7; 3; 4]) in
  let w2 := snd (createDashboard Demo.toString36 (input "second")
                   (snd (createDashboard Demo.toString36 (input "first") w0))) in
  JSMap.keys (dashboards (this w2)) = ["dashboard-001"; "dashboard-7-i"]
  /\ map d_name (JSMap.values (dashboards (this w2))) = ["Operations Overview"; "second"].
Proof. vm_compute. repeat split. Qed.

(** * Properties of the customers module *)

(** Unfolds the operations of [Eff] in a method of the customers module. *)
Ltac unfold_customers :=
  unfold Customers.freshId, Customers.consoleLog, Customers.inEnv, zoom, bind, ret, gets,
    modify, throw, newDate, dateNow, mathRandom in *.

(** Sorting depends on the comparator through the sign test only. *)
Lemma arraySort_ext {A} (f g : A -> A -> Z) (l : list A) :
  (forall a b, (f a b <=? 0) = (g a b <=? 0)) -> arraySort f l = arraySort g l.
Proof.
  intros H. induction l as [|a l IH]; [reflexivity |].
  change (sortInsert f a (arraySort f l) = sortInsert g a (arraySort g l)).
  rewrite IH. generalize (arraySort g l). intros s.
  induction s as [|b s IHs]; cbn; [reflexivity |].
  rewrite H, IHs. reflexivity.
Qed.

(** Ascending order is descending order of the opposite key. *)
Lemma arraySort_ascending {A} (key : A -> Z) (l : list A) :
  arraySort (fun a b => key a - key b) l
  = arraySort (fun a b => - key b - - key a) l.
Proof.
  apply arraySort_ext. intros a b.
  destruct (Z.leb_spec (key a - key b) 0), (Z.leb_spec (- key b - - key a) 0);
    try reflexivity; lia.
Qed.

Lemma StronglySorted_impl {A} (R R' : A -> A -> Prop) (l : list A) :
  (forall a b, R a b -> R' a b) -> StronglySorted R l -> StronglySorted R' l.
Proof.
  intros H. induction 1 as [|a l Hl IH Ha]; constructor; [exact IH |].
  eapply Forall_impl; [exact Ha |]. intros b. apply H.
Qed.

Lemma arraySort_ascending_perm {A} (key : A -> Z) (l : list A) :
  arraySort (fun a b => key a - key b) l ≡ₚ l.
Proof. rewrite arraySort_ascending. apply (arraySort_perm (fun a => - key a)). Qed.

Lemma arraySort_ascending_sorted {A} (key : A -> Z) (l : list A) :
  StronglySorted (fun a b => key a <= key b) (arraySort (fun a b => key a - key b) l).
Proof.
  rewrite arraySort_ascending.
  eapply StronglySorted_impl; [| apply (arraySort_sorted (fun a => - key a))].
  cbn. intros a b. lia.
Qed.

Lemma arraySort_ascending_stable {A} (key : A -> Z) (t : Z) (l : list A) :
  filter (fun c => key c = t) (arraySort (fun a b => key a - key b) l)
  = filter (fun c => key c = t) l.
Proof.
  rewrite arraySort_ascending.
  pose proof (arraySort_stable (fun a => - key a) (- t) l) as H.
  assert (E : forall l' : list A,
             filter (fun c => key c = t) l' = filter (fun c => - key c = - t) l').
  { intros l'. apply list_filter_iff. intros c. lia. }
  rewrite !E. exact H.
Qed.

(** [filter] of the source, with a predicate that decides a proposition. *)
Lemma filter_bool_decide {A} (p : A -> bool) (P : A -> Prop) `{forall a, Decision (P a)}
    (l : list A) :
  (forall a, p a = true <-> P a) -> List.filter p l = filter P l.
Proof.
  intros Hp. induction l as [|a l IH]; [reflexivity |].
  rewrite filter_cons. cbn [List.filter]. rewrite IH.
  destruct (p a) eqn:E; case_decide as HP; try reflexivity.
  - apply Hp in E. contradiction.
  - apply Hp in HP. congruence.
Qed.

(** [Map] entries under [set]. *)
Lemma JSMap_set_set {V} key (value : V) m :
  JSMap.set key value (JSMap.set key value m) = JSMap.set key value m.
Proof.
  induction m as [|[k v] m IH]; cbn.
  - rewrite String.eqb_refl. reflexivity.
  - destruct (String.eqb_spec key k) as [-> | Hne]; cbn.
    + rewrite String.eqb_refl. reflexivity.
    + destruct (String.eqb_spec key k); [contradiction |]. rewrite IH. reflexivity.
Qed.

Lemma JSMap_get_None {V} key (m : JSMap.t V) :
  JSMap.get key m = None <-> key ∉ JSMap.keys m.
Proof.
  induction m as [|[k v] m IH]; cbn.
  - split; [intros _; apply not_elem_of_nil | reflexivity].
  - rewrite not_elem_of_cons. destruct (String.eqb_spec key k) as [-> | Hne].
    + split; [discriminate | intros [H _]; contradiction].
    + rewrite IH. tauto.
Qed.

Lemma JSMap_get_entry {V} key (value : V) m :
  JSMap.get key m = Some value -> (key, value) ∈ m.
Proof.
  induction m as [|[k v] m IH]; cbn; [discriminate |].
  destruct (String.eqb_spec key k) as [-> | Hne].
  - intros [= ->]. apply list_elem_of_here.
  - intros H. apply list_elem_of_further, IH, H.
Qed.

Lemma JSMap_entry_get {V} key (value : V) m :
  NoDup (JSMap.keys m) -> (key, value) ∈ m -> JSMap.get key m = Some value.
Proof.
  induction m as [|[k v] m IH]; cbn; intros Hnd Hin.
  - apply elem_of_nil in Hin as [].
  - apply NoDup_cons in Hnd as [Hk Hnd].
    apply elem_of_cons in Hin as [[= -> ->] | Hin].
    + rewrite String.eqb_refl. reflexivity.
    + destruct (String.eqb_spec key k) as [-> | Hne]; [| exact (IH Hnd Hin)].
      exfalso. apply Hk. apply list_elem_of_fmap. exists (k, value). split; [reflexivity | exact Hin].
Qed.

Lemma JSMap_set_entries {V} key (value : V) m k v :
  (k, v) ∈ JSMap.set key value m ->
  (k = key /\ v = value) \/ (k, v) ∈ m.
Proof.
  induction m as [|[k0 v0] m IH]; cbn.
  - intros H. apply list_elem_of_singleton in H as [= -> ->]. left. split; reflexivity.
  - destruct (String.eqb_spec key k0) as [-> | Hne]; intros H.
    + apply elem_of_cons in H as [[= -> ->] | H]; [left; split; reflexivity |].
      right. apply list_elem_of_further, H.
    + apply elem_of_cons in H as [[= -> ->] | H]; [right; apply list_elem_of_here |].
      destruct (IH H) as [? | ?]; [left; assumption | right; apply list_elem_of_further; assumption].
Qed.

Lemma JSMap_values_set_elem {V} key (value : V) m :
  value ∈ JSMap.values (JSMap.set key value m).
Proof.
  apply list_elem_of_fmap. exists (key, value). split; [reflexivity |].
  apply JSMap_get_entry, JSMap_get_set_eq.
Qed.

Lemma JSMap_keys_set_NoDup {V} key (value : V) m :
  NoDup (JSMap.keys m) -> NoDup (JSMap.keys (JSMap.set key value m)).
Proof.
  intros Hnd. destruct (JSMap.get key m) as [v|] eqn:Hget.
  - rewrite JSMap_keys_set_present by (rewrite Hget; eexists; reflexivity). exact Hnd.
  - assert (E : JSMap.keys (JSMap.set key value m) = (JSMap.keys m ++ [key])%list).
    { clear Hnd. induction m as [|[k v] m IH]; [reflexivity |].
      cbn [JSMap.get] in Hget. cbn [JSMap.set].
      destruct (String.eqb_spec key k); [discriminate |].
      unfold JSMap.keys in *. cbn [map fst]. rewrite (IH Hget). reflexivity. }
    rewrite E. apply NoDup_app. split; [exact Hnd |]. split.
    + intros x Hx Hin. apply list_elem_of_singleton in Hin as ->.
      apply JSMap_get_None in Hget. contradiction.
    + apply NoDup_singleton.
Qed.

Lemma arrayFind_None {A} (p : A -> bool) (l : list A) :
  arrayFind p l = None <-> Forall (fun a => p a = false) l.
Proof.
  induction l as [|a l IH]; cbn.
  - split; [constructor | reflexivity].
  - destruct (p a) eqn:E.
    + split; [discriminate |]. intros H. inversion H; congruence.
    + rewrite IH. split; [constructor; assumption |]. intros H. inversion H; assumption.
Qed.

Lemma arrayFind_Some {A} (p : A -> bool) (l : list A) (a : A) :
  arrayFind p l = Some a <->
  exists l1 l2, l = (l1 ++ a :: l2)%list /\ Forall (fun b => p b = false) l1 /\ p a = true.
Proof.
  induction l as [|b l IH]; cbn.
  - split; [discriminate |]. intros ([|? ?] & l2 & H & _); discriminate.
  - destruct (p b) eqn:E.
    + split.
      * intros [= <-]. exists [], l. repeat split; [constructor | exact E].
      * intros ([|c l1] & l2 & H & Hl1 & Ha).
        -- cbn in H. congruence.
        -- cbn in H. injection H as <- _. inversion Hl1; congruence.
    + rewrite IH. split.
      * intros (l1 & l2 & -> & Hl1 & Ha). exists (b :: l1), l2.
        repeat split; [constructor; assumption | exact Ha].
      * intros ([|c l1] & l2 & H & Hl1 & Ha).
        -- cbn in H. injection H as <- _. congruence.
        -- cbn in H. injection H as <- ->. inversion Hl1; subst.
           exists l1, l2. repeat split; assumption.
Qed.

Lemma arrayFind_app {A} (p : A -> bool) (l1 l2 : list A) (a : A) :
  arrayFind p l1 = Some a -> arrayFind p (l1 ++ l2) = Some a.
Proof.
  induction l1 as [|b l1 IH]; cbn; [discriminate |].
  destruct (p b); [trivial | exact IH].
Qed.

Section CustomersProperties.

Import Customers.

Variable toString36 : float -> string.
Variable toLowerCase : string -> string.
Variable numberToString : float -> string.
Variable dateToString : Z -> string.

(** The methods that add or change an entry, run in one step; [text] is the
    line written to the console. *)

Lemma addCustomer_run (customer : Customer) (w : World) :
  exists text,
    addCustomer toString36 customer w
    = let e := env w in
      let newCustomer :=
        customerWith customer (nextId toString36 "cust" e) (reading 1 e) (reading 2 e) in
      (Ok newCustomer,
       {| this := setCustomers (JSMap.set (c_id newCustomer) newCustomer) (this w);
          env := tickClock (tickClock (drawRandom (tickClock e)));
          console := console w ++ [ConsoleLog text] |}).
Proof. eexists. unfold addCustomer, addVehicle, addAppointment. unfold_customers. reflexivity. Qed.

Lemma addVehicle_run (vehicle : Vehicle) (w : World) :
  exists text,
    addVehicle toString36 numberToString vehicle w
    = let e := env w in
      let newVehicle :=
        vehicleWith vehicle (nextId toString36 "veh" e) (reading 1 e) (reading 2 e) in
      (Ok newVehicle,
       {| this := setVehicles (JSMap.set (v_id newVehicle) newVehicle) (this w);
          env := tickClock (tickClock (drawRandom (tickClock e)));
          console := console w ++ [ConsoleLog text] |}).
Proof. eexists. unfold addCustomer, addVehicle, addAppointment. unfold_customers. reflexivity. Qed.

Lemma addAppointment_run (appointment : Appointment) (w : World) :
  exists text,
    addAppointment toString36 dateToString appointment w
    = let e := env w in
      let newAppointment :=
        appointmentWith appointment (nextId toString36 "apt" e) (reading 1 e) (reading 2 e) in
      (Ok newAppointment,
       {| this := setAppointments (JSMap.set (ap_id newAppointment) newAppointment) (this w);
          env := tickClock (tickClock (drawRandom (tickClock e)));
          console := console w ++ [ConsoleLog text] |}).
Proof. eexists. unfold addCustomer, addVehicle, addAppointment. unfold_customers. reflexivity. Qed.

Lemma addServiceRecord_run (record : ServiceRecord) (w : World) :
  exists text,
    addServiceRecord toString36 numberToString record w
    = let e := env w in
      let newRecord := serviceRecordWith record (nextId toString36 "sr" e) (reading 1 e) in
      let vehicle := JSMap.get (s_vehicleId record) (vehicles (this w)) in
      let customer := JSMap.get (s_customerId record) (customers (this w)) in
      let e1 := tickClock (drawRandom (tickClock e)) in
      let e2 := if vehicle is Some _ then tickClock e1 else e1 in
      let e3 := if customer is Some _ then tickClock e2 else e2 in
      (Ok newRecord,
       {| this := {|
            customers :=
              match customer with
              | Some customer =>
                  let customer := customerVisited customer (s_totalAmount record)
                                    (s_serviceDate record) (nextNow e2) in
                  JSMap.set (c_id customer) customer
                    (JSMap.set (s_customerId record) customer (customers (this w)))
              | None => customers (this w)
              end;
            vehicles :=
              match vehicle with
              | Some vehicle =>
                  let vehicle := vehicleServiced vehicle (s_mileage record)
                                   (s_serviceDate record) (nextNow e1) in
                  JSMap.set (v_id vehicle) vehicle
                    (JSMap.set (s_vehicleId record) vehicle (vehicles (this w)))
              | None => vehicles (this w)
              end;
            serviceRecords := JSMap.set (s_id newRecord) newRecord (serviceRecords (this w));
            appointments := appointments (this w) |};
          env := e3;
          console := console w ++ [ConsoleLog text] |}).
Proof.
  eexists. unfold addServiceRecord. unfold_customers. cbn -[JSMap.get JSMap.set].
  destruct (JSMap.get (s_vehicleId record) (vehicles (this w)));
    cbn -[JSMap.get JSMap.set];
    destruct (JSMap.get (s_customerId record) (customers (this w))); reflexivity.
Qed.

Lemma updateAppointmentStatus_run (id status : string) (w : World) :
  exists text,
    updateAppointmentStatus id status w
    = match JSMap.get id (appointments (this w)) with
      | Some appointment =>
          (Ok tt,
           {| this := setAppointments
                        (JSMap.set id (appointmentStatus appointment status (nextNow (env w))))
                        (this w);
              env := tickClock (env w);
              console := console w ++ [ConsoleLog text] |})
      | None => (Ok tt, w)
      end.
Proof.
  eexists. unfold updateAppointmentStatus. unfold_customers.
  destruct (JSMap.get id (appointments (this w))); reflexivity.
Qed.



Lemma upcoming_earliest_first (now : Z) (stored : list Appointment) :
  EarliestFirstOf (Upcoming now) stored
    (arraySort (fun a b => ap_scheduledDate a - ap_scheduledDate b)
       (List.filter (fun appointment =>
            (now <? ap_scheduledDate appointment)
            && (String.eqb "scheduled" (ap_status appointment)
                || String.eqb "confirmed" (ap_status appointment)))
          stored)).
Proof.
  clear toString36 toLowerCase numberToString dateToString.
  rewrite (filter_bool_decide _ (Upcoming now)).
  - split; [apply arraySort_ascending_perm |].
    split; [apply (arraySort_ascending_sorted ap_scheduledDate) |].
    intros t. apply (arraySort_ascending_stable ap_scheduledDate).
  - intros a. unfold Upcoming.
    rewrite andb_true_iff, orb_true_iff, Z.ltb_lt, !String.eqb_eq.
    intuition congruence.
Qed.

(** X10. [getUpcomingAppointments] reads the clock once and returns exactly
    the appointments scheduled strictly after that reading whose status is
    [scheduled] or [confirmed], earliest first, appointments of one date in
    the order they were stored. *)
Theorem upcoming_appointments_are_future_and_open (w : World) :
  exists upcoming,
    getUpcomingAppointments w
    = (Ok upcoming, {| this := this w; env := tickClock (env w); console := console w |})
    /\ EarliestFirstOf (Upcoming (nextNow (env w)))
         (JSMap.values (appointments (this w))) upcoming.
Proof. eexists. split; [reflexivity | apply upcoming_earliest_first]. Qed.


(** X12. [getVehicleByVIN] returns the vehicle stored first among those with
    the VIN, and nothing exactly when no stored vehicle has it; the module is
    left as it was. *)
Theorem getVehicleByVIN_returns_the_first_match (vin : string) (w : World) :
  exists found,
    getVehicleByVIN vin w = (Ok found, w)
    /\ match found with
       | None => Forall (fun v => v_vin v <> vin) (JSMap.values (vehicles (this w)))
       | Some vehicle =>
           v_vin vehicle = vin
           /\ exists earlier later,
                JSMap.values (vehicles (this w)) = (earlier ++ vehicle :: later)%list
                /\ Forall (fun v => v_vin v <> vin) earlier
       end.
Proof.
  eexists. split; [reflexivity |].
  destruct (arrayFind _ _) as [vehicle|] eqn:Hfind.
  - apply arrayFind_Some in Hfind as (l1 & l2 & Hl & Hl1 & Hv).
    apply String.eqb_eq in Hv. split; [exact Hv |].
    exists l1, l2. split; [exact Hl |].
    eapply Forall_impl; [exact Hl1 |]. intros v. apply String.eqb_neq.
  - apply arrayFind_None in Hfind.
    eapply Forall_impl; [exact Hfind |]. intros v. apply String.eqb_neq.
Qed.

(** X13. [addVehicle] does not look at the VIN: a vehicle whose VIN is already
    stored is added under a new id beside the old one, and [getVehicleByVIN]
    goes on returning the old one. *)
Theorem addVehicle_accepts_a_stored_vin (vehicle old : Vehicle) (w : World) :
  JSMap.get (nextId toString36 "veh" (env w)) (vehicles (this w)) = None ->
  fst (getVehicleByVIN (v_vin vehicle) w) = Ok (Some old) ->
  exists newVehicle w',
    addVehicle toString36 numberToString vehicle w = (Ok newVehicle, w')
    /\ v_id newVehicle = nextId toString36 "veh" (env w)
    /\ v_vin newVehicle = v_vin vehicle
    /\ JSMap.values (vehicles (this w'))
       = (JSMap.values (vehicles (this w)) ++ [newVehicle])%list
    /\ fst (getVehicleByVIN (v_vin vehicle) w') = Ok (Some old).
Proof.
  intros Hfresh Hold. destruct (addVehicle_run vehicle w) as [text ->].
  cbv zeta. eexists _, _. split; [reflexivity |].
  split; [reflexivity |]. split; [reflexivity |].
  unfold getVehicleByVIN, gets in *.
  cbn [fst this vehicles setThis setVehicles vehicleWith v_id] in *.
  rewrite JSMap_values_set_new by exact Hfresh.
  split; [reflexivity |].
  injection Hold as Hold. f_equal. apply arrayFind_app. exact Hold.
Qed.

Lemma includes_empty (s : string) : includes s "" = true.
Proof. unfold includes. destruct s; reflexivity. Qed.

(** X14. With a query whose lower-case form is the empty string,
    [searchCustomers] returns every customer, in the order they were
    stored. *)
Theorem searchCustomers_empty_query_lists_everyone (query : string) (w : World) :
  toLowerCase query = "" ->
  searchCustomers toLowerCase query w = (Ok (JSMap.values (customers (this w))), w).
Proof.
  intros Hq. unfold searchCustomers. unfold_customers. rewrite Hq.
  f_equal. f_equal.
  induction (JSMap.values (customers (this w))) as [|c l IH]; [reflexivity |].
  cbn [List.filter]. rewrite includes_empty. cbn [orb]. rewrite IH. reflexivity.
Qed.

Lemma keyedBy_get {V} (id : V -> string) (m : JSMap.t V) key value :
  keyedBy id m -> JSMap.get key m = Some value -> id value = key.
Proof.
  intros [_ Hk] Hget. apply JSMap_get_entry in Hget.
  rewrite Forall_forall in Hk. exact (Hk _ Hget).
Qed.

Lemma keyedBy_set {V} (id : V -> string) (m : JSMap.t V) key value :
  keyedBy id m -> id value = key -> keyedBy id (JSMap.set key value m).
Proof.
  intros [Hnd Hk] Hid. split; [apply JSMap_keys_set_NoDup, Hnd |].
  apply Forall_forall. intros [k v] Hin.
  apply JSMap_set_entries in Hin as [[-> ->] | Hin]; [exact Hid |].
  rewrite Forall_forall in Hk. exact (Hk _ Hin).
Qed.

(** X15. [addServiceRecord] stores the record under the id
    [sr-<Date.now()>-<suffix>], the suffix being [substr(2, 9)] of the
    rendering of the random draw in base 36 (nine characters at most), and
    brings the vehicle and the customer it names up to date: the vehicle
    takes the mileage and the service date of the record, whatever it had,
    the customer's total grows by the amount of the record, and each is
    found afterwards under the key the record names and under its own [id].
    Where the vehicles are stored under their own [id], which rules out one
    object under two keys, that is one key and no other vehicle is touched;
    the same for the customers.  A vehicle or customer id that is not stored
    is passed over: nothing is created for it, and the record is stored all
    the same. *)
Theorem addServiceRecord_brings_vehicle_and_customer_up_to_date
    (record : ServiceRecord) (w : World) :
  let e := env w in
  let vehicle := JSMap.get (s_vehicleId record) (vehicles (this w)) in
  let customer := JSMap.get (s_customerId record) (customers (this w)) in
  exists newRecord w',
    addServiceRecord toString36 numberToString record w = (Ok newRecord, w')
    /\ newRecord = serviceRecordWith record (nextId toString36 "sr" e) (reading 1 e)
    /\ (String.length (substring 2 9 (toString36 (nextRandom e))) <= 9)%nat
    /\ serviceRecords (this w')
       = JSMap.set (s_id newRecord) newRecord (serviceRecords (this w))
    /\ appointments (this w') = appointments (this w)
    /\ match vehicle with
       | Some vehicle =>
           let serviced :=
             vehicleServiced vehicle (s_mileage record) (s_serviceDate record)
               (reading 2 e) in
           JSMap.get (s_vehicleId record) (vehicles (this w')) = Some serviced
           /\ JSMap.get (v_id vehicle) (vehicles (this w')) = Some serviced
           /\ (keyedBy v_id (vehicles (this w)) ->
               vehicles (this w')
               = JSMap.set (s_vehicleId record) serviced (vehicles (this w)))
       | None => vehicles (this w') = vehicles (this w)
       end
    /\ match customer with
       | Some customer =>
           let visited :=
             customerVisited customer (s_totalAmount record) (s_serviceDate record)
               (reading (if vehicle is Some _ then 3 else 2) e) in
           JSMap.get (s_customerId record) (customers (this w')) = Some visited
           /\ JSMap.get (c_id customer) (customers (this w')) = Some visited
           /\ (keyedBy c_id (customers (this w)) ->
               customers (this w')
               = JSMap.set (s_customerId record) visited (customers (this w)))
       | None => customers (this w') = customers (this w)
       end.
Proof.
  intros e vehicle customer.
  destruct (addServiceRecord_run record w) as [text ->]. cbv zeta.
  eexists _, _. split; [reflexivity |]. split; [reflexivity |].
  split; [apply length_substring_le |].
  cbn [this serviceRecords vehicles customers appointments].
  split; [reflexivity |]. split; [reflexivity |]. split.
  - subst vehicle. destruct (JSMap.get _ (vehicles _)) as [v|] eqn:Hget; [| reflexivity].
    change (v_id (vehicleServiced v _ _ _)) with (v_id v).
    split; [| split].
    + destruct (String.eqb_spec (s_vehicleId record) (v_id v)) as [-> | Hne].
      * apply JSMap_get_set_eq.
      * rewrite JSMap_get_set_ne by exact Hne. apply JSMap_get_set_eq.
    + apply JSMap_get_set_eq.
    + intros Hv. rewrite (keyedBy_get _ _ _ _ Hv Hget). apply JSMap_set_set.
  - subst customer. destruct (JSMap.get _ (customers _)) as [c|] eqn:Hget; [| reflexivity].
    change (c_id (customerVisited c _ _ _)) with (c_id c).
    assert (Hreading :
              nextNow (if JSMap.get (s_vehicleId record) (vehicles (this w)) is Some _
                       then tickClock (tickClock (drawRandom (tickClock (env w))))
                       else tickClock (drawRandom (tickClock (env w))))
              = reading (if vehicle is Some _ then 3 else 2) e).
    { subst vehicle e. destruct (JSMap.get _ (vehicles _)); reflexivity. }
    rewrite Hreading. split; [| split].
    + destruct (String.eqb_spec (s_customerId record) (c_id c)) as [-> | Hne].
      * apply JSMap_get_set_eq.
      * rewrite JSMap_get_set_ne by exact Hne. apply JSMap_get_set_eq.
    + apply JSMap_get_set_eq.
    + intros Hc. rewrite (keyedBy_get _ _ _ _ Hc Hget). apply JSMap_set_set.
Qed.

(** X16. After [addServiceRecord] has stored a record under an id that was
    free, the history of the record's customer is the history as it was with
    the new record in it, and the history of every other customer is as it
    was. *)
Theorem added_service_record_joins_the_history (record : ServiceRecord) (w : World) :
  JSMap.get (nextId toString36 "sr" (env w)) (serviceRecords (this w)) = None ->
  exists newRecord w',
    addServiceRecord toString36 numberToString record w = (Ok newRecord, w')
    /\ forall customerId, exists before after,
         fst (getCustomerServiceHistory customerId w) = Ok before
         /\ fst (getCustomerServiceHistory customerId w') = Ok after
         /\ if decide (customerId = s_customerId record)
            then after ≡ₚ newRecord :: before
            else after = before.
Proof.
  intros Hfresh. destruct (addServiceRecord_run record w) as [text ->]. cbv zeta.
  eexists _, _. split; [reflexivity |]. intros customerId.
  eexists _, _. split; [reflexivity |]. split; [reflexivity |].
  cbn [this serviceRecords serviceRecordWith s_id].
  rewrite JSMap_values_set_new by exact Hfresh.
  rewrite List.filter_app. cbn [List.filter serviceRecordWith s_customerId].
  case_decide as Hid.
  - subst customerId. rewrite String.eqb_refl.
    rewrite (arraySort_perm s_serviceDate), (arraySort_perm s_serviceDate).
    rewrite Permutation_app_comm. reflexivity.
  - destruct (String.eqb_spec (s_customerId record) customerId) as [E | _];
      [congruence |].
    rewrite app_nil_r. reflexivity.
Qed.

(** X17. An appointment that [addAppointment] has stored is among the upcoming
    ones at the next call of [getUpcomingAppointments] exactly when it is
    scheduled after the clock reading of that call and was added as
    [scheduled] or [confirmed]. *)
Theorem added_appointment_is_upcoming_iff (appointment : Appointment) (w : World) :
  exists newAppointment w' upcoming w'',
    addAppointment toString36 dateToString appointment w = (Ok newAppointment, w')
    /\ getUpcomingAppointments w' = (Ok upcoming, w'')
    /\ (newAppointment ∈ upcoming <-> Upcoming (reading 3 (env w)) appointment).
Proof.
  destruct (addAppointment_run appointment w) as [text ->]. cbv zeta.
  eexists _, _, _, _. split; [reflexivity |]. split; [reflexivity |].
  destruct (upcoming_earliest_first (reading 3 (env w))
              (JSMap.values (JSMap.set (nextId toString36 "apt" (env w))
                 (appointmentWith appointment (nextId toString36 "apt" (env w))
                    (reading 1 (env w)) (reading 2 (env w)))
                 (appointments (this w))))) as (Hperm & _).
  rewrite Hperm, list_elem_of_filter.
  split; [intros [H _]; exact H |].
  intros H. split; [exact H |]. apply JSMap_values_set_elem.
Qed.

(** X18. Once [updateAppointmentStatus] has given an appointment a status
    other than [scheduled] and [confirmed], [getUpcomingAppointments] does not
    return it, whatever its date; an id that is not stored changes nothing. *)
Theorem closed_appointment_is_not_upcoming (id status : string) (w : World) :
  keyedBy ap_id (appointments (this w)) ->
  status <> "scheduled" -> status <> "confirmed" ->
  exists w' upcoming w'',
    updateAppointmentStatus id status w = (Ok tt, w')
    /\ (JSMap.get id (appointments (this w)) = None -> w' = w)
    /\ getUpcomingAppointments w' = (Ok upcoming, w'')
    /\ Forall (fun a => ap_id a <> id) upcoming.
Proof.
  intros Hkeyed Hs Hc.
  destruct (updateAppointmentStatus_run id status w) as [text Hrun].
  exists (updateAppointmentStatus id status w).2. eexists _, _.
  split; [rewrite Hrun; destruct (JSMap.get id (appointments (this w))); reflexivity |].
  assert (Hw' : exists w', w' = (updateAppointmentStatus id status w).2
                           /\ keyedBy ap_id (appointments (this w'))
                           /\ forall b, JSMap.get id (appointments (this w')) = Some b ->
                                        ap_status b = status).
  { eexists. split; [reflexivity |]. rewrite Hrun.
    destruct (JSMap.get id (appointments (this w))) as [a|] eqn:Hget.
    - cbn [snd this appointments setThis setAppointments]. split.
      + apply keyedBy_set; [exact Hkeyed |]. exact (keyedBy_get _ _ _ _ Hkeyed Hget).
      + intros b. rewrite JSMap_get_set_eq. intros [= <-]. reflexivity.
    - cbn [snd]. split; [exact Hkeyed |]. intros b. rewrite Hget. discriminate. }
  destruct Hw' as (w' & -> & Hk' & Hst).
  split.
  { intros Hnone. rewrite Hrun, Hnone. reflexivity. }
  split; [reflexivity |].
  destruct (upcoming_earliest_first
              (nextNow (env (updateAppointmentStatus id status w).2))
              (JSMap.values (appointments (this (updateAppointmentStatus id status w).2))))
    as (Hperm & _).
  apply Forall_forall. intros b Hb Hid.
  change (b ∈ arraySort (fun a b => ap_scheduledDate a - ap_scheduledDate b)
            (List.filter (fun appointment =>
                 (nextNow (env (updateAppointmentStatus id status w).2)
                    <? ap_scheduledDate appointment)
                 && (String.eqb "scheduled" (ap_status appointment)
                     || String.eqb "confirmed" (ap_status appointment)))
               (JSMap.values (appointments (this (updateAppointmentStatus id status w).2)))))
    in Hb.
  rewrite Hperm in Hb. apply list_elem_of_filter in Hb as [[_ Hopen] Hin].
  apply list_elem_of_fmap in Hin as ([k b'] & -> & Hin).
  destruct Hk' as [Hnd Hall]. rewrite Forall_forall in Hall.
  pose proof (Hall _ Hin) as Hkb. cbn in Hkb, Hid, Hopen.
  assert (k = id) as -> by congruence.
  apply (JSMap_entry_get _ _ _ Hnd) in Hin. apply Hst in Hin.
  destruct Hopen as [E | E]; congruence.
Qed.

Lemma updateCustomer_run (id : string) (updates : CustomerUpdates) (w : World) :
  exists text,
    updateCustomer id updates w
    = match JSMap.get id (customers (this w)) with
      | Some customer =>
          (Ok tt,
           {| this := setCustomers
                        (JSMap.set id (spreadCustomer customer updates (nextNow (env w))))
                        (this w);
              env := tickClock (env w);
              console := console w ++ [ConsoleLog text] |})
      | None => (Ok tt, w)
      end.
Proof.
  unfold updateCustomer. unfold_customers. cbn -[JSMap.get JSMap.set].
  destruct (JSMap.get id (customers (this w))); [| exists EmptyString; reflexivity].
  eexists. reflexivity.
Qed.

Lemma updateVehicle_run (id : string) (updates : VehicleUpdates) (w : World) :
  exists text,
    updateVehicle numberToString id updates w
    = match JSMap.get id (vehicles (this w)) with
      | Some vehicle =>
          (Ok tt,
           {| this := setVehicles
                        (JSMap.set id (spreadVehicle vehicle updates (nextNow (env w))))
                        (this w);
              env := tickClock (env w);
              console := console w ++ [ConsoleLog text] |})
      | None => (Ok tt, w)
      end.
Proof.
  unfold updateVehicle. unfold_customers. cbn -[JSMap.get JSMap.set].
  destruct (JSMap.get id (vehicles (this w))); [| exists EmptyString; reflexivity].
  eexists. reflexivity.
Qed.

(** The calls that may write to the maps. *)
Lemma customers_runCall_this (c : Call) (w : World) :
  this (runCall toString36 toLowerCase numberToString dateToString c w) = this w
  \/ (exists customer, c = CallAddCustomer customer)
  \/ (exists id updates, c = CallUpdateCustomer id updates)
  \/ (exists vehicle, c = CallAddVehicle vehicle)
  \/ (exists id updates, c = CallUpdateVehicle id updates)
  \/ (exists record, c = CallAddServiceRecord record)
  \/ (exists appointment, c = CallAddAppointment appointment)
  \/ (exists id status, c = CallUpdateAppointmentStatus id status).
Proof.
  destruct c; cbn [runCall]; try (left; reflexivity); try (right; eauto 12; fail).
  left. unfold getCustomerAnalytics. unfold_customers.
  destruct (JSMap.get customerId (customers (this w))); reflexivity.
Qed.

(** What every call keeps. *)
Lemma customers_runCall_apart (c : Call) (w : World) :
  KeyedApart (this w) ->
  KeyedApart (this (runCall toString36 toLowerCase numberToString dateToString c w)).
Proof.
  intros Hw.
  destruct (customers_runCall_this c w)
    as [-> | [[x ->] | [(id & u & ->) | [[x ->] | [(id & u & ->) | [[x ->] | [[x ->]
        | (id & status & ->)]]]]]]];
    [exact Hw | | | | | | |]; cbn [runCall]; destruct Hw as (Hc & Hv & Hs & Ha).
  - destruct (addCustomer_run x w) as [text ->]. cbv zeta.
    refine (conj _ (conj Hv (conj Hs Ha))). apply JSMap_keys_set_NoDup, Hc.
  - destruct (updateCustomer_run id u w) as [text ->].
    destruct (JSMap.get id (customers (this w)));
      [| exact (conj Hc (conj Hv (conj Hs Ha)))].
    refine (conj _ (conj Hv (conj Hs Ha))). apply JSMap_keys_set_NoDup, Hc.
  - destruct (addVehicle_run x w) as [text ->]. cbv zeta.
    refine (conj Hc (conj _ (conj Hs Ha))). apply JSMap_keys_set_NoDup, Hv.
  - destruct (updateVehicle_run id u w) as [text ->].
    destruct (JSMap.get id (vehicles (this w)));
      [| exact (conj Hc (conj Hv (conj Hs Ha)))].
    refine (conj Hc (conj _ (conj Hs Ha))). apply JSMap_keys_set_NoDup, Hv.
  - destruct (addServiceRecord_run x w) as [text ->]. cbv zeta.
    cbn [snd this customers vehicles serviceRecords appointments].
    refine (conj _ (conj _ (conj _ Ha)));
      cbn [customers vehicles serviceRecords appointments].
    + destruct (JSMap.get _ (customers _)); [| exact Hc].
      do 2 apply JSMap_keys_set_NoDup. exact Hc.
    + destruct (JSMap.get _ (vehicles _)); [| exact Hv].
      do 2 apply JSMap_keys_set_NoDup. exact Hv.
    + apply keyedBy_set; [exact Hs | reflexivity].
  - destruct (addAppointment_run x w) as [text ->]. cbv zeta.
    refine (conj Hc (conj Hv (conj Hs _))).
    apply keyedBy_set; [exact Ha | reflexivity].
  - destruct (updateAppointmentStatus_run id status w) as [text ->].
    destruct (JSMap.get id (appointments (this w))) as [a|] eqn:Hget;
      [| exact (conj Hc (conj Hv (conj Hs Ha)))].
    refine (conj Hc (conj Hv (conj Hs _))).
    apply keyedBy_set; [exact Ha |].
    exact (keyedBy_get _ _ _ _ Ha Hget).
Qed.

(** What a call that keeps the ids keeps. *)
Lemma customers_runCall_keyed (c : Call) (w : World) :
  keepsIds c ->
  KeyedById (this w) ->
  KeyedById (this (runCall toString36 toLowerCase numberToString dateToString c w)).
Proof.
  intros Hkeeps Hw.
  destruct (customers_runCall_this c w)
    as [-> | [[x ->] | [(id & u & ->) | [[x ->] | [(id & u & ->) | [[x ->] | [[x ->]
        | (id & status & ->)]]]]]]];
    [exact Hw | | | | | | |]; cbn [runCall]; destruct Hw as (Hc & Hv & Hs & Ha).
  - destruct (addCustomer_run x w) as [text ->]. cbv zeta.
    refine (conj _ (conj Hv (conj Hs Ha))).
    apply keyedBy_set; [exact Hc | reflexivity].
  - destruct (updateCustomer_run id u w) as [text ->].
    destruct (JSMap.get id (customers (this w))) as [c|] eqn:Hget;
      [| exact (conj Hc (conj Hv (conj Hs Ha)))].
    refine (conj _ (conj Hv (conj Hs Ha))).
    apply keyedBy_set; [exact Hc |]. cbn [spreadCustomer c_id].
    destruct Hkeeps as [-> | ->]; [exact (keyedBy_get _ _ _ _ Hc Hget) | reflexivity].
  - destruct (addVehicle_run x w) as [text ->]. cbv zeta.
    refine (conj Hc (conj _ (conj Hs Ha))).
    apply keyedBy_set; [exact Hv | reflexivity].
  - destruct (updateVehicle_run id u w) as [text ->].
    destruct (JSMap.get id (vehicles (this w))) as [v|] eqn:Hget;
      [| exact (conj Hc (conj Hv (conj Hs Ha)))].
    refine (conj Hc (conj _ (conj Hs Ha))).
    apply keyedBy_set; [exact Hv |]. cbn [spreadVehicle v_id].
    destruct Hkeeps as [-> | ->]; [exact (keyedBy_get _ _ _ _ Hv Hget) | reflexivity].
  - destruct (addServiceRecord_run x w) as [text ->]. cbv zeta.
    cbn [snd this customers vehicles serviceRecords appointments].
    refine (conj _ (conj _ (conj _ Ha)));
      cbn [customers vehicles serviceRecords appointments].
    + destruct (JSMap.get _ (customers _)) as [c|] eqn:Hget; [| exact Hc].
      apply keyedBy_set; [| reflexivity].
      apply keyedBy_set; [exact Hc |]. exact (keyedBy_get _ _ _ _ Hc Hget).
    + destruct (JSMap.get _ (vehicles _)) as [v|] eqn:Hget; [| exact Hv].
      apply keyedBy_set; [| reflexivity].
      apply keyedBy_set; [exact Hv |]. exact (keyedBy_get _ _ _ _ Hv Hget).
    + apply keyedBy_set; [exact Hs | reflexivity].
  - destruct (addAppointment_run x w) as [text ->]. cbv zeta.
    refine (conj Hc (conj Hv (conj Hs _))).
    apply keyedBy_set; [exact Ha | reflexivity].
  - destruct (updateAppointmentStatus_run id status w) as [text ->].
    destruct (JSMap.get id (appointments (this w))) as [a|] eqn:Hget;
      [| exact (conj Hc (conj Hv (conj Hs Ha)))].
    refine (conj Hc (conj Hv (conj Hs _))).
    apply keyedBy_set; [exact Ha |].
    exact (keyedBy_get _ _ _ _ Ha Hget).
Qed.

Lemma customers_boot_keyed (e : Env) : KeyedById (this (boot e)).
Proof.
  unfold KeyedById, keyedBy. cbn.
  repeat split; repeat constructor;
    rewrite ?not_elem_of_cons; repeat split; try discriminate; apply not_elem_of_nil.
Qed.

Lemma KeyedById_apart (m : CustomersModule) : KeyedById m -> KeyedApart m.
Proof. intros ((Hc & _) & (Hv & _) & Hs & Ha). exact (conj Hc (conj Hv (conj Hs Ha))). Qed.

Lemma customers_runCalls_apart (calls : list Call) (w : World) :
  KeyedApart (this w) ->
  KeyedApart
    (this (runCalls toString36 toLowerCase numberToString dateToString calls w)).
Proof.
  unfold runCalls. revert w.
  induction calls as [|c calls IH]; intros w Hw; [exact Hw |].
  cbn [foldl]. apply IH, customers_runCall_apart, Hw.
Qed.

(** An update of a stored record with another [id] leaves a record that is
    not under its [id]. *)
Lemma updateCustomer_other_id (id other : string) (w : World) :
  is_Some (JSMap.get id (customers (this w))) -> other <> id ->
  ~ KeyedById (this (updateCustomer id (customerIdOnly other) w).2).
Proof.
  intros [customer Hget] Hne (Hc & _).
  destruct (updateCustomer_run id (customerIdOnly other) w) as [text Hrun].
  rewrite Hrun, Hget in Hc. cbn [snd this customers setCustomers] in Hc.
  pose proof (keyedBy_get _ _ _ _ Hc (JSMap_get_set_eq _ _ _)) as Hid.
  cbn in Hid. congruence.
Qed.

Lemma updateVehicle_other_id (id other : string) (w : World) :
  is_Some (JSMap.get id (vehicles (this w))) -> other <> id ->
  ~ KeyedById (this (updateVehicle numberToString id (vehicleIdOnly other) w).2).
Proof.
  intros [vehicle Hget] Hne (_ & Hv & _).
  destruct (updateVehicle_run id (vehicleIdOnly other) w) as [text Hrun].
  rewrite Hrun, Hget in Hv. cbn [snd this vehicles setVehicles] in Hv.
  pose proof (keyedBy_get _ _ _ _ Hv (JSMap_get_set_eq _ _ _)) as Hid.
  cbn in Hid. congruence.
Qed.

(** X19. In every state the module reaches from [new CustomersModule()]
    through the methods of [Call], no map has a key twice and each service
    record and appointment is stored under its own [id].  Each customer and
    vehicle is too, as long as no [updateCustomer] or [updateVehicle] was
    given an [id] other than the key (its updates being absent properties or
    values).  Such an update is what ends it: in any of these states,
    [updateCustomer(id, { id: other })] on a stored customer, or
    [updateVehicle] likewise, leaves a record under a key that is not its
    [id]. *)
Theorem customers_module_stays_keyed_by_id (e : Env) (calls : list Call) :
  let w := runCalls toString36 toLowerCase numberToString dateToString calls (boot e) in
  KeyedApart (this w)
  /\ (Forall keepsIds calls -> KeyedById (this w))
  /\ (forall id other,
        other <> id ->
        (is_Some (JSMap.get id (customers (this w))) ->
         ~ KeyedById (this (updateCustomer id (customerIdOnly other) w).2))
        /\ (is_Some (JSMap.get id (vehicles (this w))) ->
            ~ KeyedById
                (this (updateVehicle numberToString id (vehicleIdOnly other) w).2))).
Proof.
  cbv zeta. split; [| split].
  - apply customers_runCalls_apart, KeyedById_apart, customers_boot_keyed.
  - unfold runCalls. generalize (customers_boot_keyed e). generalize (boot e).
    induction calls as [|c calls IH]; intros w Hw Hkeep; [exact Hw |].
    apply Forall_cons in Hkeep as [Hc Hkeep].
    cbn [foldl]. apply (IH _ (customers_runCall_keyed c w Hc Hw)), Hkeep.
  - intros id other Hne. split; intros Hstored.
    + apply updateCustomer_other_id; assumption.
    + apply updateVehicle_other_id; assumption.
Qed.

Lemma Kept_refl (m : CustomersModule) : Kept m m.
Proof. repeat split; reflexivity. Qed.

Lemma Kept_trans (m1 m2 m3 : CustomersModule) : Kept m1 m2 -> Kept m2 m3 -> Kept m1 m3.
Proof.
  intros (H1 & H2 & H3 & H4) (K1 & K2 & K3 & K4).
  repeat split; etrans; eassumption.
Qed.

Lemma customers_runCall_kept (c : Call) (w : World) :
  Kept (this w) (this (runCall toString36 toLowerCase numberToString dateToString c w)).
Proof.
  destruct (customers_runCall_this c w)
    as [-> | [[x ->] | [(id & u & ->) | [[x ->] | [(id & u & ->) | [[x ->] | [[x ->]
        | (id & status & ->)]]]]]]];
    [apply Kept_refl | | | | | | |]; cbn [runCall].
  - destruct (addCustomer_run x w) as [text ->].
    repeat split; try reflexivity. apply JSMap_keys_set.
  - destruct (updateCustomer_run id u w) as [text ->].
    destruct (JSMap.get id (customers (this w))); [| apply Kept_refl].
    repeat split; try reflexivity. apply JSMap_keys_set.
  - destruct (addVehicle_run x w) as [text ->].
    repeat split; try reflexivity. apply JSMap_keys_set.
  - destruct (updateVehicle_run id u w) as [text ->].
    destruct (JSMap.get id (vehicles (this w))); [| apply Kept_refl].
    repeat split; try reflexivity. apply JSMap_keys_set.
  - destruct (addServiceRecord_run x w) as [text ->]. cbv zeta.
    cbn [snd this customers vehicles serviceRecords appointments].
    repeat split; try reflexivity; try apply JSMap_keys_set.
    + destruct (JSMap.get _ (customers _)); [| reflexivity].
      cbv zeta. etrans; apply JSMap_keys_set.
    + destruct (JSMap.get _ (vehicles _)); [| reflexivity].
      cbv zeta. etrans; apply JSMap_keys_set.
  - destruct (addAppointment_run x w) as [text ->].
    repeat split; try reflexivity. apply JSMap_keys_set.
  - destruct (updateAppointmentStatus_run id status w) as [text ->].
    destruct (JSMap.get id (appointments (this w))); [| apply Kept_refl].
    repeat split; try reflexivity. apply JSMap_keys_set.
Qed.

(** X20. No sequence of calls removes a customer, a vehicle, a service record
    or an appointment: the keys of the four maps stay, in their places.  The
    calls are those of [Call], [updateCustomer] and [updateVehicle] among
    them. *)
Theorem no_customers_call_removes_anything (calls : list Call) (w : World) :
  Kept (this w)
    (this (runCalls toString36 toLowerCase numberToString dateToString calls w)).
Proof.
  unfold runCalls. revert w.
  induction calls as [|c calls IH]; intros w; [apply Kept_refl |].
  cbn [foldl]. eapply Kept_trans; [apply customers_runCall_kept | apply IH].
Qed.

End CustomersProperties.

Lemma addVehicle_stored_vin_witness :
  exists newVehicle w',
    Customers.addVehicle Demo.toString36 CustomersDemo.numberToString
      CustomersDemo.sameVin CustomersDemo.fresh = (Ok newVehicle, w')
    /\ Customers.v_id newVehicle
       = nextId Demo.toString36 "veh" (Customers.env CustomersDemo.fresh)
    /\ Customers.v_vin newVehicle = Customers.v_vin CustomersDemo.sameVin
    /\ JSMap.values (Customers.vehicles (Customers.this w'))
       = (JSMap.values (Customers.vehicles (Customers.this CustomersDemo.fresh))
          ++ [newVehicle])%list
    /\ fst (Customers.getVehicleByVIN (Customers.v_vin CustomersDemo.sameVin) w')
       = Ok (Some CustomersDemo.civic).
Proof.
  apply (addVehicle_accepts_a_stored_vin Demo.toString36 CustomersDemo.numberToString
           CustomersDemo.sameVin CustomersDemo.civic CustomersDemo.fresh).
  - vm_compute. reflexivity.
  - vm_compute. reflexivity.
Defined.

Lemma searchCustomers_empty_query_witness :
  Customers.searchCustomers CustomersDemo.toLowerCase "" CustomersDemo.fresh
  = (Ok (JSMap.values (Customers.customers (Customers.this CustomersDemo.fresh))),
     CustomersDemo.fresh).
Proof.
  apply (searchCustomers_empty_query_lists_everyone CustomersDemo.toLowerCase ""
           CustomersDemo.fresh).
  reflexivity.
Defined.

Lemma addServiceRecord_up_to_date_witness :
  exists newRecord w',
    Customers.addServiceRecord Demo.toString36 CustomersDemo.numberToString
      CustomersDemo.brakeJob CustomersDemo.fresh = (Ok newRecord, w')
    /\ Customers.v_mileage
         <$> JSMap.get "veh-001" (Customers.vehicles (Customers.this w'))
       = Some 41000%float
    /\ Customers.c_totalSpent
         <$> JSMap.get "cust-001" (Customers.customers (Customers.this w'))
       = Some 3097.5%float.
Proof.
  destruct (addServiceRecord_brings_vehicle_and_customer_up_to_date
              Demo.toString36 CustomersDemo.numberToString
              CustomersDemo.brakeJob CustomersDemo.fresh)
    as (newRecord & w' & Hrun & _ & _ & _ & _ & Hv & Hc).
  exists newRecord, w'. split; [exact Hrun |].
  change (JSMap.get (Customers.s_vehicleId CustomersDemo.brakeJob)
            (Customers.vehicles (Customers.this CustomersDemo.fresh)))
    with (Some CustomersDemo.civic) in Hv.
  destruct Hv as (_ & _ & Hv).
  rewrite (Hv (proj1 (proj2 (customers_boot_keyed _)))).
  split; [vm_compute; reflexivity |].
  revert Hc.
  destruct (JSMap.get (Customers.s_customerId CustomersDemo.brakeJob)
              (Customers.customers (Customers.this CustomersDemo.fresh)))
    as [customer|] eqn:Hget; [| vm_compute in Hget; discriminate].
  intros (_ & _ & Hc). rewrite (Hc (proj1 (customers_boot_keyed _))).
  vm_compute in Hget. injection Hget as <-. vm_compute. reflexivity.
Defined.

Lemma added_service_record_witness :
  exists newRecord w',
    Customers.addServiceRecord Demo.toString36 CustomersDemo.numberToString
      CustomersDemo.brakeJob CustomersDemo.fresh = (Ok newRecord, w')
    /\ forall customerId, exists before after,
         fst (Customers.getCustomerServiceHistory customerId CustomersDemo.fresh)
         = Ok before
         /\ fst (Customers.getCustomerServiceHistory customerId w') = Ok after
         /\ if decide (customerId = Customers.s_customerId CustomersDemo.brakeJob)
            then after ≡ₚ newRecord :: before
            else after = before.
Proof.
  apply (added_service_record_joins_the_history Demo.toString36
           CustomersDemo.numberToString CustomersDemo.brakeJob CustomersDemo.fresh).
  vm_compute. reflexivity.
Defined.

Lemma closed_appointment_witness :
  exists w' upcoming w'',
    Customers.updateAppointmentStatus "apt-1700000004000-i" "cancelled"
      CustomersDemo.booked = (Ok tt, w')
    /\ (JSMap.get "apt-1700000004000-i"
          (Customers.appointments (Customers.this CustomersDemo.booked)) = None ->
        w' = CustomersDemo.booked)
    /\ Customers.getUpcomingAppointments w' = (Ok upcoming, w'')
    /\ Forall (fun a => Customers.ap_id a <> "apt-1700000004000-i") upcoming.
Proof.
  apply (closed_appointment_is_not_upcoming "apt-1700000004000-i" "cancelled"
           CustomersDemo.booked).
  - exact (proj2 (proj2 (proj2
             (customers_runCall_keyed Demo.toString36 CustomersDemo.toLowerCase
                CustomersDemo.numberToString CustomersDemo.dateToString
                (Customers.CallAddAppointment CustomersDemo.tomorrow)
                CustomersDemo.fresh I (customers_boot_keyed _))))).
  - discriminate.
  - discriminate.
Defined.

Lemma customers_keyed_witness :
  Customers.KeyedById
    (Customers.this
       (Customers.runCalls Demo.toString36 CustomersDemo.toLowerCase
          CustomersDemo.numberToString CustomersDemo.dateToString
          [Customers.CallUpdateCustomer "cust-001" (Customers.customerIdOnly "cust-001");
           Customers.CallAddServiceRecord CustomersDemo.brakeJob;
           Customers.CallAddAppointment CustomersDemo.tomorrow]
          CustomersDemo.fresh)).
Proof.
  apply (proj1 (proj2 (customers_module_stays_keyed_by_id Demo.toString36
                  CustomersDemo.toLowerCase CustomersDemo.numberToString
                  CustomersDemo.dateToString (Demo.steadyEnv 1000 0.5)
                  [Customers.CallUpdateCustomer "cust-001"
                     (Customers.customerIdOnly "cust-001");
                   Customers.CallAddServiceRecord CustomersDemo.brakeJob;
                   Customers.CallAddAppointment CustomersDemo.tomorrow]))).
  constructor; [right; reflexivity | repeat constructor].
Defined.

(** An update that carries another [id]: the customer stays under its key
    with the new [id], the maps are no longer keyed by id, and the next
    [addServiceRecord] for that key stores the customer under the new [id]
    as well. *)
Example an_update_can_change_the_id :
  let w1 := snd (Customers.updateCustomer "cust-001" (Customers.customerIdOnly "cust-777")
                   CustomersDemo.fresh) in
  let w2 := snd (Customers.addServiceRecord Demo.toString36 CustomersDemo.numberToString
                   CustomersDemo.brakeJob w1) in
  Customers.c_id <$> JSMap.get "cust-001" (Customers.customers (Customers.this w1))
  = Some "cust-777"
  /\ JSMap.keys (Customers.customers (Customers.this w1)) = ["cust-001"; "cust-002"]
  /\ ~ Customers.KeyedById (Customers.this w1)
  /\ JSMap.keys (Customers.customers (Customers.this w2))
     = ["cust-001"; "cust-002"; "cust-777"].
Proof.
  cbv zeta. split; [vm_compute; reflexivity |]. split; [vm_compute; reflexivity |].
  split; [| vm_compute; reflexivity].
  intros ((_ & Hids) & _). apply Forall_cons in Hids as [Hid _].
  vm_compute in Hid. discriminate.
Qed.

(** The appointment booked for tomorrow is upcoming until it is cancelled. *)
Example booked_then_cancelled :
  let ids (w : Customers.World) :=
    match Customers.getUpcomingAppointments w with
    | (Ok upcoming, _) => map Customers.ap_id upcoming
    | (Throw _, _) => []
    end in
  ids CustomersDemo.fresh = []
  /\ ids CustomersDemo.booked = ["apt-1700000004000-i"]
  /\ ids (snd (Customers.updateAppointmentStatus "apt-1700000004000-i"
                 "cancelled" CustomersDemo.booked)) = [].
Proof. vm_compute. repeat split. Qed.

(** The sample customer after a brake job dated before the last service: the
    vehicle goes back to the mileage and the date of the record. *)
Example brake_job_on_the_sample_data :
  match Customers.addServiceRecord Demo.toString36 CustomersDemo.numberToString
          CustomersDemo.brakeJob CustomersDemo.fresh with
  | (Ok newRecord, w) =>
      Customers.s_id newRecord = "sr-1700000004000-i"
      /\ match Customers.getCustomerAnalytics "cust-001" w with
         | (Ok result, _) =>
             Customers.ca_totalSpent result = 3097.5%float
             /\ Customers.ca_totalServices result = 2%float
             /\ Customers.ca_averageServiceCost result = 219.39499999999998%float
             /\ map Customers.s_id (Customers.ca_recentServices result)
                = ["sr-001"; "sr-1700000004000-i"]
         | (Throw _, _) => False
         end
      /\ (Customers.v_mileage
            <$> JSMap.get "veh-001" (Customers.vehicles (Customers.this w)))
         = Some 41000%float
      /\ (isoDate <$> (JSMap.get "veh-001" (Customers.vehicles (Customers.this w))
                       ≫= Customers.v_lastServiceDate))
         = Some "2024-06-01"
  | (Throw _, _) => False
  end.
Proof. vm_compute. repeat split. Qed.

(** A search is by substring, on the lower-case form of the names and of the
    e-mail address, and on the telephone number as it is. *)
Example searchCustomers_samples :
  let found query :=
    match Customers.searchCustomers CustomersDemo.toLowerCase query CustomersDemo.fresh with
    | (Ok customers, _) => map Customers.c_id customers
    | (Throw _, _) => []
    end in
  found "SMITH" = ["cust-001"]
  /\ found "john" = ["cust-001"; "cust-002"]
  /\ found "555-0102" = ["cust-002"]
  /\ found "" = ["cust-001"; "cust-002"]
  /\ found "gold" = [].
Proof. vm_compute. repeat split. Qed.

(** [getCustomerAnalytics] of an id that is not stored. *)
Example getCustomerAnalytics_unknown :
  fst (Customers.getCustomerAnalytics "cust-999" CustomersDemo.fresh)
  = Throw (Error "Customer cust-999 not found").
Proof. vm_compute. reflexivity. Qed.

(** * Properties of the routes of the server *)

Lemma changeFound_ids {A B} (p : A -> bool) (f : A -> A) (id : A -> B) (l : list A) :
  (forall a, id (f a) = id a) -> map id (changeFound p f l) = map id l.
Proof.
  intros Hid. induction l as [|a l IH]; [reflexivity |].
  cbn. destruct (p a); cbn; [rewrite Hid | rewrite IH]; reflexivity.
Qed.

Lemma changeFound_found {A} (p : A -> bool) (f : A -> A) (l : list A) :
  match arrayFind p l with
  | Some a =>
      exists earlier later,
        l = (earlier ++ a :: later)%list
        /\ Forall (fun b => p b = false) earlier
        /\ p a = true
        /\ changeFound p f l = (earlier ++ f a :: later)%list
  | None => changeFound p f l = l
  end.
Proof.
  induction l as [|b l IH]; [reflexivity |].
  cbn. destruct (p b) eqn:E.
  - exists [], l. repeat split; [constructor | exact E].
  - destruct (arrayFind p l) as [a|].
    + destruct IH as (earlier & later & -> & He & Ha & ->).
      exists (b :: earlier), later. repeat split; [constructor; assumption | exact Ha].
    + rewrite IH. reflexivity.
Qed.

Section Routes.

Import MufflerManOS.

(** X21. [updateBayStatus] changes the status of the first bay of the layout
    that has the id, to the value it is given whatever that is, and nothing
    else: the bays before it and after it, also later ones with the same id,
    and the rest of the layout are as they were.  With an id that no bay has
    it changes nothing; it never throws. *)
Theorem updateBayStatus_changes_the_first_bay (bayId : string) (status : Json)
    (node : VRNode) :
  exists node',
    updateBayStatus bayId status node = (Ok tt, node')
    /\ sl_id (layout node') = sl_id (layout node)
    /\ sl_name (layout node') = sl_name (layout node)
    /\ sl_dimensions (layout node') = sl_dimensions (layout node)
    /\ sl_equipment (layout node') = sl_equipment (layout node)
    /\ map bay_id (sl_bays (layout node')) = map bay_id (sl_bays (layout node))
    /\ match arrayFind (fun b => String.eqb (bay_id b) bayId) (sl_bays (layout node)) with
       | Some bay =>
           exists earlier later,
             sl_bays (layout node) = (earlier ++ bay :: later)%list
             /\ Forall (fun b => bay_id b <> bayId) earlier
             /\ bay_id bay = bayId
             /\ sl_bays (layout node')
                = (earlier ++ bayWithStatus bay status :: later)%list
       | None =>
           Forall (fun b => bay_id b <> bayId) (sl_bays (layout node))
           /\ node' = node
       end.
Proof.
  unfold updateBayStatus, bind, gets, modify, ret.
  pose proof (changeFound_found (fun b => String.eqb (bay_id b) bayId)
                (fun bay => bayWithStatus bay status) (sl_bays (layout node))) as Hfound.
  destruct (arrayFind _ (sl_bays (layout node))) as [bay|] eqn:Hfind.
  - eexists. split; [reflexivity |]. cbn [layout setBays sl_id sl_name sl_dimensions
      sl_equipment sl_bays].
    repeat (split; [reflexivity |]).
    split; [apply changeFound_ids; reflexivity |].
    destruct Hfound as (earlier & later & Hl & He & Hb & Hchanged).
    exists earlier, later. split; [exact Hl |].
    split; [eapply Forall_impl; [exact He |]; intros b; apply String.eqb_neq |].
    split; [apply String.eqb_eq, Hb | exact Hchanged].
  - eexists. split; [reflexivity |]. repeat (split; [reflexivity |]).
    split; [| reflexivity].
    apply arrayFind_None in Hfind.
    eapply Forall_impl; [exact Hfind |]. intros b. apply String.eqb_neq.
Qed.

Lemma updateBayStatus_total (bayId : string) (status : Json) (node : VRNode) :
  exists node', updateBayStatus bayId status node = (Ok tt, node').
Proof.
  unfold updateBayStatus, bind, gets, modify, ret.
  destruct (arrayFind _ _); eexists; reflexivity.
Qed.

(** X22. [PUT /api/vr/bay/:bayId/status] never throws.  It answers 500 and
    changes nothing when the request has no body to take [status] from.
    Otherwise it answers 200 with [Bay status updated], whether or not the
    layout has such a bay, after [updateBayStatus] was given the [status]
    property of the body as it is, [undefined] when the body has none; the
    assignments are untouched. *)
Theorem bay_status_route_takes_any_status (bayId : string) (reqBody : Json) (app : App) :
  exists response app',
    putVrBayStatus bayId reqBody app = (Ok response, app')
    /\ if nullish reqBody
       then response = failed 500 "Failed to update bay status" /\ app' = app
       else response = ok (MessageBody "Bay status updated")
            /\ assignmentsModule app' = assignmentsModule app
            /\ vrNode app'
               = snd (updateBayStatus bayId (property "status" reqBody) (vrNode app)).
Proof.
  destruct (updateBayStatus_total bayId (property "status" reqBody) (vrNode app))
    as [node' Hrun].
  destruct reqBody; cbn [nullish];
    try (eexists _, _; split; [reflexivity | split; reflexivity]);
    unfold putVrBayStatus, tryCatch, destructure, bind, ret, inVRNode, zoom;
    rewrite Hrun; eexists _, _; (split; [reflexivity |]); repeat split.
Qed.

(** X23. [POST /api/diagnostics/scan] never throws and changes nothing.  It
    answers 500 when the request has no body, 400 with [VIN is required] when
    the [vin] of the body is missing or false in a condition (the empty
    string, [0], [null], [false]), and otherwise 200 with a scan that has
    that [vin] as it came, of whatever type, [Unknown] as make and model,
    year [0] and no fault code. *)
Theorem scan_route_answers (reqBody : Json) (app : App) :
  postDiagnosticsScan reqBody app
  = (Ok (if nullish reqBody then failed 500 "Vehicle scan failed"
         else if truthy (property "vin" reqBody)
              then ok (ScanBody {|
                         vs_vin := property "vin" reqBody;
                         vs_make := "Unknown";
                         vs_model := "Unknown";
                         vs_year := 0;
                         vs_faultCodes := [] |})
              else failed 400 "VIN is required"),
     app).
Proof.
  destruct reqBody; cbn [nullish]; try reflexivity;
    unfold postDiagnosticsScan, tryCatch, destructure, bind, ret, scanVehicle;
    destruct (truthy _); reflexivity.
Qed.

Lemma handle_answers (request : Request) (app : App) :
  exists response app',
    handle request app = (Ok response, app')
    /\ assignmentsModule app' = assignmentsModule app.
Proof.
  destruct request; cbn [handle].
  - destruct reqBody; try (eexists _, _; split; reflexivity);
      unfold postDiagnosticsScan, tryCatch, destructure, bind, ret, scanVehicle;
      destruct (truthy _); eexists _, _; split; reflexivity.
  - eexists _, _. split; reflexivity.
  - eexists _, _. split; reflexivity.
  - destruct reqBody; eexists _, _; split; reflexivity.
  - eexists _, _. split; reflexivity.
  - destruct (updateBayStatus_total bayId (property "status" reqBody) (vrNode app))
      as [node' Hrun].
    destruct reqBody;
      try (eexists _, _; split; reflexivity);
      unfold putVrBayStatus, tryCatch, destructure, bind, ret, inVRNode, zoom;
      rewrite Hrun; eexists _, _; split; reflexivity.
Qed.

Lemma serve_assignments (requests : list Request) (app : App) :
  assignmentsModule (serve requests app) = assignmentsModule app.
Proof.
  unfold serve. revert app.
  induction requests as [|request requests IH]; intros app; [reflexivity |].
  cbn [foldl]. rewrite IH.
  destruct (handle_answers request app) as (response & app' & -> & Hsame). exact Hsame.
Qed.

(** X24. Whatever requests the server has served since it was started, the
    job queue is empty: [GET /api/assignments/queue] answers 200 with [[]],
    and [POST /api/assignments/assign] answers [Job assigned successfully] to
    any body it can destructure, without assigning anything.  No fault code
    is ever found: [GET /api/diagnostics/fault-code/:code] answers 404 for
    every code.  None of the three changes the state. *)
Theorem no_request_fills_the_job_queue (layout : ShopLayout) (requests : list Request) :
  let app := serve requests (newApp layout) in
  getAssignmentsQueue app = (Ok (ok (QueueBody [])), app)
  /\ (forall reqBody,
        postAssignmentsAssign reqBody app
        = (Ok (if nullish reqBody then failed 500 "Job assignment failed"
               else ok (MessageBody "Job assigned successfully")),
           app))
  /\ (forall code,
        getDiagnosticsFaultCode code app
        = (Ok (failed 404 "Fault code not found"), app)).
Proof.
  intros app.
  assert (Hqueue : jobQueue (assignmentsModule app) = []).
  { subst app. rewrite serve_assignments. reflexivity. }
  split; [| split].
  - unfold getAssignmentsQueue, tryCatch, bind, inAssignments, zoom, getJobQueue, gets, ret.
    rewrite Hqueue. destruct app as [[queue] node]. cbn in *. subst queue. reflexivity.
  - intros reqBody. destruct reqBody; reflexivity.
  - intros code. reflexivity.
Qed.

End Routes.

(** The scan route on some bodies. *)
Example scan_route_samples :
  let answer reqBody :=
    match MufflerManOS.postDiagnosticsScan reqBody
            (MufflerManOS.newApp MufflerManOS.defaultLayout) with
    | (Ok response, _) =>
        (MufflerManOS.status response,
         match MufflerManOS.body response with
         | MufflerManOS.ScanBody scan => Some (MufflerManOS.vs_vin scan)
         | _ => None
         end)
    | (Throw _, _) => (0, None)
    end in
  let vin value := MufflerManOS.JObject [("vin", value)] in
  answer (vin (MufflerManOS.JString "1HGBH41JXMN109186"))
  = (200, Some (MufflerManOS.JString "1HGBH41JXMN109186"))
  /\ answer (vin (MufflerManOS.JNumber 17)) = (200, Some (MufflerManOS.JNumber 17))
  /\ answer (vin (MufflerManOS.JString "")) = (400, None)
  /\ answer (vin (MufflerManOS.JNumber 0)) = (400, None)
  /\ answer (MufflerManOS.JObject []) = (400, None)
  /\ answer MufflerManOS.JUndefined = (500, None).
Proof. vm_compute. repeat split. Qed.

(** The bay route on the default layout: a bay that exists, a bay that does
    not, and a body without [status]. *)
Example bay_status_route_samples :
  let statuses bayId reqBody :=
    match MufflerManOS.putVrBayStatus bayId reqBody
            (MufflerManOS.newApp MufflerManOS.defaultLayout) with
    | (Ok response, app) =>
        (MufflerManOS.status response,
         map MufflerManOS.bay_status
           (MufflerManOS.sl_bays (MufflerManOS.layout (MufflerManOS.vrNode app))))
    | (Throw _, _) => (0, [])
    end in
  let available := MufflerManOS.JString "available" in
  let occupied := MufflerManOS.JObject [("status", MufflerManOS.JString "occupied")] in
  statuses "bay-2" occupied
  = (200, [available; MufflerManOS.JString "occupied"; available])
  /\ statuses "bay-9" occupied = (200, [available; available; available])
  /\ statuses "bay-1" (MufflerManOS.JObject [])
     = (200, [MufflerManOS.JUndefined; available; available])
  /\ statuses "bay-1" MufflerManOS.JNull = (500, [available; available; available]).
Proof. vm_compute. repeat split. Qed.

(** * Properties of the inventory module *)

(** Unfolds the operations of [Eff] in a method of the inventory module. *)
Ltac unfold_inventory :=
  unfold Inventory.freshId, Inventory.consoleLog, Inventory.inEnv, zoom, bind, ret, gets,
    modify, throw, newDate, dateNow, mathRandom in *.

Section InventoryProperties.

Import Inventory.

Variable toString36 : float -> string.
Variable numberToString : float -> string.

(** [addTransaction] run in one step; [text] is the line written to the
    console. *)
Lemma addTransaction_run (transaction : InventoryTransaction) (w : World) :
  exists text,
    addTransaction toString36 numberToString transaction w
    = let e := env w in
      let newTransaction :=
        transactionWith transaction (nextId toString36 "txn" e) (reading 1 e) in
      let item := JSMap.get (t_itemId transaction) (items (this w)) in
      (Ok newTransaction,
       {| this := {|
            items :=
              match item with
              | Some item =>
                  JSMap.set (t_itemId transaction)
                    (itemCounted item (t_newQuantity transaction) (reading 2 e))
                    (items (this w))
              | None => items (this w)
              end;
            transactions :=
              JSMap.set (t_id newTransaction) newTransaction (transactions (this w));
            suppliers := suppliers (this w);
            purchaseOrders := purchaseOrders (this w) |};
          env := (if item is Some _ then tickClock else id)
                   (tickClock (drawRandom (tickClock e)));
          console := console w ++ [ConsoleLog text] |}).
Proof.
  unfold addTransaction. unfold_inventory. cbn -[JSMap.get JSMap.set].
  destruct (JSMap.get (t_itemId transaction) (items (this w))); eexists; reflexivity.
Qed.

(** X25. [addTransaction] takes the caller's word for the stock: it never
    throws, stores the transaction under the id [txn-<Date.now()>-<suffix>],
    the suffix being [substr(2, 9)] of the rendering of the random draw in
    base 36 (nine characters at most, fewer when the rendering is short),
    with the time of the call, and sets the quantity of the item to the
    [newQuantity] of the transaction, whatever its [previousQuantity],
    [quantity] and [type] say.  For an item that is not stored the
    transaction is recorded all the same and no item is created. *)
Theorem addTransaction_takes_the_new_quantity_as_given
    (transaction : InventoryTransaction) (w : World) :
  let e := env w in
  exists newTransaction w',
    addTransaction toString36 numberToString transaction w = (Ok newTransaction, w')
    /\ newTransaction = transactionWith transaction (nextId toString36 "txn" e) (reading 1 e)
    /\ (String.length (substring 2 9 (toString36 (nextRandom e))) <= 9)%nat
    /\ transactions (this w')
       = JSMap.set (t_id newTransaction) newTransaction (transactions (this w))
    /\ items (this w')
       = match JSMap.get (t_itemId transaction) (items (this w)) with
         | Some item =>
             JSMap.set (t_itemId transaction)
               (itemCounted item (t_newQuantity transaction) (reading 2 e))
               (items (this w))
         | None => items (this w)
         end
    /\ suppliers (this w') = suppliers (this w)
    /\ purchaseOrders (this w') = purchaseOrders (this w).
Proof.
  intros e. destruct (addTransaction_run transaction w) as [text ->]. cbv zeta.
  eexists _, _. split; [reflexivity |]. split; [reflexivity |].
  split; [apply length_substring_le |]. repeat split.
Qed.

(** X26. [checkOutItem] throws [Item <id> not found] for an item that is not
    stored and [Insufficient stock ...] when the stock is less than the
    quantity asked for, and in both cases leaves the module as it was: no
    transaction, no reading of the clock.  Otherwise it returns, the stock of
    the item is what it was less the quantity, and one [out] transaction is
    stored that records the stock before and after.  Nothing else is asked
    of the quantity. *)
Theorem checkOutItem_checks_the_stock (itemId : string) (quantity : float)
    (technicianId : string) (jobId notes : option string) (w : World) :
  let e := env w in
  let run := checkOutItem toString36 numberToString itemId quantity technicianId jobId notes in
  match JSMap.get itemId (items (this w)) with
  | None => run w = (Throw (Error ("Item " +:+ itemId +:+ " not found")), w)
  | Some item =>
      if (i_quantity item <? quantity)%float
      then
        run w
        = (Throw (Error ("Insufficient stock for " +:+ i_name item +:+ ". Available: "
                         +:+ numberToString (i_quantity item) +:+ ", Requested: "
                         +:+ numberToString quantity)), w)
      else
        exists w',
          run w = (Ok tt, w')
          /\ items (this w')
             = JSMap.set itemId
                 (itemCounted item (i_quantity item - quantity)%float (reading 2 e))
                 (items (this w))
          /\ transactions (this w')
             = JSMap.set (nextId toString36 "txn" e)
                 (transactionWith
                    (stockMove "out" itemId quantity (i_quantity item)
                       (i_quantity item - quantity)%float "Technician checkout"
                       technicianId jobId notes)
                    (nextId toString36 "txn" e) (reading 1 e))
                 (transactions (this w))
          /\ suppliers (this w') = suppliers (this w)
          /\ purchaseOrders (this w') = purchaseOrders (this w)
  end.
Proof.
  intros e run. subst run. unfold checkOutItem.
  destruct (JSMap.get itemId (items (this w))) as [item|] eqn:Hget.
  - destruct (i_quantity item <? quantity)%float eqn:Hlt.
    + unfold bind at 1, gets at 1. rewrite Hget, Hlt. reflexivity.
    + unfold bind at 1, gets at 1. rewrite Hget, Hlt.
      unfold bind at 1.
      match goal with
      | |- context [addTransaction _ _ ?t w] =>
          destruct (addTransaction_run t w) as [text ->]
      end.
      cbv zeta. cbn [t_itemId stockMove]. rewrite Hget.
      eexists. split; [reflexivity |]. repeat split.
  - unfold bind at 1, gets at 1. rewrite Hget. reflexivity.
Qed.

(** X27. [returnItem] throws [Item <id> not found] for an item that is not
    stored and leaves the module as it was.  Otherwise it returns whatever
    the quantity: the stock of the item is what it was plus the quantity,
    with no regard to [maxQuantity], and one [return] transaction is stored
    that records the stock before and after. *)
Theorem returnItem_adds_to_the_stock (itemId : string) (quantity : float)
    (technicianId : string) (notes : option string) (w : World) :
  let e := env w in
  let run := returnItem toString36 numberToString itemId quantity technicianId notes in
  match JSMap.get itemId (items (this w)) with
  | None => run w = (Throw (Error ("Item " +:+ itemId +:+ " not found")), w)
  | Some item =>
      exists w',
        run w = (Ok tt, w')
        /\ items (this w')
           = JSMap.set itemId
               (itemCounted item (i_quantity item + quantity)%float (reading 2 e))
               (items (this w))
        /\ transactions (this w')
           = JSMap.set (nextId toString36 "txn" e)
               (transactionWith
                  (stockMove "return" itemId quantity (i_quantity item)
                     (i_quantity item + quantity)%float "Technician return"
                     technicianId None notes)
                  (nextId toString36 "txn" e) (reading 1 e))
               (transactions (this w))
        /\ suppliers (this w') = suppliers (this w)
        /\ purchaseOrders (this w') = purchaseOrders (this w)
  end.
Proof.
  intros e run. subst run. unfold returnItem.
  destruct (JSMap.get itemId (items (this w))) as [item|] eqn:Hget.
  - unfold bind at 1, gets at 1. rewrite Hget.
    unfold bind at 1.
    match goal with
    | |- context [addTransaction _ _ ?t w] =>
        destruct (addTransaction_run t w) as [text ->]
    end.
    cbv zeta. cbn [t_itemId stockMove]. rewrite Hget.
    eexists. split; [reflexivity |]. repeat split.
  - unfold bind at 1, gets at 1. rewrite Hget. reflexivity.
Qed.

Lemma updatePurchaseOrderStatus_run (id status : string) (w : World) :
  exists text,
    updatePurchaseOrderStatus id status w
    = match JSMap.get id (purchaseOrders (this w)) with
      | Some order =>
          let received := String.eqb status "received" in
          (Ok tt,
           {| this := setPurchaseOrders
                        (JSMap.set id
                           (orderStatus order status
                              (if received then Some (nextNow (env w)) else None)))
                        (this w);
              env := if received then tickClock (env w) else env w;
              console := console w ++ [ConsoleLog text] |})
      | None => (Ok tt, w)
      end.
Proof.
  unfold updatePurchaseOrderStatus. unfold_inventory. cbn -[JSMap.get JSMap.set String.eqb].
  destruct (JSMap.get id (purchaseOrders (this w))); [| exists EmptyString; reflexivity].
  destruct (String.eqb status "received"); eexists; reflexivity.
Qed.

Lemma updatePurchaseOrderStatus_order (id status id' : string) (order : PurchaseOrder)
    (w : World) :
  JSMap.get id' (purchaseOrders (this w)) = Some order ->
  exists delivery,
    JSMap.get id' (purchaseOrders (this (updatePurchaseOrderStatus id status w).2))
    = Some (if String.eqb id id' then orderStatus order status delivery else order).
Proof.
  intros Hget. destruct (updatePurchaseOrderStatus_run id status w) as [text ->].
  destruct (String.eqb_spec id id') as [-> | Hne].
  - rewrite Hget. cbv zeta. cbn [snd this purchaseOrders setPurchaseOrders].
    rewrite JSMap_get_set_eq. eexists. reflexivity.
  - exists None. destruct (JSMap.get id (purchaseOrders (this w))); [| exact Hget].
    cbv zeta. cbn [snd this purchaseOrders setPurchaseOrders].
    rewrite JSMap_get_set_ne by congruence. exact Hget.
Qed.

(** X28. A purchase order that has a date of delivery keeps one through any
    calls of [updatePurchaseOrderStatus]: only the status [received] writes
    the date, and no status clears it, so an order received and then
    cancelled is a cancelled order with a date of delivery.  The order stays
    stored, with the status of the last update made to it. *)
Theorem delivered_order_stays_delivered (updates : list (string * string)) (id : string)
    (order : PurchaseOrder) (w : World) :
  JSMap.get id (purchaseOrders (this w)) = Some order ->
  is_Some (po_actualDelivery order) ->
  exists order',
    JSMap.get id (purchaseOrders (this (updateOrders updates w))) = Some order'
    /\ is_Some (po_actualDelivery order')
    /\ po_status order'
       = match last (filter (fun update => update.1 = id) updates) with
         | Some update => update.2
         | None => po_status order
         end.
Proof.
  unfold updateOrders. revert order w.
  induction updates as [|[id0 status] updates IH]; intros order w Hget Hdelivered.
  - exists order. repeat split; assumption.
  - cbn [foldl fst snd].
    destruct (updatePurchaseOrderStatus_order id0 status id order w Hget)
      as [delivery Hget1].
    assert (Hdelivered1 :
              is_Some (po_actualDelivery
                         (if String.eqb id0 id then orderStatus order status delivery
                          else order))).
    { destruct (String.eqb id0 id); [| exact Hdelivered].
      cbn. destruct delivery; [eexists; reflexivity | exact Hdelivered]. }
    destruct (IH _ _ Hget1 Hdelivered1) as (order' & Hget' & Hd' & Hstatus).
    exists order'. split; [exact Hget' |]. split; [exact Hd' |].
    rewrite Hstatus, filter_cons. cbn [fst].
    destruct (String.eqb_spec id0 id) as [-> | Hne].
    + rewrite decide_True by reflexivity. rewrite last_cons.
      destruct (last (filter _ updates)); reflexivity.
    + rewrite decide_False by exact Hne. reflexivity.
Qed.

Lemma updateItem_run (id : string) (updates : ItemUpdates) (w : World) :
  exists text,
    updateItem id updates w
    = match JSMap.get id (items (this w)) with
      | Some item =>
          (Ok tt,
           {| this := setItems
                        (JSMap.set id (spreadItem item updates (nextNow (env w))))
                        (this w);
              env := tickClock (env w);
              console := console w ++ [ConsoleLog text] |})
      | None => (Ok tt, w)
      end.
Proof.
  unfold updateItem. unfold_inventory. cbn -[JSMap.get JSMap.set].
  destruct (JSMap.get id (items (this w))); [| exists EmptyString; reflexivity].
  eexists. reflexivity.
Qed.

Lemma addTransaction_apart (transaction : InventoryTransaction) (w : World) :
  KeyedApart (this w) ->
  KeyedApart (this (addTransaction toString36 numberToString transaction w).2).
Proof.
  intros (Hi & Ht & Hs & Hp).
  destruct (addTransaction_run transaction w) as [text ->]. cbv zeta.
  cbn [snd this].
  refine (conj _ (conj _ (conj Hs Hp))); cbn [items transactions].
  - destruct (JSMap.get _ (items _)); [| exact Hi].
    apply JSMap_keys_set_NoDup, Hi.
  - apply keyedBy_set; [exact Ht | reflexivity].
Qed.

Lemma addTransaction_keyed (transaction : InventoryTransaction) (w : World) :
  KeyedById (this w) ->
  KeyedById (this (addTransaction toString36 numberToString transaction w).2).
Proof.
  intros (Hi & Ht & Hs & Hp).
  destruct (addTransaction_run transaction w) as [text ->]. cbv zeta.
  cbn [snd this].
  refine (conj _ (conj _ (conj Hs Hp))); cbn [items transactions].
  - destruct (JSMap.get _ (items _)) as [item|] eqn:Hget; [| exact Hi].
    apply keyedBy_set; [exact Hi |]. exact (keyedBy_get _ _ _ _ Hi Hget).
  - apply keyedBy_set; [exact Ht | reflexivity].
Qed.

Lemma checkOutItem_state (itemId : string) (quantity : float) (technicianId : string)
    (jobId notes : option string) (w : World) :
  exists w',
    (checkOutItem toString36 numberToString itemId quantity technicianId jobId notes w).2
    = w'
    /\ (w' = w
        \/ exists transaction,
             w' = (addTransaction toString36 numberToString transaction w).2).
Proof.
  unfold checkOutItem.
  destruct (JSMap.get itemId (items (this w))) as [item|] eqn:Hget;
    unfold bind at 1, gets at 1; rewrite Hget;
    [| eexists; split; [reflexivity | left; reflexivity]].
  destruct (i_quantity item <? quantity)%float;
    [eexists; split; [reflexivity | left; reflexivity] |].
  unfold bind at 1. eexists. split; [reflexivity |]. right.
  match goal with |- context [addTransaction _ _ ?t w] => exists t end.
  destruct (addTransaction _ _ _ w) as [[t|err] w']; reflexivity.
Qed.

Lemma returnItem_state (itemId : string) (quantity : float) (technicianId : string)
    (notes : option string) (w : World) :
  exists w',
    (returnItem toString36 numberToString itemId quantity technicianId notes w).2 = w'
    /\ (w' = w
        \/ exists transaction,
             w' = (addTransaction toString36 numberToString transaction w).2).
Proof.
  unfold returnItem.
  destruct (JSMap.get itemId (items (this w))) as [item|] eqn:Hget;
    unfold bind at 1, gets at 1; rewrite Hget;
    [| eexists; split; [reflexivity | left; reflexivity]].
  unfold bind at 1. eexists. split; [reflexivity |]. right.
  match goal with |- context [addTransaction _ _ ?t w] => exists t end.
  destruct (addTransaction _ _ _ w) as [[t|err] w']; reflexivity.
Qed.

(** What every call keeps. *)
Lemma inventory_runCall_apart (c : Call) (w : World) :
  KeyedApart (this w) -> KeyedApart (this (runCall toString36 numberToString c w)).
Proof.
  intros Hw. destruct c; cbn [runCall]; try exact Hw.
  - (* addItem *)
    destruct Hw as (Hi & Ht & Hs & Hp).
    refine (conj _ (conj Ht (conj Hs Hp))). apply JSMap_keys_set_NoDup, Hi.
  - (* updateItem *)
    destruct (updateItem_run id updates w) as [text ->].
    destruct (JSMap.get id (items (this w))); [| exact Hw].
    destruct Hw as (Hi & Ht & Hs & Hp).
    refine (conj _ (conj Ht (conj Hs Hp))). apply JSMap_keys_set_NoDup, Hi.
  - apply addTransaction_apart, Hw.
  - destruct (checkOutItem_state itemId quantity technicianId jobId notes w)
      as (w' & -> & [-> | [t ->]]); [exact Hw | apply addTransaction_apart, Hw].
  - destruct (returnItem_state itemId quantity technicianId notes w)
      as (w' & -> & [-> | [t ->]]); [exact Hw | apply addTransaction_apart, Hw].
  - (* addSupplier *)
    destruct Hw as (Hi & Ht & Hs & Hp).
    refine (conj Hi (conj Ht (conj _ Hp))).
    apply keyedBy_set; [exact Hs | reflexivity].
  - (* createPurchaseOrder *)
    destruct Hw as (Hi & Ht & Hs & Hp).
    refine (conj Hi (conj Ht (conj Hs _))).
    apply keyedBy_set; [exact Hp | reflexivity].
  - (* updatePurchaseOrderStatus *)
    destruct (updatePurchaseOrderStatus_run id status w) as [text ->].
    destruct (JSMap.get id (purchaseOrders (this w))) as [order|] eqn:Hget; [| exact Hw].
    destruct Hw as (Hi & Ht & Hs & Hp).
    refine (conj Hi (conj Ht (conj Hs _))).
    apply keyedBy_set; [exact Hp |]. exact (keyedBy_get _ _ _ _ Hp Hget).
Qed.

(** What a call that keeps the ids keeps. *)
Lemma inventory_runCall_keyed (c : Call) (w : World) :
  keepsIds c ->
  KeyedById (this w) -> KeyedById (this (runCall toString36 numberToString c w)).
Proof.
  intros Hkeeps Hw. destruct c; cbn [runCall]; try exact Hw.
  - (* addItem *)
    destruct Hw as (Hi & Ht & Hs & Hp).
    refine (conj _ (conj Ht (conj Hs Hp))).
    apply keyedBy_set; [exact Hi | reflexivity].
  - (* updateItem *)
    destruct (updateItem_run id updates w) as [text ->].
    destruct (JSMap.get id (items (this w))) as [item|] eqn:Hget; [| exact Hw].
    destruct Hw as (Hi & Ht & Hs & Hp).
    refine (conj _ (conj Ht (conj Hs Hp))).
    apply keyedBy_set; [exact Hi |]. cbn [spreadItem i_id].
    destruct Hkeeps as [-> | ->]; [exact (keyedBy_get _ _ _ _ Hi Hget) | reflexivity].
  - apply addTransaction_keyed, Hw.
  - destruct (checkOutItem_state itemId quantity technicianId jobId notes w)
      as (w' & -> & [-> | [t ->]]); [exact Hw | apply addTransaction_keyed, Hw].
  - destruct (returnItem_state itemId quantity technicianId notes w)
      as (w' & -> & [-> | [t ->]]); [exact Hw | apply addTransaction_keyed, Hw].
  - (* addSupplier *)
    destruct Hw as (Hi & Ht & Hs & Hp).
    refine (conj Hi (conj Ht (conj _ Hp))).
    apply keyedBy_set; [exact Hs | reflexivity].
  - (* createPurchaseOrder *)
    destruct Hw as (Hi & Ht & Hs & Hp).
    refine (conj Hi (conj Ht (conj Hs _))).
    apply keyedBy_set; [exact Hp | reflexivity].
  - (* updatePurchaseOrderStatus *)
    destruct (updatePurchaseOrderStatus_run id status w) as [text ->].
    destruct (JSMap.get id (purchaseOrders (this w))) as [order|] eqn:Hget; [| exact Hw].
    destruct Hw as (Hi & Ht & Hs & Hp).
    refine (conj Hi (conj Ht (conj Hs _))).
    apply keyedBy_set; [exact Hp |]. exact (keyedBy_get _ _ _ _ Hp Hget).
Qed.

Lemma inventory_boot_keyed (e : Env) : KeyedById (this (boot e)).
Proof.
  unfold KeyedById, keyedBy. cbn.
  repeat split; repeat constructor;
    rewrite ?not_elem_of_cons; repeat split; try discriminate; apply not_elem_of_nil.
Qed.

Lemma inventory_KeyedById_apart (m : InventoryModule) : KeyedById m -> KeyedApart m.
Proof. intros ((Hi & _) & Ht & Hs & Hp). exact (conj Hi (conj Ht (conj Hs Hp))). Qed.

Lemma inventory_runCalls_apart (calls : list Call) (w : World) :
  KeyedApart (this w) ->
  KeyedApart (this (runCalls toString36 numberToString calls w)).
Proof.
  unfold runCalls. revert w.
  induction calls as [|c calls IH]; intros w Hw; [exact Hw |].
  cbn [foldl]. apply IH, inventory_runCall_apart, Hw.
Qed.

(** An update of a stored item with another [id] leaves an item that is not
    under its [id]. *)
Lemma updateItem_other_id (id other : string) (w : World) :
  is_Some (JSMap.get id (items (this w))) -> other <> id ->
  ~ KeyedById (this (updateItem id (itemIdOnly other) w).2).
Proof.
  intros [item Hget] Hne (Hi & _).
  destruct (updateItem_run id (itemIdOnly other) w) as [text Hrun].
  rewrite Hrun, Hget in Hi. cbn [snd this items setItems] in Hi.
  pose proof (keyedBy_get _ _ _ _ Hi (JSMap_get_set_eq _ _ _)) as Hid.
  cbn in Hid. congruence.
Qed.

(** X29. In every state the module reaches from [new InventoryModule()]
    through the methods of [Call], no map has a key twice and each
    transaction, supplier and purchase order is stored under its own [id].
    Each item is too, as long as no [updateItem] was given an [id] other than
    the key (its updates being absent properties or values).  Such an update
    is what ends it: in any of these states, [updateItem(id, { id: other })]
    on a stored item leaves an item under a key that is not its [id]. *)
Theorem inventory_module_stays_keyed_by_id (e : Env) (calls : list Call) :
  let w := runCalls toString36 numberToString calls (boot e) in
  KeyedApart (this w)
  /\ (Forall keepsIds calls -> KeyedById (this w))
  /\ (forall id other,
        other <> id ->
        is_Some (JSMap.get id (items (this w))) ->
        ~ KeyedById (this (updateItem id (itemIdOnly other) w).2)).
Proof.
  cbv zeta. split; [| split].
  - apply inventory_runCalls_apart, inventory_KeyedById_apart, inventory_boot_keyed.
  - unfold runCalls. generalize (inventory_boot_keyed e). generalize (boot e).
    induction calls as [|c calls IH]; intros w Hw Hkeep; [exact Hw |].
    apply Forall_cons in Hkeep as [Hc Hkeep].
    cbn [foldl]. apply (IH _ (inventory_runCall_keyed c w Hc Hw)), Hkeep.
  - intros id other Hne Hstored. apply updateItem_other_id; assumption.
Qed.

End InventoryProperties.

Lemma delivered_order_witness :
  exists order',
    JSMap.get InventoryDemo.oilOrderId
      (Inventory.purchaseOrders
         (Inventory.this
            (Inventory.updateOrders [(InventoryDemo.oilOrderId, "cancelled")]
               InventoryDemo.received)))
    = Some order'
    /\ is_Some (Inventory.po_actualDelivery order')
    /\ Inventory.po_status order'
       = match last (filter (fun update => update.1 = InventoryDemo.oilOrderId)
                       [(InventoryDemo.oilOrderId, "cancelled")]) with
         | Some update => update.2
         | None => Inventory.po_status InventoryDemo.receivedOrder
         end.
Proof.
  apply (delivered_order_stays_delivered [(InventoryDemo.oilOrderId, "cancelled")]
           InventoryDemo.oilOrderId InventoryDemo.receivedOrder InventoryDemo.received).
  - vm_compute. reflexivity.
  - eexists. reflexivity.
Defined.

Lemma inventory_keyed_witness :
  Inventory.KeyedById
    (Inventory.this
       (Inventory.runCalls Demo.toString36 CustomersDemo.numberToString
          [Inventory.CallUpdateItem "item-003" (Inventory.itemIdOnly "item-003");
           Inventory.CallCheckOutItem "item-003" 2 "tech-001" None None;
           Inventory.CallCreatePurchaseOrder InventoryDemo.oilOrder]
          InventoryDemo.fresh)).
Proof.
  apply (proj1 (proj2 (inventory_module_stays_keyed_by_id Demo.toString36
                  CustomersDemo.numberToString (Demo.steadyEnv 1000 0.5)
                  [Inventory.CallUpdateItem "item-003" (Inventory.itemIdOnly "item-003");
                   Inventory.CallCheckOutItem "item-003" 2 "tech-001" None None;
                   Inventory.CallCreatePurchaseOrder InventoryDemo.oilOrder]))).
  constructor; [right; reflexivity | repeat constructor].
Defined.

(** An update that carries another [id]: the item stays under its key with
    the new [id], and the maps are no longer keyed by id. *)
Example an_item_update_can_change_the_id :
  let w := snd (Inventory.updateItem "item-003" (Inventory.itemIdOnly "item-777")
                  InventoryDemo.fresh) in
  Inventory.i_id <$> JSMap.get "item-003" (Inventory.items (Inventory.this w))
  = Some "item-777"
  /\ JSMap.keys (Inventory.items (Inventory.this w)) = ["item-001"; "item-002"; "item-003"]
  /\ ~ Inventory.KeyedById (Inventory.this w).
Proof.
  cbv zeta. split; [vm_compute; reflexivity |]. split; [vm_compute; reflexivity |].
  intros ((_ & Hids) & _).
  apply Forall_cons in Hids as [_ Hids]. apply Forall_cons in Hids as [_ Hids].
  apply Forall_cons in Hids as [Hid _]. vm_compute in Hid. discriminate.
Qed.

(** An order received and then cancelled. *)
Example received_then_cancelled :
  (fun order => (Inventory.po_status order, Inventory.po_actualDelivery order))
    <$> JSMap.get InventoryDemo.oilOrderId
          (Inventory.purchaseOrders
             (Inventory.this
                (Inventory.updateOrders [(InventoryDemo.oilOrderId, "cancelled")]
                   InventoryDemo.received)))
  = Some ("cancelled", Some 1700000005000).
Proof. vm_compute. reflexivity. Qed.

(** Checking out of the three scanners of the sample data: two, five, minus
    two, and a quantity that is not a number. *)
Example checkOutItem_samples :
  let stock quantity :=
    match Inventory.checkOutItem Demo.toString36 CustomersDemo.numberToString
            "item-003" quantity "tech-001" None None InventoryDemo.fresh with
    | (r, w) =>
        (match r with Ok _ => true | Throw _ => false end,
         Inventory.i_quantity <$> JSMap.get "item-003" (Inventory.items (Inventory.this w)),
         length (Inventory.transactions (Inventory.this w)))
    end in
  stock 2%float = (true, Some 1%float, 1%nat)
  /\ stock 5%float = (false, Some 3%float, 0%nat)
  /\ stock (-2)%float = (true, Some 5%float, 1%nat)
  /\ (let '(returned, quantity, n) := stock nan in
      returned = true /\ (PrimFloat.is_nan <$> quantity) = Some true /\ n = 1%nat).
Proof. vm_compute. repeat split. Qed.

(** A transaction whose figures do not add up sets the stock all the same,
    and one for an item that is not stored is recorded. *)
Example addTransaction_samples :
  let run itemId :=
    let w := snd (Inventory.addTransaction Demo.toString36 CustomersDemo.numberToString
                    (Inventory.stockMove "out" itemId 1 10 99 "count" "tech-001" None None)
                    InventoryDemo.fresh) in
    (Inventory.i_quantity <$> JSMap.get itemId (Inventory.items (Inventory.this w)),
     JSMap.keys (Inventory.transactions (Inventory.this w)),
     JSMap.keys (Inventory.items (Inventory.this w))) in
  run "item-002"
  = (Some 99%float, ["txn-1700000003000-i"], ["item-001"; "item-002"; "item-003"])
  /\ run "item-999"
     = (None, ["txn-1700000003000-i"], ["item-001"; "item-002"; "item-003"]).
Proof. vm_compute. repeat split. Qed.
